(** * The instrument connection engine ([instrument/connection/connection.ts])

    A shallow embedding of class [Connection]: the connection state machine,
    the framing of the incoming byte stream into response lines, the
    identification handshake, the long-operation sub-protocol and the
    command-send discipline.

    The class is single-threaded and event driven.  Every method becomes a
    computation in a small monad [M] that threads the object's fields,
    collects the calls made to external collaborators (activity log,
    browser window, transport, value parser, instrument object, notification
    sources, console) as a trace of [Event]s, and propagates JavaScript
    exceptions.  Timers created with
    [setTimeout]/[setInterval] are kept in an explicit pending list so that a
    timer firing is an ordinary step of the model. *)

From Stdlib Require Import String Ascii List ZArith Bool Arith Lia.
Import ListNotations.
Local Open Scope list_scope.
Local Open Scope string_scope.

Set Implicit Arguments.

(** ** JavaScript string primitives used by the class *)

Module Js.

(** Line feed, the one-character terminator searched by [indexOf]. *)
Definition LF : ascii := Ascii.ascii_of_nat 10.
Definition nl : string := String LF EmptyString.
Arguments LF : simpl never.

(** [s.startsWith(p)] *)
Definition startsWith (s p : string) : bool := String.prefix p s.

(** [s.indexOf(needle)], with [None] for the result [-1]. *)
Definition indexOf (s needle : string) : option nat := String.index 0 needle s.

(** [s.substr(start, len)] *)
Definition substr (s : string) (start len : nat) : string :=
  String.substring start len s.

(** [s.substr(start)]: everything from [start] to the end. *)
Definition substr_from (s : string) (start : nat) : string :=
  String.substring start (String.length s - start) s.

(** Truthiness of a [string | undefined]: [undefined] and the empty string
    are falsy. *)
Definition truthy_string (o : option string) : bool :=
  match o with
  | None => false
  | Some s => negb (String.eqb s "")
  end.

(** Truthiness of an optional boolean property. *)
Definition truthy_bool (o : option bool) : bool :=
  match o with
  | Some true => true
  | _ => false
  end.

End Js.

(** ** Data declared in the file *)

(** [enum ConnectionState] *)
Inductive ConnectionState := IDLE | CONNECTING | CONNECTED | DISCONNECTING.

Definition ConnectionState_eqb (a b : ConnectionState) : bool :=
  match a, b with
  | IDLE, IDLE | CONNECTING, CONNECTING
  | CONNECTED, CONNECTED | DISCONNECTING, DISCONNECTING => true
  | _, _ => false
  end.

(** [CONF_HOUSEKEEPING_INTERVAL] and [CONF_IDN_EXPECTED_TIMEOUT] *)
Definition CONF_HOUSEKEEPING_INTERVAL : Z := 100.
Definition CONF_IDN_EXPECTED_TIMEOUT : Z := 1000.

(** ** Declarations imported from modules outside the file *)

(** Modelled from the spec: [ConnectionErrorCode] is declared in
    [instrument/connection/interface], which is not part of the sources at
    hand.  The class only ever names [NONE]; the spec's taxonomy lists
    "transport-reported connection failures" next to it, which are kept as
    opaque numbered codes. *)
Inductive ConnectionErrorCode := NONE | TRANSPORT_FAILURE (code : nat).

(** Modelled from the spec: [ConnectionParameters] (same missing module).  The
    class reads only the [type] discriminator ("ethernet" selects the
    ethernet transport, anything else the serial one). *)
Record ConnectionParameters := { type : string }.

(** The two [CommunicationInterface] implementations the class
    instantiates. *)
Inductive CommunicationInterface := EthernetInterface | SerialInterface.

(** The part of [InstrumentObject] the class reads. *)
Record InstrumentObject := {
  id : string;
  lastConnection : option ConnectionParameters;
  autoConnect : bool
}.

(** Modelled from the spec: the result of the external value parser
    [parseScpiValue], "typed value (string | numeric | structured)".  The
    class only tests [typeof value !== "string"]. *)
Inductive ScpiValue :=
| ScpiString (s : string)
| ScpiNumeric (n : Z)
| ScpiStructured (repr : string).

(** Everything the class imports and the sources at hand do not contain:
    the objects implementing [interface LongOperation] (with the two
    classes [FileUpload] and [FileDownload]), the value parser and the
    coalescing duration.  The development is parametric in them.  The
    methods of a long operation are taken as functions of the operation's
    own state; what they may do to the transport on their own is outside the
    class and outside this model. *)
Class Imports := {
  (** state of an object implementing [interface LongOperation] *)
  LongOperation : Type;
  (** [Partial<IActivityLogEntry>] *)
  ActivityLogEntry : Type;
  (** [IFileDownloadInstructions] *)
  IFileDownloadInstructions : Type;
  (** [longOperation.logEntry] *)
  logEntry : LongOperation -> ActivityLogEntry;
  (** [longOperation.abort()] *)
  abort : LongOperation -> LongOperation;
  (** [longOperation.onData(data)] *)
  feed : string -> LongOperation -> LongOperation;
  (** [longOperation.isDone()] *)
  isDone : LongOperation -> bool;
  (** [longOperation.dataSurplus] *)
  dataSurplus : LongOperation -> option string;
  (** [longOperation instanceof FileUpload || longOperation instanceof FileDownload] *)
  isFileTransfer : LongOperation -> bool;
  (** [new FileUpload(connection, data)] *)
  newFileUpload : string -> LongOperation;
  (** [new FileDownload(connection, instructions)] *)
  newFileDownload : IFileDownloadInstructions -> LongOperation;
  (** [parseScpiValue(data)] from [instrument/scpi] *)
  parseScpiValue : string -> ScpiValue;
  (** [CONF_COMBINE_IF_BELOW_MS] from [instrument/conf] *)
  CONF_COMBINE_IF_BELOW_MS : Z
}.

(** How a method invocation ends: it returns, or a JavaScript exception
    escapes it. *)
Inductive Outcome (A : Type) :=
| Returned (a : A)
| Thrown (err : string).
Arguments Returned {A} a.
Arguments Thrown {A} err.

Section Engine.

Context {imports : Imports}.

(** ** Calls to external collaborators *)

(** The value handed to [sendValue]: a parsed response or the
    [{ logEntry }] object announcing a finished long operation. *)
Inductive SentValue :=
| ParsedValue (value : ScpiValue)
| LongOperationResult (entry : ActivityLogEntry).

(** The [message] of an activity-log entry: plain text, or the fields of the
    object passed to [JSON.stringify]. *)
Inductive LogMessage :=
| Text (message : string)
| ConnectedInfo (parameters : option ConnectionParameters)
| DisconnectedInfo (duration : Z) (err : option string)
| ConnectFailedInfo (parameters : option ConnectionParameters)
    (err : option string).

Inductive Event :=
(** [log({ oid, type, message }, { undoable: false })] *)
| log (type : string) (message : LogMessage)
(** [console.error(message)] *)
| console_error (message : string)
(** [browserWindow.webContents.send("instrument/connection/value", value)] *)
| webContents_send (windowId : nat) (value : SentValue)
(** the call [parseScpiValue(data)] *)
| scpi_parse (data : string)
(** [this.instrument.setIdn(value)] *)
| instrument_setIdn (value : string)
(** [new EthernetInterface(this)] / [new SerialInterface(this)] *)
| interface_new (which : CommunicationInterface)
(** [communicationInterface.connect()] *)
| interface_connect (which : CommunicationInterface)
(** [communicationInterface.disconnect()] *)
| interface_disconnect (which : CommunicationInterface)
(** [communicationInterface.write(data)] *)
| interface_write (which : CommunicationInterface) (data : string)
(** [registerSource(this.notifySource)], with the [id] of the source *)
| registerSource (sourceId : string)
(** [autorun(() => { this.sendConnectionStatusMessage(); })]: the status
    publication is handed to MobX, which runs it from then on *)
| autorun_sendConnectionStatusMessage
(** [this.disposer()], ending that reaction *)
| disposer_call
(** [unregisterSource(this.notifySource)] *)
| unregisterSource (sourceId : string).

(** ** Timers *)

(** The three callbacks the class registers with the event loop. *)
Inductive Callback :=
| flushData_callback      (* () => { this.flushData(); } *)
| idnTimeout_callback     (* the arrow function in sendIdn *)
| housekeeping_callback.  (* this.housekeeping *)

Record Timer := {
  handle : nat;
  callback : Callback;
  delay : Z;
  repeating : bool        (* setInterval rather than setTimeout *)
}.

(** ** The fields of [class Connection]

    [timers] and [nextTimerId] are the event loop's pending timers; all other
    fields are the object's own.  [idnExpected] starts out [undefined] in the
    source, which every test treats like [false].  [connectedStartTime] is
    read only while [wasConnected], which [connected()] sets together with
    it. *)
Record Connection := {
  state : ConnectionState;
  errorCode : ConnectionErrorCode;
  error : option string;
  communicationInterface : option CommunicationInterface;
  wasConnected : bool;
  connectedStartTime : Z;
  data : option string;
  idnExpected : bool;
  idnExpectedTimeout : option nat;
  dataTimeoutId : option nat;
  longOperation : option LongOperation;
  connectionParameters : option ConnectionParameters;
  housekeepingIntervalId : option nat;
  callbackWindowId : option nat;
  traceEnabled : bool;
  instrument : InstrumentObject;
  timers : list Timer;
  nextTimerId : nat
}.

Definition set_state v (c : Connection) : Connection :=
  {| state := v; errorCode := errorCode c; error := error c;
     communicationInterface := communicationInterface c;
     wasConnected := wasConnected c;
     connectedStartTime := connectedStartTime c; data := data c;
     idnExpected := idnExpected c;
     idnExpectedTimeout := idnExpectedTimeout c;
     dataTimeoutId := dataTimeoutId c; longOperation := longOperation c;
     connectionParameters := connectionParameters c;
     housekeepingIntervalId := housekeepingIntervalId c;
     callbackWindowId := callbackWindowId c; traceEnabled := traceEnabled c;
     instrument := instrument c; timers := timers c;
     nextTimerId := nextTimerId c |}.

Definition set_errorCode v (c : Connection) : Connection :=
  {| state := state c; errorCode := v; error := error c;
     communicationInterface := communicationInterface c;
     wasConnected := wasConnected c;
     connectedStartTime := connectedStartTime c; data := data c;
     idnExpected := idnExpected c;
     idnExpectedTimeout := idnExpectedTimeout c;
     dataTimeoutId := dataTimeoutId c; longOperation := longOperation c;
     connectionParameters := connectionParameters c;
     housekeepingIntervalId := housekeepingIntervalId c;
     callbackWindowId := callbackWindowId c; traceEnabled := traceEnabled c;
     instrument := instrument c; timers := timers c;
     nextTimerId := nextTimerId c |}.

Definition set_error v (c : Connection) : Connection :=
  {| state := state c; errorCode := errorCode c; error := v;
     communicationInterface := communicationInterface c;
     wasConnected := wasConnected c;
     connectedStartTime := connectedStartTime c; data := data c;
     idnExpected := idnExpected c;
     idnExpectedTimeout := idnExpectedTimeout c;
     dataTimeoutId := dataTimeoutId c; longOperation := longOperation c;
     connectionParameters := connectionParameters c;
     housekeepingIntervalId := housekeepingIntervalId c;
     callbackWindowId := callbackWindowId c; traceEnabled := traceEnabled c;
     instrument := instrument c; timers := timers c;
     nextTimerId := nextTimerId c |}.

Definition set_communicationInterface v (c : Connection) : Connection :=
  {| state := state c; errorCode := errorCode c; error := error c;
     communicationInterface := v; wasConnected := wasConnected c;
     connectedStartTime := connectedStartTime c; data := data c;
     idnExpected := idnExpected c;
     idnExpectedTimeout := idnExpectedTimeout c;
     dataTimeoutId := dataTimeoutId c; longOperation := longOperation c;
     connectionParameters := connectionParameters c;
     housekeepingIntervalId := housekeepingIntervalId c;
     callbackWindowId := callbackWindowId c; traceEnabled := traceEnabled c;
     instrument := instrument c; timers := timers c;
     nextTimerId := nextTimerId c |}.

Definition set_wasConnected v (c : Connection) : Connection :=
  {| state := state c; errorCode := errorCode c; error := error c;
     communicationInterface := communicationInterface c; wasConnected := v;
     connectedStartTime := connectedStartTime c; data := data c;
     idnExpected := idnExpected c;
     idnExpectedTimeout := idnExpectedTimeout c;
     dataTimeoutId := dataTimeoutId c; longOperation := longOperation c;
     connectionParameters := connectionParameters c;
     housekeepingIntervalId := housekeepingIntervalId c;
     callbackWindowId := callbackWindowId c; traceEnabled := traceEnabled c;
     instrument := instrument c; timers := timers c;
     nextTimerId := nextTimerId c |}.

Definition set_connectedStartTime v (c : Connection) : Connection :=
  {| state := state c; errorCode := errorCode c; error := error c;
     communicationInterface := communicationInterface c;
     wasConnected := wasConnected c; connectedStartTime := v; data := data c;
     idnExpected := idnExpected c;
     idnExpectedTimeout := idnExpectedTimeout c;
     dataTimeoutId := dataTimeoutId c; longOperation := longOperation c;
     connectionParameters := connectionParameters c;
     housekeepingIntervalId := housekeepingIntervalId c;
     callbackWindowId := callbackWindowId c; traceEnabled := traceEnabled c;
     instrument := instrument c; timers := timers c;
     nextTimerId := nextTimerId c |}.

Definition set_data v (c : Connection) : Connection :=
  {| state := state c; errorCode := errorCode c; error := error c;
     communicationInterface := communicationInterface c;
     wasConnected := wasConnected c;
     connectedStartTime := connectedStartTime c; data := v;
     idnExpected := idnExpected c;
     idnExpectedTimeout := idnExpectedTimeout c;
     dataTimeoutId := dataTimeoutId c; longOperation := longOperation c;
     connectionParameters := connectionParameters c;
     housekeepingIntervalId := housekeepingIntervalId c;
     callbackWindowId := callbackWindowId c; traceEnabled := traceEnabled c;
     instrument := instrument c; timers := timers c;
     nextTimerId := nextTimerId c |}.

Definition set_idnExpected v (c : Connection) : Connection :=
  {| state := state c; errorCode := errorCode c; error := error c;
     communicationInterface := communicationInterface c;
     wasConnected := wasConnected c;
     connectedStartTime := connectedStartTime c; data := data c;
     idnExpected := v; idnExpectedTimeout := idnExpectedTimeout c;
     dataTimeoutId := dataTimeoutId c; longOperation := longOperation c;
     connectionParameters := connectionParameters c;
     housekeepingIntervalId := housekeepingIntervalId c;
     callbackWindowId := callbackWindowId c; traceEnabled := traceEnabled c;
     instrument := instrument c; timers := timers c;
     nextTimerId := nextTimerId c |}.

Definition set_idnExpectedTimeout v (c : Connection) : Connection :=
  {| state := state c; errorCode := errorCode c; error := error c;
     communicationInterface := communicationInterface c;
     wasConnected := wasConnected c;
     connectedStartTime := connectedStartTime c; data := data c;
     idnExpected := idnExpected c; idnExpectedTimeout := v;
     dataTimeoutId := dataTimeoutId c; longOperation := longOperation c;
     connectionParameters := connectionParameters c;
     housekeepingIntervalId := housekeepingIntervalId c;
     callbackWindowId := callbackWindowId c; traceEnabled := traceEnabled c;
     instrument := instrument c; timers := timers c;
     nextTimerId := nextTimerId c |}.

Definition set_dataTimeoutId v (c : Connection) : Connection :=
  {| state := state c; errorCode := errorCode c; error := error c;
     communicationInterface := communicationInterface c;
     wasConnected := wasConnected c;
     connectedStartTime := connectedStartTime c; data := data c;
     idnExpected := idnExpected c;
     idnExpectedTimeout := idnExpectedTimeout c; dataTimeoutId := v;
     longOperation := longOperation c;
     connectionParameters := connectionParameters c;
     housekeepingIntervalId := housekeepingIntervalId c;
     callbackWindowId := callbackWindowId c; traceEnabled := traceEnabled c;
     instrument := instrument c; timers := timers c;
     nextTimerId := nextTimerId c |}.

Definition set_longOperation v (c : Connection) : Connection :=
  {| state := state c; errorCode := errorCode c; error := error c;
     communicationInterface := communicationInterface c;
     wasConnected := wasConnected c;
     connectedStartTime := connectedStartTime c; data := data c;
     idnExpected := idnExpected c;
     idnExpectedTimeout := idnExpectedTimeout c;
     dataTimeoutId := dataTimeoutId c; longOperation := v;
     connectionParameters := connectionParameters c;
     housekeepingIntervalId := housekeepingIntervalId c;
     callbackWindowId := callbackWindowId c; traceEnabled := traceEnabled c;
     instrument := instrument c; timers := timers c;
     nextTimerId := nextTimerId c |}.

Definition set_connectionParameters v (c : Connection) : Connection :=
  {| state := state c; errorCode := errorCode c; error := error c;
     communicationInterface := communicationInterface c;
     wasConnected := wasConnected c;
     connectedStartTime := connectedStartTime c; data := data c;
     idnExpected := idnExpected c;
     idnExpectedTimeout := idnExpectedTimeout c;
     dataTimeoutId := dataTimeoutId c; longOperation := longOperation c;
     connectionParameters := v;
     housekeepingIntervalId := housekeepingIntervalId c;
     callbackWindowId := callbackWindowId c; traceEnabled := traceEnabled c;
     instrument := instrument c; timers := timers c;
     nextTimerId := nextTimerId c |}.

Definition set_housekeepingIntervalId v (c : Connection) : Connection :=
  {| state := state c; errorCode := errorCode c; error := error c;
     communicationInterface := communicationInterface c;
     wasConnected := wasConnected c;
     connectedStartTime := connectedStartTime c; data := data c;
     idnExpected := idnExpected c;
     idnExpectedTimeout := idnExpectedTimeout c;
     dataTimeoutId := dataTimeoutId c; longOperation := longOperation c;
     connectionParameters := connectionParameters c;
     housekeepingIntervalId := v; callbackWindowId := callbackWindowId c;
     traceEnabled := traceEnabled c; instrument := instrument c;
     timers := timers c; nextTimerId := nextTimerId c |}.

Definition set_callbackWindowId v (c : Connection) : Connection :=
  {| state := state c; errorCode := errorCode c; error := error c;
     communicationInterface := communicationInterface c;
     wasConnected := wasConnected c;
     connectedStartTime := connectedStartTime c; data := data c;
     idnExpected := idnExpected c;
     idnExpectedTimeout := idnExpectedTimeout c;
     dataTimeoutId := dataTimeoutId c; longOperation := longOperation c;
     connectionParameters := connectionParameters c;
     housekeepingIntervalId := housekeepingIntervalId c;
     callbackWindowId := v; traceEnabled := traceEnabled c;
     instrument := instrument c; timers := timers c;
     nextTimerId := nextTimerId c |}.

Definition set_traceEnabled v (c : Connection) : Connection :=
  {| state := state c; errorCode := errorCode c; error := error c;
     communicationInterface := communicationInterface c;
     wasConnected := wasConnected c;
     connectedStartTime := connectedStartTime c; data := data c;
     idnExpected := idnExpected c;
     idnExpectedTimeout := idnExpectedTimeout c;
     dataTimeoutId := dataTimeoutId c; longOperation := longOperation c;
     connectionParameters := connectionParameters c;
     housekeepingIntervalId := housekeepingIntervalId c;
     callbackWindowId := callbackWindowId c; traceEnabled := v;
     instrument := instrument c; timers := timers c;
     nextTimerId := nextTimerId c |}.

Definition set_instrument v (c : Connection) : Connection :=
  {| state := state c; errorCode := errorCode c; error := error c;
     communicationInterface := communicationInterface c;
     wasConnected := wasConnected c;
     connectedStartTime := connectedStartTime c; data := data c;
     idnExpected := idnExpected c;
     idnExpectedTimeout := idnExpectedTimeout c;
     dataTimeoutId := dataTimeoutId c; longOperation := longOperation c;
     connectionParameters := connectionParameters c;
     housekeepingIntervalId := housekeepingIntervalId c;
     callbackWindowId := callbackWindowId c; traceEnabled := traceEnabled c;
     instrument := v; timers := timers c; nextTimerId := nextTimerId c |}.

Definition set_timers v (c : Connection) : Connection :=
  {| state := state c; errorCode := errorCode c; error := error c;
     communicationInterface := communicationInterface c;
     wasConnected := wasConnected c;
     connectedStartTime := connectedStartTime c; data := data c;
     idnExpected := idnExpected c;
     idnExpectedTimeout := idnExpectedTimeout c;
     dataTimeoutId := dataTimeoutId c; longOperation := longOperation c;
     connectionParameters := connectionParameters c;
     housekeepingIntervalId := housekeepingIntervalId c;
     callbackWindowId := callbackWindowId c; traceEnabled := traceEnabled c;
     instrument := instrument c; timers := v;
     nextTimerId := nextTimerId c |}.

Definition set_nextTimerId v (c : Connection) : Connection :=
  {| state := state c; errorCode := errorCode c; error := error c;
     communicationInterface := communicationInterface c;
     wasConnected := wasConnected c;
     connectedStartTime := connectedStartTime c; data := data c;
     idnExpected := idnExpected c;
     idnExpectedTimeout := idnExpectedTimeout c;
     dataTimeoutId := dataTimeoutId c; longOperation := longOperation c;
     connectionParameters := connectionParameters c;
     housekeepingIntervalId := housekeepingIntervalId c;
     callbackWindowId := callbackWindowId c; traceEnabled := traceEnabled c;
     instrument := instrument c; timers := timers c; nextTimerId := v |}.

(** ** The monad: fields, trace of external calls, exceptions *)


Definition M (A : Type) : Type :=
  Connection -> Outcome A * Connection * list Event.

Definition ret {A} (a : A) : M A := fun c => (Returned a, c, []).

Definition bind {A B} (m : M A) (k : A -> M B) : M B :=
  fun c =>
    match m c with
    | (Returned a, c1, t1) =>
        match k a c1 with
        | (r, c2, t2) => (r, c2, (t1 ++ t2)%list)
        end
    | (Thrown e, c1, t1) => (Thrown e, c1, t1)
    end.

Definition throw {A} (e : string) : M A := fun c => (Thrown e, c, []).

(** [try { body } catch (err) { handler(err) }] *)
Definition try_catch {A} (body : M A) (handler : string -> M A) : M A :=
  fun c =>
    match body c with
    | (Returned a, c1, t1) => (Returned a, c1, t1)
    | (Thrown e, c1, t1) =>
        match handler e c1 with
        | (r, c2, t2) => (r, c2, (t1 ++ t2)%list)
        end
    end.

Definition get {A} (field : Connection -> A) : M A :=
  fun c => (Returned (field c), c, []).

Definition modify (f : Connection -> Connection) : M unit :=
  fun c => (Returned tt, f c, []).

Definition emit (e : Event) : M unit := fun c => (Returned tt, c, [e]).

(** The three components of a run. *)
Definition outcome {A} (r : Outcome A * Connection * list Event) : Outcome A :=
  fst (fst r).
Definition final {A} (r : Outcome A * Connection * list Event) : Connection :=
  snd (fst r).
Definition trace {A} (r : Outcome A * Connection * list Event) : list Event :=
  snd r.


End Engine.

Declare Scope conn_scope.
Delimit Scope conn_scope with conn.
Bind Scope conn_scope with M.
Notation "x <- m ;; k" := (bind m (fun x => k))
  (at level 61, m at next level, right associativity) : conn_scope.
Notation "m ;; k" := (bind m (fun _ => k))
  (at level 61, right associativity) : conn_scope.
Local Open Scope conn_scope.

Section Methods.

Context {imports : Imports}.

(** [if (cond) { body }] without an else branch *)
Definition when (cond : bool) (body : M unit) : M unit :=
  if cond then body else ret tt.

(** *** Event-loop primitives *)

Definition add_timer (cb : Callback) (ms : Z) (rep : bool) : M nat :=
  fun c =>
    let h := nextTimerId c in
    (Returned h,
     set_nextTimerId (S h)
       (set_timers
          (timers c ++
           [{| handle := h; callback := cb; delay := ms; repeating := rep |}])%list
          c),
     []).

Definition setTimeout (cb : Callback) (ms : Z) : M nat := add_timer cb ms false.
Definition setInterval (cb : Callback) (ms : Z) : M nat := add_timer cb ms true.

Definition cancel (h : nat) (ts : list Timer) : list Timer :=
  filter (fun t => negb (Nat.eqb (handle t) h)) ts.

(** [clearTimeout(h)] / [clearInterval(h)]; [undefined] is ignored. *)
Definition clearTimeout (h : option nat) : M unit :=
  match h with
  | None => ret tt
  | Some h => modify (fun c => set_timers (cancel h (timers c)) c)
  end.
Definition clearInterval (h : option nat) : M unit := clearTimeout h.

Definition is_some {A} (o : option A) : bool :=
  match o with Some _ => true | None => false end.

(** ** The methods of [class Connection] *)

Definition dismissError : M unit :=
  modify (set_error None).

Definition setError (code : ConnectionErrorCode) (err : option string)
  : M unit :=
  modify (set_errorCode code) ;;
  modify (set_error err).

Definition connect : M unit :=
  st <- get state ;;
  if negb (ConnectionState_eqb st IDLE) then
    emit (console_error "invalid state (connect)")
  else
    modify (set_state CONNECTING) ;;
    modify (set_errorCode NONE) ;;
    modify (set_error None) ;;
    last <- get (fun c => lastConnection (instrument c)) ;;
    modify (set_connectionParameters last) ;;
    match last with
    | None =>
        (* reading [.type] of [undefined] *)
        throw "TypeError: Cannot read property 'type' of undefined"
    | Some parameters =>
        let which :=
          if String.eqb (type parameters) "ethernet"
          then EthernetInterface else SerialInterface in
        emit (interface_new which) ;;
        modify (set_communicationInterface (Some which)) ;;
        emit (interface_connect which)
    end.

Definition logRequest (message : string) : M unit :=
  enabled <- get traceEnabled ;;
  when enabled (emit (log "instrument/request" (Text message))).

Definition logAnswer (message : string) : M unit :=
  enabled <- get traceEnabled ;;
  when enabled (emit (log "instrument/answer" (Text message))).

Definition sendValue (value : SentValue) : M unit :=
  w <- get callbackWindowId ;;
  match w with
  | Some (S n) => emit (webContents_send (S n) value)
  | _ => ret tt   (* [undefined] and [0] are falsy *)
  end.

Definition longOperationDone : M unit :=
  op <- get longOperation ;;
  match op with
  | None =>
      (* [this.longOperation!.logEntry] on [undefined] *)
      throw "TypeError: Cannot read property 'logEntry' of undefined"
  | Some op =>
      sendValue (LongOperationResult (logEntry op)) ;;
      modify (set_longOperation None)
  end.

Definition disconnect : M unit :=
  st <- get state ;;
  ci <- get communicationInterface ;;
  match ci with
  | Some which =>
      if ConnectionState_eqb st IDLE then
        emit (console_error "invalid state (disconnect)")
      else
        modify (set_state DISCONNECTING) ;;
        emit (interface_disconnect which)
  | None => emit (console_error "invalid state (disconnect)")
  end.

Definition onDataLineReceived (line : string) : M unit :=
  logAnswer line ;;
  emit (scpi_parse line) ;;
  let value := parseScpiValue line in
  sendValue (ParsedValue value) ;;
  expected <- get idnExpected ;;
  when expected (
    h <- get idnExpectedTimeout ;;
    clearTimeout h ;;
    modify (set_idnExpectedTimeout None) ;;
    modify (set_idnExpected false) ;;
    match value with
    | ScpiString idn => emit (instrument_setIdn idn)
    | _ =>
        setError NONE (Some "Invalid IDN value.") ;;
        disconnect
    end).

Definition flushData : M unit :=
  op <- get longOperation ;;
  match op with
  | Some op => modify (set_longOperation (Some (abort op))) ;;
               modify (set_longOperation None)
  | None => ret tt
  end ;;
  h <- get dataTimeoutId ;;
  when (is_some h) (
    clearTimeout h ;;
    modify (set_dataTimeoutId None)) ;;
  d <- get data ;;
  match d with
  | Some buffered =>
      when (Js.truthy_string d) (
        logAnswer buffered ;;
        modify (set_data None))
  | None => ret tt
  end.

Definition housekeeping : M unit :=
  op <- get longOperation ;;
  match op with
  | Some op =>
      when (isDone op) (
        let surplus := dataSurplus op in
        longOperationDone ;;
        modify (set_data surplus))
  | None => ret tt
  end.

(** The second half of [onData] (from [if (this.data === undefined)] to the
    end): append the chunk to the buffer, dispatch the text up to and
    including the first line feed, and arm the coalescing timer when
    something stays buffered. *)
Definition onData_buffer (chunk : string) : M unit :=
  d <- get data ;;
  let buffered :=
    match d with
    | None => chunk
    | Some old => old ++ chunk
    end in
  modify (set_data (Some buffered)) ;;
  match Js.indexOf buffered Js.nl with
  | Some index =>
      let index := S index in
      let line := Js.substr buffered 0 index in
      (if Nat.ltb index (String.length buffered)
       then modify (set_data (Some (Js.substr_from buffered index)))
       else modify (set_data None)) ;;
      onDataLineReceived line
  | None => ret tt
  end ;;
  d <- get data ;;
  when (is_some d) (
    h <- setTimeout flushData_callback CONF_COMBINE_IF_BELOW_MS ;;
    modify (set_dataTimeoutId (Some h))).

Definition onData (chunk : string) : M unit :=
  h <- get dataTimeoutId ;;
  when (is_some h) (clearTimeout h) ;;
  op <- get longOperation ;;
  d <- get data ;;
  match op with
  | Some op => modify (set_longOperation (Some (feed chunk op)))
  | None =>
      when (negb (is_some d) && Js.startsWith chunk "#")
        (modify (set_longOperation (Some (newFileUpload chunk))))
  end ;;
  op <- get longOperation ;;
  match op with
  | Some op =>
      if negb (isDone op) then ret tt
      else
        let surplus := dataSurplus op in
        longOperationDone ;;
        match surplus with
        | None => ret tt
        | Some surplus => onData_buffer surplus
        end
  | None => onData_buffer chunk
  end.

(** [options?: { log?: boolean; longOperation?: boolean }] of [send] *)
Record SendOptions := {
  opt_log : option bool;
  opt_longOperation : option bool
}.

(** [!options || options.log] *)
Definition requests_log (options : option SendOptions) : bool :=
  match options with
  | None => true
  | Some o => Js.truthy_bool (opt_log o)
  end.

(** [!options || !options.longOperation] *)
Definition ordinary_command (options : option SendOptions) : bool :=
  match options with
  | None => true
  | Some o => negb (Js.truthy_bool (opt_longOperation o))
  end.

Definition send (command : string) (options : option SendOptions) : M unit :=
  when (requests_log options) (logRequest command) ;;
  st <- get state ;;
  ci <- get communicationInterface ;;
  match ci with
  | Some which =>
      if negb (ConnectionState_eqb st CONNECTED) then
        logAnswer ("**ERROR: not connected" ++ Js.nl)
      else
        op <- get longOperation ;;
        match op with
        | Some op =>
            if ordinary_command options then
              if isFileTransfer op
              then logAnswer ("**ERROR: file transfer in progress" ++ Js.nl)
              else logAnswer ("**ERROR: another operation in progress" ++ Js.nl)
            else
              modify (set_errorCode NONE) ;;
              modify (set_error None) ;;
              emit (interface_write which (command ++ Js.nl))
        | None =>
            modify (set_errorCode NONE) ;;
            modify (set_error None) ;;
            emit (interface_write which (command ++ Js.nl))
        end
  | None => logAnswer ("**ERROR: not connected" ++ Js.nl)
  end.

Definition sendIdn : M unit :=
  st <- get state ;;
  if negb (ConnectionState_eqb st CONNECTED) then
    emit (console_error
            "invalid state (this.state !== ConnectionState.CONNECTED)")
  else
    ci <- get communicationInterface ;;
    if negb (is_some ci) then
      emit (console_error
              "invalid state (!this.connectionInterfaceImplementation)")
    else
      send "*IDN?" None ;;
      flushData ;;
      modify (set_idnExpected true) ;;
      h <- setTimeout idnTimeout_callback CONF_IDN_EXPECTED_TIMEOUT ;;
      modify (set_idnExpectedTimeout (Some h)).

(** [connected()]; [now] is the value of [new Date().getTime()]. *)
Definition connected (now : Z) : M unit :=
  modify (set_state CONNECTED) ;;
  parameters <- get connectionParameters ;;
  emit (log "instrument/connected" (ConnectedInfo parameters)) ;;
  modify (set_wasConnected true) ;;
  modify (set_connectedStartTime now) ;;
  sendIdn ;;
  h <- setInterval housekeeping_callback CONF_HOUSEKEEPING_INTERVAL ;;
  modify (set_housekeepingIntervalId (Some h)).

Definition startLongOperation (createLongOperation : Connection -> LongOperation)
  : M unit :=
  st <- get state ;;
  ci <- get communicationInterface ;;
  if negb (ConnectionState_eqb st CONNECTED) || negb (is_some ci) then
    throw "not connected"
  else
    op <- get longOperation ;;
    match op with
    | Some op =>
        if isFileTransfer op
        then throw "file transfer in progress"
        else throw "another operation in progress"
    | None =>
        created <- get createLongOperation ;;
        modify (set_longOperation (Some created))
    end.

Definition download (instructions : IFileDownloadInstructions) : M unit :=
  try_catch
    (startLongOperation (fun _ => newFileDownload instructions))
    (fun err => logAnswer ("**ERROR: " ++ err ++ Js.nl)).

Definition abortLongOperation : M unit :=
  op <- get longOperation ;;
  match op with
  | Some op => modify (set_longOperation (Some (abort op)))
  | None => ret tt
  end.

(** [disconnected()]; [now] is the value of [new Date().getTime()]. *)
Definition disconnected (now : Z) : M unit :=
  modify (set_communicationInterface None) ;;
  modify (set_state IDLE) ;;
  was <- get wasConnected ;;
  (if was then
     flushData ;;
     started <- get connectedStartTime ;;
     err <- get error ;;
     emit (log "instrument/disconnected"
             (DisconnectedInfo (now - started) err)) ;;
     modify (set_wasConnected false)
   else
     parameters <- get connectionParameters ;;
     err <- get error ;;
     emit (log "instrument/connect-failed"
             (ConnectFailedInfo parameters err))) ;;
  h <- get housekeepingIntervalId ;;
  when (is_some h) (
    clearInterval h ;;
    modify (set_housekeepingIntervalId None)).

Definition acquire (windowId : nat) (trace_on : bool) : M (option string) :=
  st <- get state ;;
  if negb (ConnectionState_eqb st CONNECTED) then
    ret (Some "not connected")
  else
    modify (set_callbackWindowId (Some windowId)) ;;
    modify (set_traceEnabled trace_on) ;;
    ret None.

Definition release : M unit :=
  modify (set_callbackWindowId None) ;;
  modify (set_traceEnabled true).

(** The [id] of [this.notifySource]. *)
Definition notifySource_id (i : InstrumentObject) : string :=
  "instrument/" ++ id i ++ "/connection".

(** [destroy()]: [disconnect()], then the status publication is torn
    down. *)
Definition destroy : M unit :=
  disconnect ;;
  emit disposer_call ;;
  i <- get instrument ;;
  emit (unregisterSource (notifySource_id i)).

(** The arrow function [sendIdn] hands to [setTimeout]. *)
Definition idnTimeout : M unit :=
  setError NONE (Some "Timeout (no response to IDN query).") ;;
  disconnect.

(** The field initialisers of the class. *)
Definition new_Connection (i : InstrumentObject) : Connection :=
  {| state := IDLE; errorCode := NONE; error := None;
     communicationInterface := None; wasConnected := false;
     connectedStartTime := 0; data := None; idnExpected := false;
     idnExpectedTimeout := None; dataTimeoutId := None;
     longOperation := None; connectionParameters := None;
     housekeepingIntervalId := None; callbackWindowId := None;
     traceEnabled := true; instrument := i; timers := [];
     nextTimerId := 1 |}.

(** The body of the constructor after the initialisers: the notification
    source is registered, the status publication is set up, and the
    connection is opened at once if the instrument asks for it. *)
Definition constructor : M unit :=
  i <- get instrument ;;
  emit (registerSource (notifySource_id i)) ;;
  emit autorun_sendConnectionStatusMessage ;;
  when (is_some (lastConnection i) && autoConnect i) connect.

(** ** The event loop: timers firing, transport callbacks, caller requests *)

Definition run_callback (cb : Callback) : M unit :=
  match cb with
  | flushData_callback => flushData
  | idnTimeout_callback => idnTimeout
  | housekeeping_callback => housekeeping
  end.

(** The timer with handle [h] expires: a one-shot timer leaves the pending
    list, then the callback runs.  A handle that is not pending does
    nothing. *)
Definition fire (h : nat) : M unit :=
  ts <- get timers ;;
  match find (fun t => Nat.eqb (handle t) h) ts with
  | None => ret tt
  | Some t =>
      when (negb (repeating t))
        (modify (fun c => set_timers (cancel h (timers c)) c)) ;;
      run_callback (callback t)
  end.

(** What can happen to a connection between two turns of the event loop. *)
Inductive Step :=
| call_connect
| call_disconnect
| call_destroy
| call_send (command : string) (options : option SendOptions)
| call_download (instructions : IFileDownloadInstructions)
| call_startLongOperation (createLongOperation : Connection -> LongOperation)
| call_abortLongOperation
| call_acquire (windowId : nat) (trace_on : bool)
| call_release
| call_dismissError
| transport_connected (now : Z)
| transport_disconnected (now : Z)
| transport_onData (chunk : string)
| transport_setError (code : ConnectionErrorCode) (err : option string)
| timer_fires (h : nat).

Definition step (s : Step) : M unit :=
  match s with
  | call_connect => connect
  | call_disconnect => disconnect
  | call_destroy => destroy
  | call_send command options => send command options
  | call_download instructions => download instructions
  | call_startLongOperation create => startLongOperation create
  | call_abortLongOperation => abortLongOperation
  | call_acquire w t => acquire w t ;; ret tt
  | call_release => release
  | call_dismissError => dismissError
  | transport_connected now => connected now
  | transport_disconnected now => disconnected now
  | transport_onData chunk => onData chunk
  | transport_setError code err => setError code err
  | timer_fires h => fire h
  end.

(** Every step is a turn of its own: an exception ends that turn only. *)
Fixpoint steps (l : list Step) (c : Connection) : Connection * list Event :=
  match l with
  | [] => (c, [])
  | s :: l' =>
      let r := step s c in
      let r' := steps l' (final r) in
      (fst r', (trace r ++ snd r')%list)
  end.

(** The transport's two confirmations. *)
Definition is_confirmation (s : Step) : bool :=
  match s with
  | transport_connected _ | transport_disconnected _ => true
  | _ => false
  end.

(** ** Observations on a trace *)

(** The lines that went through [onDataLineReceived]: each one is handed to
    the value parser exactly once. *)
Definition dispatched (t : list Event) : list string :=
  flat_map (fun e => match e with scpi_parse l => [l] | _ => [] end) t.

(** The texts recorded in the activity log as answers. *)
Definition answers (t : list Event) : list string :=
  flat_map (fun e =>
    match e with
    | log kind (Text m) =>
        if String.eqb kind "instrument/answer" then [m] else []
    | _ => []
    end) t.

(** The texts recorded in the activity log as requests. *)
Definition requests (t : list Event) : list string :=
  flat_map (fun e =>
    match e with
    | log kind (Text m) =>
        if String.eqb kind "instrument/request" then [m] else []
    | _ => []
    end) t.

(** What was written to the transport. *)
Definition written (t : list Event) : list string :=
  flat_map (fun e => match e with interface_write _ d => [d] | _ => [] end) t.

(** The transports that were constructed or called. *)
Definition transport_calls (t : list Event) : list Event :=
  filter (fun e =>
    match e with
    | interface_new _ | interface_connect _
    | interface_disconnect _ | interface_write _ _ => true
    | _ => false
    end) t.

(** The disconnect requests sent to the transport. *)
Definition disconnect_requests (t : list Event) : nat :=
  List.length
    (filter (fun e =>
       match e with interface_disconnect _ => true | _ => false end) t).

(** The buffered text, [undefined] read as empty. *)
Definition buffered (c : Connection) : string :=
  match data c with
  | Some s => s
  | None => ""
  end.

(** The pending timers whose callback is [cb]. *)
Definition pending (cb : Callback) (c : Connection) : list Timer :=
  filter (fun t =>
    match callback t, cb with
    | flushData_callback, flushData_callback
    | idnTimeout_callback, idnTimeout_callback
    | housekeeping_callback, housekeeping_callback => true
    | _, _ => false
    end) (timers c).

End Methods.

(** ** The lines of a byte stream, as the specification words them *)



(** The first terminator-delimited line of a text and what follows it, if
    the text contains a line feed. *)
Fixpoint first_line (s : string) : option (string * string) :=
  match s with
  | EmptyString => None
  | String ch rest =>
      if Ascii.eqb ch Js.LF then Some (Js.nl, rest)
      else
        match first_line rest with
        | Some (l, r) => Some (String ch l, r)
        | None => None
        end
  end.




(** ** A reference implementation of the imported declarations

    Used to run the engine on concrete inputs. *)

Module Sample.

(** One decimal digit. *)
Definition digit (a : ascii) : option nat :=
  let n := nat_of_ascii a in
  if (48 <=? n)%nat && (n <=? 57)%nat then Some (n - 48) else None.

(** The value of a run of decimal digits, continuing from [acc]. *)
Fixpoint number (acc : nat) (digits : string) : option nat :=
  match digits with
  | EmptyString => Some acc
  | String a rest =>
      match digit a with
      | Some d => number (10 * acc + d) rest
      | None => None
      end
  end.

(** Modelled from the spec: the block notation parsed by [FileUpload]
    (file-upload.ts is not part of the sources at hand): "prefix byte, then
    digit(s) encoding a length field width, then that many digits giving the
    payload length, then exactly that many payload bytes".  [block_end] is
    the position one past the payload, known once the header is complete. *)
Definition block_end (received : string) : option nat :=
  match received with
  | String prefix (String w rest) =>
      if Ascii.eqb prefix "#" then
        match digit w with
        | Some width =>
            if (width <=? String.length rest)%nat then
              match number 0 (Js.substr rest 0 width) with
              | Some len => Some (2 + width + len)
              | None => None
              end
            else None
        | None => None
        end
      else None
  | _ => None
  end.

(** Modelled from the spec: the objects behind [interface LongOperation].
    [Upload] and [Download] stand for [FileUpload] and [FileDownload]
    (neither file is part of the sources at hand); [Other] is an object of
    some other class passed to [startLongOperation], with its [isDone()]
    answer and its [dataSurplus] field. *)
Inductive Operation :=
| Upload (received : string) (aborted : bool)
| Download (instructions : string) (aborted : bool)
| Other (done : bool) (surplus : option string).

(** Modelled from the spec: "[isDone] true once the declared length is
    satisfied"; an aborted transfer is over as well. *)
Definition Operation_isDone (op : Operation) : bool :=
  match op with
  | Upload received aborted =>
      aborted ||
      match block_end received with
      | Some e => (e <=? String.length received)%nat
      | None => false
      end
  | Download _ aborted => aborted
  | Other done _ => done
  end.

(** Modelled from the spec: "[dataSurplus] exposes any bytes received beyond
    the declared payload"; a download has none. *)
Definition Operation_dataSurplus (op : Operation) : option string :=
  match op with
  | Upload received _ =>
      match block_end received with
      | Some e =>
          if (e <? String.length received)%nat
          then Some (Js.substr_from received e) else None
      | None => None
      end
  | Download _ _ => None
  | Other _ surplus => surplus
  end.

(** Modelled from the spec: "[onData] feeds raw bytes". *)
Definition Operation_onData (chunk : string) (op : Operation) : Operation :=
  match op with
  | Upload received aborted => Upload (received ++ chunk) aborted
  | other => other
  end.

Definition Operation_abort (op : Operation) : Operation :=
  match op with
  | Upload received _ => Upload received true
  | Download instructions _ => Download instructions true
  | Other _ surplus => Other true surplus
  end.

Definition Operation_isFileTransfer (op : Operation) : bool :=
  match op with
  | Upload _ _ | Download _ _ => true
  | Other _ _ => false
  end.

Definition Operation_logEntry (op : Operation) : string :=
  match op with
  | Upload received _ => received
  | Download instructions _ => instructions
  | Other _ _ => ""
  end.

(** The text of a line without its terminator. *)
Fixpoint chomp (line : string) : string :=
  match line with
  | EmptyString => EmptyString
  | String ch rest =>
      if Ascii.eqb ch Js.LF then EmptyString else String ch (chomp rest)
  end.

(** Modelled from the spec: the value parser, "parse(line) -> typed value
    (string | numeric | structured)" (instrument/scpi is not part of the
    sources at hand): a run of digits is numeric, a brace opens a structured
    value, anything else is text. *)
Definition parse (line : string) : ScpiValue :=
  match chomp line with
  | EmptyString => ScpiString EmptyString
  | String ch rest as text =>
      if Ascii.eqb ch "{" then ScpiStructured text
      else
        match number 0 text with
        | Some n => ScpiNumeric (Z.of_nat n)
        | None => ScpiString text
        end
  end.

#[export] Instance imports : Imports := {|
  LongOperation := Operation;
  ActivityLogEntry := string;
  IFileDownloadInstructions := string;
  logEntry := Operation_logEntry;
  abort := Operation_abort;
  feed := Operation_onData;
  isDone := Operation_isDone;
  dataSurplus := Operation_dataSurplus;
  isFileTransfer := Operation_isFileTransfer;
  newFileUpload := fun chunk => Upload chunk false;
  newFileDownload := fun instructions => Download instructions false;
  parseScpiValue := parse;
  CONF_COMBINE_IF_BELOW_MS := 250
|}.

(** An instrument reachable over ethernet, not connected automatically. *)
Definition bench_supply : InstrumentObject :=
  {| id := "1"; lastConnection := Some {| type := "ethernet" |};
     autoConnect := false |}.

(** A fresh connection object for it. *)
Definition fresh : Connection := new_Connection bench_supply.

(** The connection after [connect()] and the transport's confirmation at
    time 0: CONNECTED, identification query sent and awaited. *)
Definition online : Connection :=
  fst (steps [call_connect; transport_connected 0] fresh).

(** The same after the instrument identified itself. *)
Definition identified : Connection :=
  fst (steps [transport_onData ("EEZ,H24005,0,1.0" ++ Js.nl)] online).

(** The identified connection while an upload announced by the instrument is
    in progress (header and three of five payload bytes received). *)
Definition uploading : Connection :=
  fst (steps [transport_onData "#15Hel"] identified).

(** The identified connection acquired by window 7 with tracing switched
    off. *)
Definition muted : Connection :=
  fst (steps [call_acquire 7 false] identified).

(** The identified connection holding an operation of some other class,
    started through [startLongOperation], that has finished and left "OK" and
    a line feed as surplus. *)
Definition finished_with_surplus : Connection :=
  fst (steps
         [call_startLongOperation
            (fun _ => Other true (Some ("OK" ++ Js.nl)))]
         identified).

(** The same, with the upload in progress. *)
Definition muted_uploading : Connection :=
  fst (steps [transport_onData "#15Hel"] muted).

End Sample.

(** ** Vocabulary of the properties *)

Section Vocabulary.

Context {imports : Imports}.

(** "must be CONNECTED with a live Transport" *)
Definition usable (c : Connection) : bool :=
  ConnectionState_eqb (state c) CONNECTED && is_some (communicationInterface c).

(** The failure that tells "a file transfer is already in progress" from "a
    different kind of long operation is in progress". *)
Definition busy_with (op : LongOperation) : string :=
  if isFileTransfer op then "file transfer in progress"
  else "another operation in progress".

(** Why a long operation cannot be started, if it cannot. *)
Definition start_refusal (c : Connection) : option string :=
  if usable c then option_map busy_with (longOperation c)
  else Some "not connected".

(** Why a command cannot be sent, if it cannot. *)
Definition send_refusal (c : Connection) (options : option SendOptions)
  : option string :=
  if usable c then
    if ordinary_command options then option_map busy_with (longOperation c)
    else None
  else Some "not connected".

(** The response line synthesised for a refusal. *)
Definition error_line (reason : string) : string :=
  "**ERROR: " ++ reason ++ Js.nl.

(** The answer entries produced by logging [line] on connection [c]. *)
Definition answer_entries (c : Connection) (line : string) : list Event :=
  if traceEnabled c then [log "instrument/answer" (Text line)] else [].

(** The request entry [send] starts with, if any. *)
Definition request_entries (c : Connection) (command : string)
    (options : option SendOptions) : list Event :=
  if requests_log options && traceEnabled c
  then [log "instrument/request" (Text command)] else [].

(** The entries [sendValue] produces on connection [c]. *)
Definition sent_entries (c : Connection) (value : SentValue) : list Event :=
  match callbackWindowId c with
  | Some (S n) => [webContents_send (S n) value]
  | _ => []
  end.

(** The pending timers after [clearTimeout(h)]. *)
Definition cancel_opt (h : option nat) (ts : list Timer) : list Timer :=
  match h with
  | Some h => cancel h ts
  | None => ts
  end.

(** The connection once the awaited identification line has arrived: the
    timeout is cancelled and forgotten, the expectation flag is cleared. *)
Definition idn_settled (c : Connection) : Connection :=
  set_idnExpected false
    (set_idnExpectedTimeout None
       (set_timers (cancel_opt (idnExpectedTimeout c) (timers c)) c)).

(** The one-shot timer [sendIdn] arms, under handle [h]. *)
Definition idn_timer (h : nat) : Timer :=
  {| handle := h; callback := idnTimeout_callback;
     delay := CONF_IDN_EXPECTED_TIMEOUT; repeating := false |}.


(** The last statement of [onData]: arm the coalescing timer when something
    is buffered. *)
Definition arm_coalescing : M unit :=
  d <- get data ;;
  when (is_some d) (
    h <- setTimeout flushData_callback CONF_COMBINE_IF_BELOW_MS ;;
    modify (set_dataTimeoutId (Some h))).

(** The coalescing timer [arm_coalescing] creates on connection [c]. *)
Definition coalescing_timer (c : Connection) : Timer :=
  {| handle := nextTimerId c; callback := flushData_callback;
     delay := CONF_COMBINE_IF_BELOW_MS; repeating := false |}.

(** The connection after [arm_coalescing]. *)
Definition armed (c : Connection) : Connection :=
  if is_some (data c) then
    set_dataTimeoutId (Some (nextTimerId c))
      (set_nextTimerId (S (nextTimerId c))
         (set_timers (timers c ++ [coalescing_timer c])%list c))
  else c.

(** The buffer holding [text]: [undefined] when it is empty. *)
Definition buffer_of (text : string) : option string :=
  if String.eqb text "" then None else Some text.

(** [preserves I P m]: started in a connection satisfying [I], the
    computation [m] ends (by returning or throwing) in one satisfying [I],
    and every external call it makes satisfies [P]. *)
Definition preserves {A} (I : Connection -> Prop) (P : Event -> Prop)
    (m : M A) : Prop :=
  forall c, I c -> I (final (m c)) /\ Forall P (trace (m c)).

(** External calls other than a write to the transport. *)
Definition not_a_write (e : Event) : Prop :=
  match e with
  | interface_write _ _ => False
  | _ => True
  end.

(** Whether [onData] takes the chunk for the start of an upload: no long
    operation is active, the frame buffer is [undefined] and the chunk
    starts with "#". *)
Definition starts_upload (chunk : string) (c : Connection) : bool :=
  negb (is_some (longOperation c)) && negb (is_some (data c))
  && Js.startsWith chunk "#".

(** No chunk of the sequence starts an upload when the chunks are delivered
    to [c] one after the other. *)
Fixpoint line_data (chunks : list string) (c : Connection) : Prop :=
  match chunks with
  | [] => True
  | chunk :: rest =>
      starts_upload chunk c = false /\
      line_data rest (final (onData chunk c))
  end.

(** The long operation [onData] holds once it has looked at the chunk: the
    active one fed with the chunk, or the upload started from the chunk. *)
Definition fed (chunk : string) (c : Connection) : option LongOperation :=
  match longOperation c with
  | Some op => Some (feed chunk op)
  | None =>
      if starts_upload chunk c then Some (newFileUpload chunk) else None
  end.

End Vocabulary.

(** ** Vocabulary of the further properties *)

Section Coverage.

Context {imports : Imports}.

(** The transport [connect()] instantiates for stored parameters. *)
Definition transport_for (parameters : ConnectionParameters)
  : CommunicationInterface :=
  if String.eqb (type parameters) "ethernet"
  then EthernetInterface else SerialInterface.

(** Steps by kind. *)
Definition is_connected_event (s : Step) : bool :=
  match s with
  | transport_connected _ => true
  | _ => false
  end.

Definition is_disconnected_event (s : Step) : bool :=
  match s with
  | transport_disconnected _ => true
  | _ => false
  end.

(** The two requests that can switch tracing on. *)
Definition enables_tracing (s : Step) : bool :=
  match s with
  | call_acquire _ true | call_release => true
  | _ => false
  end.

(** The transport reporting an error of its own. *)
Definition is_transport_error (s : Step) : bool :=
  match s with
  | transport_setError _ _ => true
  | _ => false
  end.

(** The steps on which [disconnect()] can run. *)
Definition may_disconnect (s : Step) : bool :=
  match s with
  | call_disconnect | call_destroy | transport_onData _ | timer_fires _ => true
  | _ => false
  end.

(** External calls other than those to a transport. *)
Definition not_a_transport_call (e : Event) : Prop :=
  match e with
  | interface_new _ | interface_connect _
  | interface_disconnect _ | interface_write _ _ => False
  | _ => True
  end.

(** External calls other than request and answer entries of the activity
    log. *)
Definition not_traffic (e : Event) : Prop :=
  match e with
  | log kind _ =>
      String.eqb kind "instrument/request" = false /\
      String.eqb kind "instrument/answer" = false
  | _ => True
  end.

(** The kinds of the activity-log entries of a trace, in order. *)
Definition log_kinds (t : list Event) : list string :=
  flat_map (fun e => match e with log kind _ => [kind] | _ => [] end) t.

(** The values delivered to browser windows, with the window. *)
Definition delivered (t : list Event) : list (nat * SentValue) :=
  flat_map (fun e =>
    match e with
    | webContents_send w v => [(w, v)]
    | _ => []
    end) t.

End Coverage.

Section CoverageSessions.

Context {imports : Imports}.

(** The activity-log entries that close a session, by kind. *)
Definition session_entries (t : list Event) : list string :=
  filter (fun kind =>
    String.eqb kind "instrument/disconnected"
    || String.eqb kind "instrument/connect-failed") (log_kinds t).

(** What [flushData] records for the buffered text of [c]. *)
Definition flushed_entries (c : Connection) : list Event :=
  if negb (String.eqb (buffered c) "")
  then answer_entries c (buffered c) else [].

End CoverageSessions.

Section CoverageStates.

Context {imports : Imports}.

(** The one transition a running [disconnect()] makes. *)
Definition moved_to_DISCONNECTING (c c' : Connection) : Prop :=
  state c <> IDLE /\ communicationInterface c <> None /\
  state c' = DISCONNECTING.

(** Whether the timer pending under handle [h] is an identification
    timeout. *)
Definition is_idn_timeout (h : nat) (c : Connection) : Prop :=
  exists t,
    find (fun t => Nat.eqb (handle t) h) (timers c) = Some t /\
    callback t = idnTimeout_callback.

(** The invariant of the steps on which [disconnect()] may run: transport
    untouched, state either as at the start or moved to DISCONNECTING. *)
Definition drift (s0 : ConnectionState) (ci0 : option CommunicationInterface)
    (c' : Connection) : Prop :=
  communicationInterface c' = ci0 /\
  (state c' = s0 \/
   (s0 <> IDLE /\ ci0 <> None /\ state c' = DISCONNECTING)).

(** The same for [onData], which can only run [disconnect()] while the
    identification is awaited. *)
Definition drift_idn (s0 : ConnectionState) (ci0 : option CommunicationInterface)
    (ie0 : bool) (c' : Connection) : Prop :=
  communicationInterface c' = ci0 /\
  ((state c' = s0 /\ (ie0 = false -> idnExpected c' = false)) \/
   (ie0 = true /\ s0 <> IDLE /\ ci0 <> None /\ state c' = DISCONNECTING)).

End CoverageStates.
Section CoverageTimers.

Context {imports : Imports}.

(** The event loop hands out fresh handles: every pending timer has a handle
    below the next one, and no two pending timers share a handle. *)
Definition handles_fresh (c : Connection) : Prop :=
  Forall (fun t => (handle t < nextTimerId c)%nat) (timers c) /\
  NoDup (map handle (timers c)).

(** The discipline of the coalescing timer: a pending timer that will run
    [flushData] is the one [dataTimeoutId] names. *)
Definition timers_tidy (c : Connection) : Prop :=
  handles_fresh c /\
  Forall (fun t => callback t = flushData_callback ->
                   dataTimeoutId c = Some (handle t)) (timers c).

(** No coalescing timer is pending. *)
Definition timers_quiet (c : Connection) : Prop :=
  handles_fresh c /\
  Forall (fun t => callback t <> flushData_callback) (timers c).

(** Started where [I] holds, the computation [m] ends (by returning or
    throwing) where [J] holds. *)
Definition ends_in {A} (I J : Connection -> Prop) (m : M A) : Prop :=
  forall c, I c -> J (final (m c)).

End CoverageTimers.

Section CoverageStatus.

Context {imports : Imports}.

(** The computed getters of [ConnectionBase]. *)
Definition isIdle (c : Connection) : bool :=
  ConnectionState_eqb (state c) IDLE.

Definition isTransitionState (c : Connection) : bool :=
  ConnectionState_eqb (state c) CONNECTING
  || ConnectionState_eqb (state c) DISCONNECTING.

Definition isConnected (c : Connection) : bool :=
  ConnectionState_eqb (state c) CONNECTED.

End CoverageStatus.

Section CoverageExceptions.

Context {imports : Imports}.

(** The exception that escapes step [s] on connection [c], if one does. *)
Definition raised (s : Step) (c : Connection) : option string :=
  match s with
  | call_connect =>
      if ConnectionState_eqb (state c) IDLE
         && negb (is_some (lastConnection (instrument c)))
      then Some "TypeError: Cannot read property 'type' of undefined"
      else None
  | call_startLongOperation _ => start_refusal c
  | _ => None
  end.

End CoverageExceptions.


(** * Properties *)

Unset Implicit Arguments.

(** Unfolding of the monad's plumbing. *)
Ltac unfold_M :=
  unfold bind, ret, get, modify, emit, throw, try_catch, when,
    outcome, final, trace.

Ltac run_M := unfold_M; cbn.

(** Case analysis on the fields a method branches on. *)
Ltac open_connection c :=
  let st := fresh "st" in let ci := fresh "ci" in
  let d := fresh "d" in let ie := fresh "ie" in
  let dt := fresh "dt" in let lo := fresh "lo" in
  let cw := fresh "cw" in let te := fresh "te" in
  destruct c as [st ?ec ?er ci ?wc ?cst d ie ?iet dt lo ?cp ?hk cw te ?ins ?ts ?nt].

(** ** The model at work *)

Example session_opening :
  let run := steps [call_connect; transport_connected 0] Sample.fresh in
  state (fst run) = CONNECTED /\
  idnExpected (fst run) = true /\
  requests (snd run) = ["*IDN?"] /\
  written (snd run) = ["*IDN?" ++ Js.nl] /\
  timers (fst run) =
    [{| handle := 1; callback := idnTimeout_callback; delay := 1000;
        repeating := false |};
     {| handle := 2; callback := housekeeping_callback; delay := 100;
        repeating := true |}].
Proof. vm_compute. repeat split. Qed.

Example identification_received :
  let run :=
    steps [transport_onData ("EEZ,H24005,0,1.0" ++ Js.nl)] Sample.online in
  answers (snd run) = ["EEZ,H24005,0,1.0" ++ Js.nl] /\
  dispatched (snd run) = ["EEZ,H24005,0,1.0" ++ Js.nl] /\
  idnExpected (fst run) = false /\
  state (fst run) = CONNECTED /\
  List.map handle (timers (fst run)) = [2].
Proof. vm_compute. repeat split. Qed.

Example one_line_in_two_chunks :
  dispatched
    (snd (steps [transport_onData "O"; transport_onData ("K" ++ Js.nl)]
            Sample.identified))
  = ["OK" ++ Js.nl].
Proof. vm_compute. reflexivity. Qed.

Example upload_with_surplus :
  let run :=
    steps [transport_onData "#15Hel"; transport_onData ("loOK" ++ Js.nl)]
      Sample.identified in
  longOperation (fst run) = None /\
  dispatched (snd run) = ["OK" ++ Js.nl] /\
  data (fst run) = None.
Proof. vm_compute. repeat split. Qed.

Example disconnect_during_upload :
  let run :=
    steps [call_disconnect; transport_disconnected 9] Sample.uploading in
  state (fst run) = IDLE /\
  longOperation (fst run) = None /\
  communicationInterface (fst run) = None /\
  timers (fst run) = [] /\
  disconnect_requests (snd run) = 1.
Proof. vm_compute. repeat split. Qed.

Lemma ConnectionState_eqb_spec (a b : ConnectionState) :
  reflect (a = b) (ConnectionState_eqb a b).
Proof. destruct a, b; constructor; congruence. Qed.

Section ConnectProperties.

Context {imports : Imports}.

(** C3.  In every state other than IDLE, [connect()] leaves all fields of the
    connection untouched (in particular [state], [errorCode] and [error]),
    neither constructs nor calls a transport, and does nothing but report
    the fault on the console. *)
Theorem connect_outside_IDLE_is_local_fault (c : Connection) :
  state c <> IDLE ->
  final (connect c) = c /\
  transport_calls (trace (connect c)) = [] /\
  trace (connect c) = [console_error "invalid state (connect)"] /\
  outcome (connect c) = Returned tt.
Proof.
  intros Hstate. unfold connect. run_M.
  destruct (ConnectionState_eqb_spec (state c) IDLE) as [Heq | _];
    [contradiction | cbn; repeat split; reflexivity].
Qed.

End ConnectProperties.

Lemma connect_outside_IDLE_witness :
  state Sample.online <> IDLE /\
  final (connect Sample.online) = Sample.online.
Proof.
  assert (H : state Sample.online <> IDLE) by (vm_compute; discriminate).
  split; [exact H | exact (proj1 (connect_outside_IDLE_is_local_fault Sample.online H))].
Defined.

Section LongOperationStart.

Context {imports : Imports}.

Lemma usable_spec (c : Connection) :
  usable c = true <->
  state c = CONNECTED /\ communicationInterface c <> None.
Proof.
  unfold usable.
  destruct (ConnectionState_eqb_spec (state c) CONNECTED) as [-> | Hne];
    destruct (communicationInterface c); cbn; split;
    try (intros [? ?]); try intros ?; try split; congruence.
Qed.

(** C8 (amended).  [startLongOperation] throws, without touching any field
    and without any external call, unless the connection is CONNECTED with
    a live transport and holds no long operation; the exception text is "not
    connected", "file transfer in progress" or "another operation in
    progress" (two different texts for the two kinds of operation in the
    way); only when nothing is in the way is the factory called and its
    result installed.  [download] does the same with a [FileDownload] and
    never throws: it turns the exception into the answer entry
    "**ERROR: <text>" of the activity log, again changing no field.  That
    entry is recorded only while tracing is enabled; with tracing disabled a
    refused [download] leaves no trace. *)
Theorem startLongOperation_fails_fast
    (c : Connection) (create : Connection -> LongOperation)
    (instructions : IFileDownloadInstructions) :
  (start_refusal c = None <->
   state c = CONNECTED /\ communicationInterface c <> None /\
   longOperation c = None) /\
  (start_refusal c = None ->
   outcome (startLongOperation create c) = Returned tt /\
   longOperation (final (startLongOperation create c)) = Some (create c) /\
   final (startLongOperation create c)
     = set_longOperation (Some (create c)) c /\
   trace (startLongOperation create c) = [] /\
   outcome (download instructions c) = Returned tt /\
   longOperation (final (download instructions c))
     = Some (newFileDownload instructions) /\
   final (download instructions c)
     = set_longOperation (Some (newFileDownload instructions)) c /\
   trace (download instructions c) = []) /\
  (forall reason, start_refusal c = Some reason ->
   startLongOperation create c = (Thrown reason, c, []) /\
   download instructions c =
     (Returned tt, c,
      if traceEnabled c
      then [log "instrument/answer"
              (Text ("**ERROR: " ++ reason ++ Js.nl))]
      else [])) /\
  (state c <> CONNECTED \/ communicationInterface c = None ->
   start_refusal c = Some "not connected") /\
  (forall op,
     state c = CONNECTED -> communicationInterface c <> None ->
     longOperation c = Some op ->
     start_refusal c =
       Some (if isFileTransfer op then "file transfer in progress"
             else "another operation in progress")) /\
  "file transfer in progress" <> "another operation in progress".
Proof.
  assert (Hstart : startLongOperation create c =
    match start_refusal c with
    | Some reason => (Thrown reason, c, [])
    | None => (Returned tt, set_longOperation (Some (create c)) c, [])
    end).
  { unfold startLongOperation, start_refusal, usable, busy_with. run_M.
    destruct (ConnectionState_eqb (state c) CONNECTED); cbn; [|reflexivity].
    destruct (communicationInterface c); cbn; [|reflexivity].
    destruct (longOperation c) as [op|]; cbn; [|reflexivity].
    destruct (isFileTransfer op); reflexivity. }
  assert (Hdownload : download instructions c =
    match start_refusal c with
    | Some reason => (Returned tt, c, answer_entries c (error_line reason))
    | None =>
        (Returned tt,
         set_longOperation (Some (newFileDownload instructions)) c, [])
    end).
  { unfold download, startLongOperation, start_refusal, usable, busy_with,
      answer_entries, error_line, logAnswer.
    run_M.
    destruct (ConnectionState_eqb (state c) CONNECTED); cbn;
      [|destruct (traceEnabled c); reflexivity].
    destruct (communicationInterface c); cbn;
      [|destruct (traceEnabled c); reflexivity].
    destruct (longOperation c) as [op|]; cbn; [|reflexivity].
    destruct (isFileTransfer op); cbn; destruct (traceEnabled c); reflexivity. }
  split.
  { split.
    - unfold start_refusal. intros H.
      destruct (usable c) eqn:Hu; [|discriminate].
      apply usable_spec in Hu. destruct (longOperation c); [discriminate|tauto].
    - intros (Hs & Hc & Hl). unfold start_refusal.
      assert (Hu : usable c = true) by (apply usable_spec; tauto).
      rewrite Hu, Hl. reflexivity. }
  split.
  { intros Hfree. rewrite Hstart, Hdownload, Hfree.
    repeat split. }
  split.
  { intros reason Hr. rewrite Hstart, Hdownload, Hr. split; reflexivity. }
  split.
  { intros Hdown. unfold start_refusal.
    destruct (usable c) eqn:Hu; [|reflexivity].
    apply usable_spec in Hu. destruct Hu as [Hs Hci].
    destruct Hdown; contradiction. }
  split; [|discriminate].
  intros op Hs Hci Hop. unfold start_refusal, busy_with.
  assert (Hu : usable c = true) by (apply usable_spec; tauto).
  rewrite Hu, Hop. reflexivity.
Qed.

End LongOperationStart.

Lemma startLongOperation_fails_fast_witness :
  outcome
    (startLongOperation (imports := Sample.imports)
       (fun _ => Sample.Other false None) Sample.uploading)
    = Thrown "file transfer in progress" /\
  answers
    (trace (download (imports := Sample.imports) "data.csv"
              Sample.uploading))
    = ["**ERROR: file transfer in progress" ++ Js.nl] /\
  longOperation
    (final (download (imports := Sample.imports) "data.csv"
              Sample.identified))
    = Some (Sample.Download "data.csv" false).
Proof.
  pose proof (startLongOperation_fails_fast (imports := Sample.imports)
                Sample.uploading
                (fun _ => Sample.Other false None) "data.csv")
    as (_ & _ & Hrefused & _ & Hbusy & _).
  pose proof (startLongOperation_fails_fast (imports := Sample.imports)
                Sample.identified
                (fun _ => Sample.Other false None) "data.csv")
    as (Hfree & Hinstalled & _).
  assert (Hr : start_refusal Sample.uploading
               = Some "file transfer in progress")
    by (apply (Hbusy (Sample.Upload "#15Hel" false));
        [reflexivity | vm_compute; discriminate | reflexivity]).
  destruct (Hrefused _ Hr) as [Hthrown Hlogged].
  assert (Hok : start_refusal Sample.identified = None)
    by (apply Hfree; repeat split; vm_compute; discriminate).
  destruct (Hinstalled Hok) as (_ & _ & _ & _ & _ & Hdown & _).
  split; [rewrite Hthrown; reflexivity|].
  split; [rewrite Hlogged; reflexivity | exact Hdown].
Defined.

(** C8 as stated fails for [download] while tracing is disabled: refused
    because an upload is in progress, and refused because an operation of
    another kind is in progress, it returns normally, changes nothing and
    records nothing, so no error tells the two apart. *)
Lemma refused_download_leaves_no_error :
  let busy_upload := Sample.muted_uploading in
  let busy_other :=
    final (startLongOperation (imports := Sample.imports)
             (fun _ => Sample.Other false None) Sample.muted) in
  let refused c := download (imports := Sample.imports) "data.csv" c in
  traceEnabled busy_upload = false /\
  traceEnabled busy_other = false /\
  longOperation busy_upload = Some (Sample.Upload "#15Hel" false) /\
  longOperation busy_other = Some (Sample.Other false None) /\
  outcome (refused busy_upload) = Returned tt /\
  outcome (refused busy_other) = Returned tt /\
  List.length (trace (refused busy_upload)) = 0 /\
  List.length (trace (refused busy_other)) = 0 /\
  longOperation (final (refused busy_upload)) = longOperation busy_upload /\
  longOperation (final (refused busy_other)) = longOperation busy_other.
Proof. vm_compute. repeat split. Qed.

Section CommandSend.

Context {imports : Imports}.

(** A complete description of what a refused [send] does. *)
Lemma send_refused_run (c : Connection) (command : string)
    (options : option SendOptions) (reason : string) :
  send_refusal c options = Some reason ->
  send command options c =
    (Returned tt, c,
     (request_entries c command options
      ++ answer_entries c (error_line reason))%list).
Proof.
  unfold send_refusal, usable, send, logRequest, logAnswer,
    request_entries, answer_entries, error_line, busy_with.
  open_connection c.
  destruct ci as [which|], st, (ordinary_command options), lo as [op|],
    (requests_log options), te;
    run_M; try destruct (isFileTransfer op); cbn;
    intros Hr; try discriminate Hr; injection Hr as <-; reflexivity.
Qed.

(** A complete description of what an accepted [send] does. *)
Lemma send_accepted_run (c : Connection) (command : string)
    (options : option SendOptions) (which : CommunicationInterface) :
  send_refusal c options = None ->
  communicationInterface c = Some which ->
  send command options c =
    (Returned tt, set_error None (set_errorCode NONE c),
     (request_entries c command options
      ++ [interface_write which (command ++ Js.nl)])%list).
Proof.
  unfold send_refusal, usable, send, logRequest, logAnswer,
    request_entries, busy_with.
  open_connection c. cbn [communicationInterface]. intros Hr ->. revert Hr.
  destruct st, (ordinary_command options), lo as [op|],
    (requests_log options), te;
    run_M; intros Hr; try discriminate Hr; reflexivity.
Qed.

Lemma answers_answer_entries (c : Connection) (line : string) :
  answers (answer_entries c line) = if traceEnabled c then [line] else [].
Proof. unfold answer_entries. destruct (traceEnabled c); reflexivity. Qed.

Lemma answers_request_entries (c : Connection) (command : string)
    (options : option SendOptions) :
  answers (request_entries c command options) = [].
Proof.
  unfold request_entries.
  destruct (requests_log options && traceEnabled c); reflexivity.
Qed.

Lemma answers_app (t1 t2 : list Event) :
  answers (t1 ++ t2) = (answers t1 ++ answers t2)%list.
Proof. apply flat_map_app. Qed.

Lemma transport_calls_app (t1 t2 : list Event) :
  transport_calls (t1 ++ t2) =
  (transport_calls t1 ++ transport_calls t2)%list.
Proof. apply filter_app. Qed.

Lemma transport_calls_log_entries (c : Connection) (command : string)
    (options : option SendOptions) (line : string) :
  transport_calls
    (request_entries c command options ++ answer_entries c line) = [].
Proof.
  unfold request_entries, answer_entries.
  destruct (requests_log options && traceEnabled c), (traceEnabled c);
    reflexivity.
Qed.

(** C4 (amended).  When the connection is not CONNECTED, or has no
    transport, or holds a long operation while the command is not marked
    long-operation-initiating, [send] changes no field and makes no call to
    the transport.  While tracing is enabled it records exactly one
    synthetic answer line: "not connected" in the first two cases, and
    otherwise "file transfer in progress" for a file transfer and "another
    operation in progress" for any other operation.  While tracing is
    disabled it records no answer at all. *)
Theorem send_refused (c : Connection) (command : string)
    (options : option SendOptions) :
  state c <> CONNECTED \/ communicationInterface c = None \/
  (ordinary_command options = true /\ longOperation c <> None) ->
  let r := send command options c in
  exists reason,
    send_refusal c options = Some reason /\
    (usable c = false -> reason = "not connected") /\
    (usable c = true -> forall op, longOperation c = Some op ->
       reason = if isFileTransfer op then "file transfer in progress"
                else "another operation in progress") /\
    final r = c /\
    outcome r = Returned tt /\
    transport_calls (trace r) = [] /\
    written (trace r) = [] /\
    answers (trace r) =
      if traceEnabled c then ["**ERROR: " ++ reason ++ Js.nl] else [].
Proof.
  intros Hcase r.
  assert (Hreason : exists reason, send_refusal c options = Some reason /\
            (usable c = false -> reason = "not connected") /\
            (usable c = true -> forall op, longOperation c = Some op ->
               reason = busy_with op)).
  { unfold send_refusal. destruct (usable c) eqn:Hu.
    - apply usable_spec in Hu. destruct Hu as [Hs Hci].
      destruct Hcase as [H | [H | [Hord Hop]]]; try contradiction.
      rewrite Hord. destruct (longOperation c) as [op|]; [|contradiction].
      exists (busy_with op). repeat split; try discriminate.
      intros _ op' [= <-]. reflexivity.
    - exists "not connected". repeat split; discriminate. }
  destruct Hreason as (reason & Hr & Hnc & Hbusy).
  exists reason. subst r. rewrite (send_refused_run c command options reason Hr).
  unfold final, outcome, trace; cbn [fst snd].
  repeat split; try assumption.
  - apply transport_calls_log_entries.
  - unfold request_entries, answer_entries.
    destruct (requests_log options && traceEnabled c), (traceEnabled c);
      reflexivity.
  - rewrite answers_app, answers_request_entries, answers_answer_entries.
    reflexivity.
Qed.

(** C10 (amended).  When the options do not suppress logging ([options]
    absent or [options.log] truthy) and tracing is enabled, the first thing
    [send] does is record the command as a request, whether or not the call
    then fails a precondition, and it records it once. *)
Theorem send_logs_request_first (c : Connection) (command : string)
    (options : option SendOptions) :
  requests_log options = true ->
  traceEnabled c = true ->
  exists rest,
    trace (send command options c) =
      log "instrument/request" (Text command) :: rest /\
    requests rest = [] /\
    (forall reason, send_refusal c options = Some reason ->
       rest = [log "instrument/answer" (Text ("**ERROR: " ++ reason ++ Js.nl))]).
Proof.
  intros Hlog Htrace.
  destruct (send_refusal c options) as [reason|] eqn:Hr.
  - rewrite (send_refused_run c command options reason Hr).
    unfold request_entries, answer_entries, error_line.
    rewrite Hlog, Htrace. cbn.
    eexists; repeat split. intros ? [= <-]. reflexivity.
  - assert (Hci : exists which, communicationInterface c = Some which).
    { unfold send_refusal, usable in Hr.
      destruct (communicationInterface c) as [which|]; [eauto|].
      rewrite andb_false_r in Hr. discriminate. }
    destruct Hci as [which Hci].
    rewrite (send_accepted_run c command options which Hr Hci).
    unfold request_entries. rewrite Hlog, Htrace. cbn.
    eexists; repeat split. discriminate.
Qed.

End CommandSend.

Lemma send_refused_witness :
  exists reason,
    send_refusal Sample.uploading None = Some reason /\
    (usable Sample.uploading = false -> reason = "not connected") /\
    (usable Sample.uploading = true ->
     forall op, longOperation Sample.uploading = Some op ->
       reason = if isFileTransfer op then "file transfer in progress"
                else "another operation in progress") /\
    final (send "MEAS:VOLT?" None Sample.uploading) = Sample.uploading /\
    outcome (send "MEAS:VOLT?" None Sample.uploading) = Returned tt /\
    transport_calls (trace (send "MEAS:VOLT?" None Sample.uploading)) = [] /\
    written (trace (send "MEAS:VOLT?" None Sample.uploading)) = [] /\
    answers (trace (send "MEAS:VOLT?" None Sample.uploading)) =
      if traceEnabled Sample.uploading
      then ["**ERROR: " ++ reason ++ Js.nl] else [].
Proof.
  apply (send_refused Sample.uploading "MEAS:VOLT?" None).
  right; right. split; [reflexivity | vm_compute; discriminate].
Defined.

(** C4 as stated fails: with tracing switched off by the exclusive owner, a
    command sent during an upload produces no error line (and nothing
    else). *)
Lemma send_refused_without_error_line :
  state Sample.muted_uploading = CONNECTED /\
  longOperation Sample.muted_uploading = Some (Sample.Upload "#15Hel" false) /\
  ordinary_command None = true /\
  trace (send "MEAS:VOLT?" None Sample.muted_uploading) = [].
Proof. repeat split. Qed.

Lemma send_logs_request_first_witness :
  exists rest,
    trace (send "MEAS:VOLT?" None Sample.uploading) =
      log "instrument/request" (Text "MEAS:VOLT?") :: rest /\
    requests rest = [] /\
    (forall reason, send_refusal Sample.uploading None = Some reason ->
       rest = [log "instrument/answer" (Text ("**ERROR: " ++ reason ++ Js.nl))]).
Proof.
  apply (send_logs_request_first Sample.uploading "MEAS:VOLT?" None);
    reflexivity.
Defined.

(** C10 as stated fails: with tracing switched off by the exclusive owner, a
    command whose options do not suppress logging, and which fails the
    long-operation precondition, leaves no request entry. *)
Lemma send_without_request_entry :
  requests_log None = true /\
  send_refusal Sample.muted_uploading None = Some "file transfer in progress" /\
  requests (trace (send "MEAS:VOLT?" None Sample.muted_uploading)) = [].
Proof. repeat split. Qed.

(** ** Invariants of computations *)

Section Preservation.

Context {imports : Imports}.

Variable I : Connection -> Prop.
Variable P : Event -> Prop.

Lemma preserves_ret {A} (a : A) : preserves I P (ret a).
Proof. intros c Hc. split; [exact Hc | constructor]. Qed.

Lemma preserves_throw {A} (e : string) : preserves I P (@throw _ A e).
Proof. intros c Hc. split; [exact Hc | constructor]. Qed.

Lemma preserves_get {A} (f : Connection -> A) : preserves I P (get f).
Proof. intros c Hc. split; [exact Hc | constructor]. Qed.

Lemma preserves_emit (e : Event) : P e -> preserves I P (emit e).
Proof. intros He c Hc. split; [exact Hc | repeat constructor; exact He]. Qed.

Lemma preserves_modify (f : Connection -> Connection) :
  (forall c, I c -> I (f c)) -> preserves I P (modify f).
Proof. intros Hf c Hc. split; [apply Hf, Hc | constructor]. Qed.

Lemma preserves_bind {A B} (m : M A) (k : A -> M B) :
  preserves I P m -> (forall a, preserves I P (k a)) ->
  preserves I P (bind m k).
Proof.
  intros Hm Hk c Hc. unfold bind, final, trace.
  destruct (Hm c Hc) as [H1 T1]. unfold final, trace in H1, T1.
  destruct (m c) as [[[a | e] c1] t1]; cbn in *.
  - destruct (Hk a c1 H1) as [H2 T2]. unfold final, trace in H2, T2.
    destruct (k a c1) as [[r c2] t2]; cbn in *.
    split; [exact H2 | apply Forall_app; split; assumption].
  - split; assumption.
Qed.

Lemma preserves_try_catch {A} (m : M A) (h : string -> M A) :
  preserves I P m -> (forall e, preserves I P (h e)) ->
  preserves I P (try_catch m h).
Proof.
  intros Hm Hh c Hc. unfold try_catch, final, trace.
  destruct (Hm c Hc) as [H1 T1]. unfold final, trace in H1, T1.
  destruct (m c) as [[[a | e] c1] t1]; cbn in *.
  - split; assumption.
  - destruct (Hh e c1 H1) as [H2 T2]. unfold final, trace in H2, T2.
    destruct (h e c1) as [[r c2] t2]; cbn in *.
    split; [exact H2 | apply Forall_app; split; assumption].
Qed.

Lemma preserves_when (b : bool) (m : M unit) :
  preserves I P m -> preserves I P (when b m).
Proof. intros Hm. destruct b; [exact Hm | apply preserves_ret]. Qed.

Lemma preserves_add_timer (cb : Callback) (ms : Z) (rep : bool) :
  (forall c ts n, I c -> I (set_nextTimerId n (set_timers ts c))) ->
  preserves I P (add_timer cb ms rep).
Proof.
  intros HI c Hc. unfold add_timer, final, trace; cbn.
  split; [apply HI, Hc | constructor].
Qed.

End Preservation.

(** One step of a preservation proof: follow the shape of the computation,
    leaving side conditions on field updates and events to [solve_side]. *)
Ltac preserves_step solve_side :=
  first
    [ match goal with
      | H : preserves _ _ _ |- _ => exact H
      | H : forall _, preserves _ _ _ |- _ => apply H
      end
    | apply preserves_ret
    | apply preserves_throw
    | apply preserves_get
    | apply preserves_emit; solve_side
    | apply preserves_modify; solve_side
    | apply preserves_when
    | apply preserves_try_catch; [|intros ?]
    | apply preserves_bind; [|intros ?]
    | match goal with
      | |- preserves _ _ (if ?b then _ else _) => destruct b
      | |- preserves _ _ (match ?x with _ => _ end) => destruct x
      end ].

(** Side conditions: the update leaves the invariant's fields alone, the
    event is an allowed one. *)
Ltac frame_side := solve [intros; cbn in *; auto].

Ltac preserves_auto :=
  repeat preserves_step frame_side;
  try (apply preserves_add_timer; frame_side).

Section Running.

Context {imports : Imports}.

(** Where a sequence ends, and how. *)
Lemma final_bind {A B} (m : M A) (k : A -> M B) (c : Connection) :
  final (bind m k c) =
    match outcome (m c) with
    | Returned a => final (k a (final (m c)))
    | Thrown _ => final (m c)
    end.
Proof.
  unfold bind, final, outcome.
  destruct (m c) as [[[a | e] c1] t1]; cbn;
    [destruct (k a c1) as [[r c2] t2]|]; reflexivity.
Qed.

Lemma outcome_bind {A B} (m : M A) (k : A -> M B) (c : Connection) :
  outcome (bind m k c) =
    match outcome (m c) with
    | Returned a => outcome (k a (final (m c)))
    | Thrown e => Thrown e
    end.
Proof.
  unfold bind, final, outcome.
  destruct (m c) as [[[a | e] c1] t1]; cbn;
    [destruct (k a c1) as [[r c2] t2]|]; reflexivity.
Qed.

(** The expiry of a pending timer: a one-shot timer leaves the pending
    list, then its callback runs. *)
Lemma fire_pending (h : nat) (c : Connection) (t : Timer) :
  find (fun t => Nat.eqb (handle t) h) (timers c) = Some t ->
  fire h c =
    (when (negb (repeating t))
       (modify (fun c => set_timers (cancel h (timers c)) c)) ;;
     run_callback (callback t)) c.
Proof.
  intros Hfind. unfold fire. unfold bind at 1, get at 1. rewrite Hfind.
  destruct ((when _ _ ;; run_callback _) c) as [[r c2] t2]. reflexivity.
Qed.

End Running.

Section LongOperationLifecycle.

Context {imports : Imports}.

(** The buffering half of [onData] never touches the long operation. *)
Lemma onData_buffer_keeps_longOperation (v : option LongOperation)
    (chunk : string) :
  preserves (fun c => longOperation c = v) (fun _ => True)
    (onData_buffer chunk).
Proof.
  unfold onData_buffer, onDataLineReceived, logAnswer, sendValue,
    clearTimeout, setError, disconnect, setTimeout.
  preserves_auto.
Qed.

(** [flushData] ends with no long operation. *)
Lemma flushData_clears (c : Connection) :
  longOperation (final (flushData c)) = None.
Proof.
  open_connection c. unfold flushData, logAnswer, clearTimeout.
  destruct lo as [op|], dt as [h|], d as [[|ch s]|], te; reflexivity.
Qed.

(** [connected()] while a long operation is held and a transport exists:
    the identification query is refused, then [flushData] runs. *)
Lemma connected_clears (now : Z) (c : Connection) (op : LongOperation) :
  longOperation c = Some op ->
  communicationInterface c <> None ->
  longOperation (final (connected now c)) = None /\
  written (trace (connected now c)) = [].
Proof.
  intros Hop Hci. open_connection c. cbn in Hop, Hci. subst lo.
  destruct ci as [which|]; [|contradiction].
  unfold connected, sendIdn, send, flushData, logRequest, logAnswer,
    setTimeout, setInterval, add_timer, clearTimeout.
  destruct te, dt as [h|], d as [[|ch s]|]; run_M;
    destruct (isFileTransfer op); split; reflexivity.
Qed.

Lemma connected_without_transport (now : Z) (c : Connection) :
  communicationInterface c = None ->
  longOperation (final (connected now c)) = longOperation c.
Proof.
  intros Hci. open_connection c. cbn in Hci. subst ci.
  unfold connected, sendIdn, setInterval, add_timer. reflexivity.
Qed.

Lemma disconnected_longOperation (now : Z) (c : Connection) :
  longOperation (final (disconnected now c)) =
    if wasConnected c then None else longOperation c.
Proof.
  open_connection c.
  unfold disconnected, flushData, logAnswer, clearInterval, clearTimeout.
  destruct wc, lo as [op|], dt as [h|], d as [[|ch s]|], te, hk as [k|];
    reflexivity.
Qed.

Lemma fire_flushData_clears (h : nat) (c : Connection) (t : Timer) :
  find (fun t => Nat.eqb (handle t) h) (timers c) = Some t ->
  callback t = flushData_callback ->
  longOperation (final (fire h c)) = None.
Proof.
  intros Hfind Hcb.
  rewrite (fire_pending h c t Hfind), Hcb, final_bind.
  assert (Hwhen : outcome
            (when (negb (repeating t))
               (modify (fun c => set_timers (cancel h (timers c)) c)) c)
            = Returned tt) by (destruct (repeating t); reflexivity).
  rewrite Hwhen. apply flushData_clears.
Qed.

Lemma onData_feeds (chunk : string) (c : Connection) (op : LongOperation) :
  longOperation c = Some op ->
  isDone (feed chunk op) = false ->
  longOperation (final (onData chunk c)) = Some (feed chunk op).
Proof.
  intros Hop Hdone. open_connection c. cbn in Hop. subst lo.
  unfold onData, clearTimeout.
  destruct dt as [h|]; run_M; rewrite Hdone; reflexivity.
Qed.

Lemma onData_completes (chunk : string) (c : Connection)
    (op : LongOperation) :
  longOperation c = Some op ->
  isDone (feed chunk op) = true ->
  longOperation (final (onData chunk c)) = None.
Proof.
  intros Hop Hdone. open_connection c. cbn in Hop. subst lo.
  unfold onData, longOperationDone, sendValue, clearTimeout.
  destruct dt as [h|], cw as [[|n]|]; run_M; rewrite Hdone; cbn;
    (destruct (dataSurplus (feed chunk op)) as [surplus|];
     [|reflexivity]);
    match goal with
    | |- context [onData_buffer surplus ?c0] =>
        pose proof (proj1 (onData_buffer_keeps_longOperation
                             None surplus c0 eq_refl)) as Hk;
        unfold final in Hk;
        destruct (onData_buffer surplus c0) as [[r c2] t2];
        cbn in *; exact Hk
    end.
Qed.

Lemma held_is_not_replaced (c : Connection) (op : LongOperation)
    (create : Connection -> LongOperation)
    (instructions : IFileDownloadInstructions) :
  longOperation c = Some op ->
  final (startLongOperation create c) = c /\
  final (download instructions c) = c.
Proof.
  intros Hop. open_connection c. cbn in Hop. subst lo.
  unfold download, startLongOperation, logAnswer.
  destruct st, ci, te; run_M; destruct (isFileTransfer op);
    split; reflexivity.
Qed.

(** C9 (amended).  A connection has a single [longOperation] field, so it
    holds at most one long operation.  While it holds one:
    [startLongOperation] and [download] change nothing, so the operation is
    not replaced; a chunk that does not complete it leaves it installed, fed
    with the chunk; [abortLongOperation()] calls the operation's [abort()]
    and leaves it installed.  The reference is cleared by [onData] when the
    chunk completes the operation, by the housekeeping tick once the
    operation reports done (hence by the first tick after an abort that makes
    it report done, and by no tick before it reports done), and by
    [flushData], which runs: when the coalescing timer expires; in the
    disconnected event if the session had reached CONNECTED, and not
    otherwise; and in the connected event if there is a transport, after the
    identification query, which is refused without a write while the
    operation is held. *)
Theorem longOperation_lifecycle (c : Connection) (op : LongOperation) :
  longOperation c = Some op ->
  (forall create instructions,
     final (startLongOperation create c) = c /\
     final (download instructions c) = c) /\
  (forall chunk,
     longOperation (final (onData chunk c)) =
       if isDone (feed chunk op) then None else Some (feed chunk op)) /\
  longOperation (final (abortLongOperation c)) = Some (abort op) /\
  final (abortLongOperation c) = set_longOperation (Some (abort op)) c /\
  trace (abortLongOperation c) = [] /\
  (isDone op = true -> longOperation (final (housekeeping c)) = None) /\
  (isDone op = false -> final (housekeeping c) = c) /\
  (isDone (abort op) = true ->
   longOperation (final (housekeeping (final (abortLongOperation c)))) = None) /\
  longOperation (final (flushData c)) = None /\
  (forall h t,
     find (fun t => Nat.eqb (handle t) h) (timers c) = Some t ->
     callback t = flushData_callback ->
     longOperation (final (fire h c)) = None) /\
  (forall now,
     longOperation (final (disconnected now c)) =
       if wasConnected c then None else Some op) /\
  (forall now,
     communicationInterface c <> None ->
     longOperation (final (connected now c)) = None /\
     written (trace (connected now c)) = []) /\
  (forall now,
     communicationInterface c = None ->
     longOperation (final (connected now c)) = Some op).
Proof.
  intros Hop.
  assert (Habort :
    final (abortLongOperation c) = set_longOperation (Some (abort op)) c).
  { unfold abortLongOperation. run_M. rewrite Hop. reflexivity. }
  assert (Hhk : forall c' op', longOperation c' = Some op' ->
            isDone op' = true ->
            longOperation (final (housekeeping c')) = None).
  { intros c' op' Hop' Hdone. open_connection c'. cbn in Hop'. subst lo.
    unfold housekeeping, longOperationDone, sendValue. run_M.
    rewrite Hdone. destruct cw as [[|n]|]; reflexivity. }
  split; [intros create instructions; apply (held_is_not_replaced c op), Hop|].
  split.
  { intros chunk. destruct (isDone (feed chunk op)) eqn:Hdone.
    - apply (onData_completes chunk c op Hop Hdone).
    - apply (onData_feeds chunk c op Hop Hdone). }
  split; [rewrite Habort; reflexivity|].
  split; [exact Habort|].
  split; [unfold abortLongOperation; run_M; rewrite Hop; reflexivity|].
  split; [apply Hhk; exact Hop|].
  split.
  { intros Hdone. unfold housekeeping. run_M. rewrite Hop, Hdone.
    reflexivity. }
  split.
  { intros Hdone. rewrite Habort. eapply Hhk; [reflexivity | exact Hdone]. }
  split; [apply flushData_clears|].
  split; [intros h t; apply fire_flushData_clears|].
  split; [intros now; rewrite disconnected_longOperation, Hop; reflexivity|].
  split; [intros now Hci; apply (connected_clears now c op Hop Hci)|].
  intros now Hci. rewrite (connected_without_transport now c Hci). exact Hop.
Qed.

End LongOperationLifecycle.

Lemma longOperation_lifecycle_witness :
  longOperation Sample.uploading = Some (Sample.Upload "#15Hel" false) /\
  longOperation (final (abortLongOperation Sample.uploading))
    = Some (Sample.Upload "#15Hel" true) /\
  longOperation
    (final (housekeeping (final (abortLongOperation Sample.uploading))))
    = None /\
  longOperation (final (onData "l" Sample.uploading))
    = Some (Sample.Upload "#15Hell" false) /\
  written (trace (connected 9 Sample.uploading)) = [].
Proof.
  assert (Hci : communicationInterface Sample.uploading <> None)
    by (vm_compute; discriminate).
  pose proof (longOperation_lifecycle Sample.uploading
                (Sample.Upload "#15Hel" false) eq_refl)
    as (_ & Hfeed & Habort & _ & _ & _ & _ & Htick & _ & _ & _ & Hidn & _).
  split; [reflexivity|].
  split; [exact Habort|].
  split; [apply Htick; reflexivity|].
  split; [exact (Hfeed "l") | exact (proj2 (Hidn 9%Z Hci))].
Defined.

(** C9 as stated fails: right after [abortLongOperation()] returns, the
    connection still holds the (aborted) upload. *)
Lemma abortLongOperation_keeps_reference :
  longOperation (final (abortLongOperation Sample.uploading)) <> None.
Proof. vm_compute. discriminate. Qed.

Section Identification.

Context {imports : Imports}.

Lemma disconnect_live (c : Connection) (which : CommunicationInterface) :
  state c <> IDLE -> communicationInterface c = Some which ->
  disconnect c =
    (Returned tt, set_state DISCONNECTING c, [interface_disconnect which]).
Proof.
  intros Hs Hci. unfold disconnect. run_M. rewrite Hci.
  destruct (ConnectionState_eqb_spec (state c) IDLE); [contradiction|].
  reflexivity.
Qed.

Lemma cancel_removes (h : nat) (ts : list Timer) (t : Timer) :
  In t (cancel h ts) -> handle t <> h.
Proof.
  unfold cancel. intros Hin. apply filter_In in Hin. destruct Hin as [_ Hne].
  apply negb_true_iff, Nat.eqb_neq in Hne. exact Hne.
Qed.

(** A complete description of [onDataLineReceived] while the identification
    is awaited. *)
Lemma onDataLineReceived_awaiting_run (c : Connection) (line : string) :
  idnExpected c = true ->
  let before :=
    (answer_entries c line ++ [scpi_parse line]
     ++ sent_entries c (ParsedValue (parseScpiValue line)))%list in
  let c0 := idn_settled c in
  onDataLineReceived line c =
    match parseScpiValue line with
    | ScpiString idn =>
        (Returned tt, c0, (before ++ [instrument_setIdn idn])%list)
    | _ =>
        let c1 := set_error (Some "Invalid IDN value.") (set_errorCode NONE c0) in
        (Returned tt, final (disconnect c1),
         (before ++ trace (disconnect c1))%list)
    end.
Proof.
  intros Hexp before c0. subst before c0.
  open_connection c. cbn in Hexp. subst ie.
  unfold onDataLineReceived, logAnswer, sendValue, clearTimeout, setError,
    answer_entries, sent_entries, idn_settled, cancel_opt.
  destruct te, cw as [[|n]|], iet as [h|], st, ci as [which|];
    destruct (parseScpiValue line) as [idn | n' | repr]; vm_compute;
    reflexivity.
Qed.

Lemma final_tuple {A} (r : Outcome A) (c : Connection) (t : list Event) :
  final (r, c, t) = c.
Proof. reflexivity. Qed.

Lemma trace_tuple {A} (r : Outcome A) (c : Connection) (t : list Event) :
  trace (r, c, t) = t.
Proof. reflexivity. Qed.

Lemma outcome_tuple {A} (r : Outcome A) (c : Connection) (t : list Event) :
  outcome (r, c, t) = r.
Proof. reflexivity. Qed.

Lemma dispatched_app (t1 t2 : list Event) :
  dispatched (t1 ++ t2) = (dispatched t1 ++ dispatched t2)%list.
Proof. apply flat_map_app. Qed.

(** [disconnect()] only ever changes [state]. *)
Lemma disconnect_frame (c : Connection) :
  final (disconnect c) = c \/ final (disconnect c) = set_state DISCONNECTING c.
Proof.
  unfold disconnect. run_M.
  destruct (communicationInterface c); [|left; reflexivity].
  destruct (ConnectionState_eqb (state c) IDLE);
    [left | right]; reflexivity.
Qed.

Lemma disconnect_dispatches_nothing (c : Connection) :
  dispatched (trace (disconnect c)) = [].
Proof.
  unfold disconnect. run_M.
  destruct (communicationInterface c); [|reflexivity].
  destruct (ConnectionState_eqb (state c) IDLE); reflexivity.
Qed.

(** C7.  A completed line that arrives while the identification is awaited
    cancels the identification timeout and clears the expectation flag.
    When the parsed value is a string it is handed to the instrument object
    and the connection goes on as it was: state and error untouched,
    transport not called.  Otherwise the error text "Invalid IDN value." is
    set and [disconnect()] runs on the result, which on a live connection
    moves it to DISCONNECTING with one disconnect request to the
    transport. *)
Theorem identification_line (c : Connection) (line : string) :
  idnExpected c = true ->
  let r := onDataLineReceived line c in
  outcome r = Returned tt /\
  idnExpected (final r) = false /\
  idnExpectedTimeout (final r) = None /\
  (forall h t, idnExpectedTimeout c = Some h ->
     In t (timers (final r)) -> handle t <> h) /\
  dispatched (trace r) = [line] /\
  match parseScpiValue line with
  | ScpiString idn =>
      final r = idn_settled c /\
      state (final r) = state c /\
      errorCode (final r) = errorCode c /\
      error (final r) = error c /\
      transport_calls (trace r) = [] /\
      In (instrument_setIdn idn) (trace r)
  | _ =>
      let c1 :=
        set_error (Some "Invalid IDN value.")
          (set_errorCode NONE (idn_settled c)) in
      final r = final (disconnect c1) /\
      error (final r) = Some "Invalid IDN value." /\
      (exists before,
         transport_calls before = [] /\
         trace r = (before ++ trace (disconnect c1))%list) /\
      (forall which, state c <> IDLE ->
         communicationInterface c = Some which ->
         state (final r) = DISCONNECTING /\
         transport_calls (trace r) = [interface_disconnect which])
  end.
Proof.
  intros Hexp r. subst r.
  rewrite (onDataLineReceived_awaiting_run c line Hexp).
  set (before := (answer_entries c line ++ [scpi_parse line]
     ++ sent_entries c (ParsedValue (parseScpiValue line)))%list).
  assert (Hbefore : transport_calls before = [] /\ dispatched before = [line]).
  { subst before. unfold answer_entries, sent_entries.
    destruct (traceEnabled c), (callbackWindowId c) as [[|n]|];
      split; reflexivity. }
  destruct Hbefore as [B1 B2].
  assert (Hcancel : forall h t, idnExpectedTimeout c = Some h ->
            In t (timers (idn_settled c)) -> handle t <> h).
  { intros h t Hh Hin. unfold idn_settled, cancel_opt in Hin.
    rewrite Hh in Hin. cbn in Hin. eapply cancel_removes, Hin. }
  set (c1 := set_error (Some "Invalid IDN value.")
               (set_errorCode NONE (idn_settled c))).
  assert (Hother :
    let r := (@Returned unit tt, final (disconnect c1),
              (before ++ trace (disconnect c1))%list) in
    outcome r = Returned tt /\
    idnExpected (final r) = false /\
    idnExpectedTimeout (final r) = None /\
    (forall h t, idnExpectedTimeout c = Some h ->
       In t (timers (final r)) -> handle t <> h) /\
    dispatched (trace r) = [line] /\
    final r = final (disconnect c1) /\
    error (final r) = Some "Invalid IDN value." /\
    (exists before,
       transport_calls before = [] /\
       trace r = (before ++ trace (disconnect c1))%list) /\
    (forall which, state c <> IDLE ->
       communicationInterface c = Some which ->
       state (final r) = DISCONNECTING /\
       transport_calls (trace r) = [interface_disconnect which])).
  { intros r. subst r.
    rewrite !final_tuple, !trace_tuple, !outcome_tuple.
    assert (Hframe : idnExpected (final (disconnect c1)) = false /\
              idnExpectedTimeout (final (disconnect c1)) = None /\
              timers (final (disconnect c1)) = timers (idn_settled c) /\
              error (final (disconnect c1)) = Some "Invalid IDN value.").
    { destruct (disconnect_frame c1) as [-> | ->]; repeat split. }
    destruct Hframe as (K1 & K2 & K3 & K4).
    split; [reflexivity|].
    split; [exact K1|].
    split; [exact K2|].
    split; [intros h t Hh Hin; rewrite K3 in Hin; eapply Hcancel; eauto|].
    split; [rewrite dispatched_app, B2, disconnect_dispatches_nothing;
            reflexivity|].
    split; [reflexivity|].
    split; [exact K4|].
    split; [exists before; split; [exact B1 | reflexivity]|].
    intros which Hs Hci.
    rewrite (disconnect_live c1 which Hs Hci).
    rewrite final_tuple, trace_tuple, transport_calls_app, B1.
    split; reflexivity. }
  destruct (parseScpiValue line) as [idn | n | repr] eqn:Hvalue.
  - rewrite !final_tuple, !trace_tuple, !outcome_tuple.
    split; [reflexivity|].
    split; [reflexivity|].
    split; [reflexivity|].
    split; [exact Hcancel|].
    split; [rewrite dispatched_app, B2; reflexivity|].
    repeat split.
    + rewrite transport_calls_app, B1. reflexivity.
    + apply in_or_app. right. left. reflexivity.
  - exact Hother.
  - exact Hother.
Qed.

End Identification.

Lemma identification_line_witness :
  idnExpected Sample.online = true /\
  idnExpected
    (final (onDataLineReceived ("EEZ,H24005,0,1.0" ++ Js.nl) Sample.online))
    = false.
Proof.
  split; [reflexivity|].
  exact (proj1 (proj2
    (identification_line Sample.online ("EEZ,H24005,0,1.0" ++ Js.nl)
       eq_refl))).
Defined.

Section IdentificationTimeout.

Context {imports : Imports}.



(** A handle that is not pending fires nothing. *)
Lemma fire_not_pending (h : nat) (c : Connection) :
  find (fun t => Nat.eqb (handle t) h) (timers c) = None ->
  fire h c = (Returned tt, c, []).
Proof. intros Hfind. unfold fire. run_M. rewrite Hfind. reflexivity. Qed.




End IdentificationTimeout.



Section DisconnectingLock.

Context {imports : Imports}.

Lemma Forall_not_write_written (t : list Event) :
  Forall not_a_write t -> written t = [].
Proof.
  induction 1 as [|e t He _ IH]; [reflexivity|].
  destruct e; cbn in *; try exact IH. contradiction.
Qed.

Lemma disconnecting_disconnect :
  preserves (fun c => state c = DISCONNECTING) not_a_write disconnect.
Proof. unfold disconnect. preserves_auto. Qed.

Lemma disconnecting_connect :
  preserves (fun c => state c = DISCONNECTING) not_a_write connect.
Proof.
  intros c Hc. unfold connect. run_M. rewrite Hc. cbn.
  split; [exact Hc | repeat constructor].
Qed.

Lemma disconnecting_send (command : string) (options : option SendOptions) :
  preserves (fun c => state c = DISCONNECTING) not_a_write
    (send command options).
Proof.
  intros c Hc.
  assert (Hr : exists reason, send_refusal c options = Some reason).
  { unfold send_refusal, usable. rewrite Hc. cbn. eauto. }
  destruct Hr as [reason Hr].
  rewrite (send_refused_run c command options reason Hr).
  rewrite final_tuple, trace_tuple. split; [exact Hc|].
  unfold request_entries, answer_entries.
  destruct (requests_log options && traceEnabled c), (traceEnabled c);
    repeat constructor.
Qed.

Lemma disconnecting_onDataLineReceived (line : string) :
  preserves (fun c => state c = DISCONNECTING) not_a_write
    (onDataLineReceived line).
Proof.
  pose proof disconnecting_disconnect.
  unfold onDataLineReceived, logAnswer, sendValue, clearTimeout, setError.
  preserves_auto.
Qed.

Lemma disconnecting_onData_buffer (chunk : string) :
  preserves (fun c => state c = DISCONNECTING) not_a_write
    (onData_buffer chunk).
Proof.
  pose proof disconnecting_onDataLineReceived.
  unfold onData_buffer, setTimeout. preserves_auto.
Qed.

Lemma disconnecting_longOperationDone :
  preserves (fun c => state c = DISCONNECTING) not_a_write longOperationDone.
Proof. unfold longOperationDone, sendValue. preserves_auto. Qed.

Lemma disconnecting_onData (chunk : string) :
  preserves (fun c => state c = DISCONNECTING) not_a_write (onData chunk).
Proof.
  pose proof disconnecting_onData_buffer.
  pose proof disconnecting_longOperationDone.
  unfold onData, clearTimeout. preserves_auto.
Qed.

Lemma disconnecting_flushData :
  preserves (fun c => state c = DISCONNECTING) not_a_write flushData.
Proof. unfold flushData, logAnswer, clearTimeout. preserves_auto. Qed.

Lemma disconnecting_fire (h : nat) :
  preserves (fun c => state c = DISCONNECTING) not_a_write (fire h).
Proof.
  pose proof disconnecting_flushData.
  pose proof disconnecting_disconnect.
  pose proof disconnecting_longOperationDone.
  unfold fire, run_callback, idnTimeout, housekeeping, setError.
  preserves_auto.
Qed.

Lemma disconnecting_download (instructions : IFileDownloadInstructions) :
  preserves (fun c => state c = DISCONNECTING) not_a_write
    (download instructions).
Proof. unfold download, startLongOperation, logAnswer. preserves_auto. Qed.

(** No step other than the transport's confirmations leaves DISCONNECTING
    or writes to the transport. *)
Lemma disconnecting_step (s : Step) :
  is_confirmation s = false ->
  preserves (fun c => state c = DISCONNECTING) not_a_write (step s).
Proof.
  destruct s; cbn; intros Hs; try discriminate Hs.
  - apply disconnecting_connect.
  - apply disconnecting_disconnect.
  - pose proof disconnecting_disconnect. unfold destroy. preserves_auto.
  - apply disconnecting_send.
  - apply disconnecting_download.
  - unfold startLongOperation. preserves_auto.
  - unfold abortLongOperation. preserves_auto.
  - unfold acquire. preserves_auto.
  - unfold release. preserves_auto.
  - unfold dismissError. preserves_auto.
  - apply disconnecting_onData.
  - unfold setError. preserves_auto.
  - apply disconnecting_fire.
Qed.

Lemma disconnecting_steps (l : list Step) (c : Connection) :
  forallb (fun s => negb (is_confirmation s)) l = true ->
  state c = DISCONNECTING ->
  state (fst (steps l c)) = DISCONNECTING /\
  Forall not_a_write (snd (steps l c)).
Proof.
  revert c. induction l as [|s l IH]; intros c Hl Hc; cbn.
  - split; [exact Hc | constructor].
  - cbn in Hl. apply andb_true_iff in Hl. destruct Hl as [Hs Hl].
    apply negb_true_iff in Hs.
    destruct (disconnecting_step s Hs c Hc) as [Hc1 Ht1].
    destruct (IH (final (step s c)) Hl Hc1) as [Hc2 Ht2].
    split; [exact Hc2 | apply Forall_app; split; assumption].
Qed.

(** C5 (amended).  A [disconnect()] request on a connection that has its
    transport and is not IDLE sets the state to DISCONNECTING; from then on,
    whatever happens short of a confirmation by the transport, connected or
    disconnected (calls of [send] and of every other method, incoming data,
    timers firing), the state stays DISCONNECTING and nothing is written to
    the transport; in particular every [send] is answered without a
    write. *)
Theorem DISCONNECTING_blocks_sends (c : Connection) (l : list Step)
    (command : string) (options : option SendOptions) :
  state c <> IDLE ->
  communicationInterface c <> None ->
  forallb (fun s => negb (is_confirmation s)) l = true ->
  let c1 := final (disconnect c) in
  let c2 := fst (steps l c1) in
  state c1 = DISCONNECTING /\
  state c2 = DISCONNECTING /\
  written (snd (steps l c1)) = [] /\
  written (trace (send command options c2)) = [] /\
  final (send command options c2) = c2.
Proof.
  intros Hstate Hci Hl c1 c2.
  assert (H1 : state c1 = DISCONNECTING).
  { subst c1. destruct (communicationInterface c) as [which|] eqn:E;
      [|contradiction].
    rewrite (disconnect_live c which Hstate E). reflexivity. }
  destruct (disconnecting_steps l c1 Hl H1) as [H2 Ht]. fold c2 in H2.
  split; [exact H1|].
  split; [exact H2|].
  split; [apply Forall_not_write_written, Ht|].
  assert (Hr : exists reason, send_refusal c2 options = Some reason).
  { unfold send_refusal, usable. rewrite H2. cbn. eauto. }
  destruct Hr as [reason Hr].
  rewrite (send_refused_run c2 command options reason Hr).
  rewrite final_tuple, trace_tuple. split; [|reflexivity].
  unfold request_entries, answer_entries.
  destruct (requests_log options && traceEnabled c2), (traceEnabled c2);
    reflexivity.
Qed.

End DisconnectingLock.

Lemma DISCONNECTING_blocks_sends_witness :
  written
    (snd (steps [call_send "MEAS:VOLT?" None;
                 transport_onData ("1.25" ++ Js.nl);
                 call_send "OUTP ON" None; timer_fires 2]
            (final (disconnect Sample.identified)))) = [].
Proof.
  assert (Hs : state Sample.identified <> IDLE) by (vm_compute; discriminate).
  assert (Hc : communicationInterface Sample.identified <> None)
    by (vm_compute; discriminate).
  exact (proj1 (proj2 (proj2
    (DISCONNECTING_blocks_sends Sample.identified
       [call_send "MEAS:VOLT?" None; transport_onData ("1.25" ++ Js.nl);
        call_send "OUTP ON" None; timer_fires 2]
       "MEAS:CURR?" None Hs Hc eq_refl)))).
Defined.

(** C5 as stated fails when the transport reports connected after
    [disconnect()] was requested: the connected event sets the state back to
    CONNECTED whatever it was, the identification query is written, and so is
    every command sent afterwards, although the transport has not confirmed
    the disconnection. *)
Lemma connected_event_unlocks_DISCONNECTING :
  let c1 := final (disconnect Sample.identified) in
  state c1 = DISCONNECTING /\
  state (fst (steps [transport_connected 0] c1)) = CONNECTED /\
  written
    (snd (steps [transport_connected 0; call_send "MEAS:VOLT?" None] c1))
  = ["*IDN?" ++ Js.nl; "MEAS:VOLT?" ++ Js.nl].
Proof. vm_compute. repeat split. Qed.

(** ** Lines of a text *)

Section Lines.

Lemma substring_0_0 (s : string) : String.substring 0 0 s = "".
Proof. destruct s; reflexivity. Qed.

Lemma substring_whole (s : string) :
  String.substring 0 (String.length s) s = s.
Proof. induction s as [|ch s IH]; cbn; [reflexivity | rewrite IH; reflexivity]. Qed.

Lemma prefix_nl (ch : ascii) (rest : string) :
  String.prefix Js.nl (String ch rest) = Ascii.eqb ch Js.LF.
Proof.
  unfold Js.nl. cbn [String.prefix].
  destruct (ascii_dec Js.LF ch) as [<- | Hne].
  - rewrite Ascii.eqb_refl. destruct rest; reflexivity.
  - symmetry. apply Ascii.eqb_neq. congruence.
Qed.

(** [indexOf], [substr] and the comparison with [length], as [onData] uses
    them, compute [first_line]. *)
Lemma indexOf_first_line (s : string) :
  match Js.indexOf s Js.nl with
  | Some i =>
      first_line s = Some (Js.substr s 0 (S i), Js.substr_from s (S i)) /\
      String.length (Js.substr s 0 (S i)) = S i
  | None => first_line s = None
  end.
Proof.
  unfold Js.indexOf, Js.substr, Js.substr_from.
  induction s as [|ch rest IH].
  - reflexivity.
  - change (String.index 0 Js.nl (String ch rest)) with
      (if String.prefix Js.nl (String ch rest) then Some 0
       else match String.index 0 Js.nl rest with
            | Some n => Some (S n)
            | None => None
            end).
    rewrite prefix_nl. cbn [first_line].
    destruct (Ascii.eqb_spec ch Js.LF) as [-> | Hne].
    + cbn. rewrite substring_0_0, Nat.sub_0_r, substring_whole.
      split; reflexivity.
    + destruct (String.index 0 Js.nl rest) as [i|].
      * destruct IH as [IH Hlen]. rewrite IH. cbn in *.
        rewrite Hlen. split; reflexivity.
      * rewrite IH. reflexivity.
Qed.

Lemma first_line_append (s l r : string) :
  first_line s = Some (l, r) -> s = l ++ r.
Proof.
  revert l r. induction s as [|ch rest IH]; intros l r; cbn; [discriminate|].
  destruct (Ascii.eqb_spec ch Js.LF) as [-> | Hne].
  - intros [= <- <-]. reflexivity.
  - destruct (first_line rest) as [[l' r']|]; [|discriminate].
    intros [= <- <-]. cbn. rewrite <- (IH l' r' eq_refl). reflexivity.
Qed.








Lemma length_append (a b : string) :
  String.length (a ++ b) = String.length a + String.length b.
Proof. induction a as [|ch a IH]; cbn; [reflexivity | rewrite IH; reflexivity]. Qed.

End Lines.

Section Framing.

Context {imports : Imports}.

(** Dispatching a line touches neither the buffer nor the long operation. *)
Lemma onDataLineReceived_frame (v : option string) (w : option LongOperation)
    (line : string) :
  preserves (fun c => data c = v /\ longOperation c = w) (fun _ => True)
    (onDataLineReceived line).
Proof.
  unfold onDataLineReceived, logAnswer, sendValue, clearTimeout, setError,
    disconnect.
  preserves_auto.
Qed.

(** Every run of [onDataLineReceived] returns and hands exactly its line to
    the parser. *)
Lemma onDataLineReceived_dispatches (line : string) (c : Connection) :
  outcome (onDataLineReceived line c) = Returned tt /\
  dispatched (trace (onDataLineReceived line c)) = [line].
Proof.
  assert (Hbefore : forall v,
    dispatched (answer_entries c line ++ [scpi_parse line]
                ++ sent_entries c v) = [line]).
  { intros v. unfold answer_entries, sent_entries.
    destruct (traceEnabled c), (callbackWindowId c) as [[|n]|]; reflexivity. }
  destruct (idnExpected c) eqn:Hexp.
  - rewrite (onDataLineReceived_awaiting_run c line Hexp).
    destruct (parseScpiValue line) as [idn | n' | repr];
      rewrite outcome_tuple, trace_tuple, dispatched_app, Hbefore;
      rewrite ?disconnect_dispatches_nothing; split; reflexivity.
  - open_connection c. cbn in Hexp. subst ie.
    unfold onDataLineReceived, logAnswer, sendValue.
    destruct te, cw as [[|n]|]; vm_compute; split; reflexivity.
Qed.

Lemma rest_empty_iff (s l rest : string) (i : nat) :
  s = l ++ rest -> String.length l = S i ->
  Nat.ltb (S i) (String.length s) = negb (String.eqb rest "").
Proof.
  intros -> Hlen. rewrite length_append, Hlen.
  destruct rest as [|ch rest]; cbn [String.length String.eqb negb].
  - apply Nat.ltb_ge. lia.
  - apply Nat.ltb_lt. lia.
Qed.

(** The buffering half of [onData], in terms of [first_line]. *)
Lemma onData_buffer_run (chunk : string) (c : Connection) :
  onData_buffer chunk c =
    match first_line (buffered c ++ chunk) with
    | Some (l, rest) =>
        (onDataLineReceived l ;; arm_coalescing) (set_data (buffer_of rest) c)
    | None => arm_coalescing (set_data (Some (buffered c ++ chunk)) c)
    end.
Proof.
  unfold onData_buffer.
  unfold bind at 1, get at 1.
  set (s := match data c with Some old => old ++ chunk | None => chunk end).
  assert (Hs : s = buffered c ++ chunk).
  { subst s. unfold buffered. destruct (data c); reflexivity. }
  rewrite <- Hs. clearbody s. clear Hs.
  pose proof (indexOf_first_line s) as Hidx.
  destruct (Js.indexOf s Js.nl) as [i|].
  - destruct Hidx as [Hfirst Hlen]. rewrite Hfirst.
    rewrite (rest_empty_iff s _ _ i (first_line_append s _ _ Hfirst) Hlen).
    unfold buffer_of, arm_coalescing.
    destruct (String.eqb (Js.substr_from s (S i)) "");
      cbn [negb]; unfold bind, modify, get, ret;
      destruct (onDataLineReceived (Js.substr s 0 (S i)) _) as [[[[] | e] c1] t1];
      try destruct (when _ _ c1) as [[r2 c2] t2]; reflexivity.
  - rewrite Hidx. unfold arm_coalescing, bind, modify, get, ret.
    destruct (when _ _ _) as [[r2 c2] t2]; reflexivity.
Qed.

Lemma arm_coalescing_run (c : Connection) :
  arm_coalescing c = (Returned tt, armed c, []).
Proof.
  unfold arm_coalescing, armed, setTimeout, add_timer, coalescing_timer.
  run_M. destruct (data c); reflexivity.
Qed.

Lemma buffered_armed (c : Connection) : buffered (armed c) = buffered c.
Proof.
  unfold armed, buffered. destruct (data c) eqn:E; cbn; rewrite E; reflexivity.
Qed.

Lemma data_armed (c : Connection) : data (armed c) = data c.
Proof. unfold armed. destruct (data c) eqn:E; cbn; rewrite ?E; reflexivity. Qed.

Lemma longOperation_armed (c : Connection) :
  longOperation (armed c) = longOperation c.
Proof. unfold armed. destruct (data c); reflexivity. Qed.

Lemma buffered_buffer_of (text : string) (c : Connection) :
  data c = buffer_of text -> buffered c = text.
Proof.
  unfold buffered, buffer_of. intros ->.
  destruct (String.eqb_spec text ""); [symmetry; assumption | reflexivity].
Qed.

(** What the buffering half of [onData] does with a chunk: at most one line
    is dispatched, the first one of buffer plus chunk, and everything after it
    stays buffered, with the coalescing timer armed when that is not
    nothing. *)
Lemma onData_buffer_spec (chunk : string) (c : Connection) :
  let r := onData_buffer chunk c in
  outcome r = Returned tt /\
  longOperation (final r) = longOperation c /\
  (match first_line (buffered c ++ chunk) with
   | Some (l, rest) =>
       dispatched (trace r) = [l] /\ data (final r) = buffer_of rest /\
       buffered (final r) = rest
   | None =>
       dispatched (trace r) = [] /\
       data (final r) = Some (buffered c ++ chunk) /\
       buffered (final r) = buffered c ++ chunk
   end) /\
  (data (final r) <> None ->
   exists h ms,
     dataTimeoutId (final r) = Some h /\
     In {| handle := h; callback := flushData_callback;
           delay := ms; repeating := false |} (timers (final r)) /\
     ms = CONF_COMBINE_IF_BELOW_MS).
Proof.
  intros r. subst r. rewrite onData_buffer_run.
  assert (Harmed : forall c0, data c0 <> None ->
    exists h ms,
      dataTimeoutId (armed c0) = Some h /\
      In {| handle := h; callback := flushData_callback;
            delay := ms; repeating := false |} (timers (armed c0)) /\
      ms = CONF_COMBINE_IF_BELOW_MS).
  { intros c0 Hsome. unfold armed.
    destruct (data c0); [|contradiction].
    exists (nextTimerId c0), CONF_COMBINE_IF_BELOW_MS. cbn.
    repeat split. apply in_or_app. right. left. reflexivity. }
  destruct (first_line (buffered c ++ chunk)) as [[l rest]|].
  - set (c1 := set_data (buffer_of rest) c).
    destruct (onDataLineReceived_frame (buffer_of rest) (longOperation c)
                l c1 (conj eq_refl eq_refl)) as [[Hdata Hop] _].
    destruct (onDataLineReceived_dispatches l c1) as [Hret Hdisp].
    unfold outcome, final, trace in Hdata, Hop, Hret, Hdisp. unfold bind.
    destruct (onDataLineReceived l c1) as [[o c2] t2].
    cbn [fst snd] in Hdata, Hop, Hret, Hdisp. subst o.
    rewrite arm_coalescing_run. unfold outcome, final, trace. cbn [fst snd].
    rewrite longOperation_armed, data_armed, buffered_armed.
    repeat split; try assumption.
    + unfold dispatched in *. rewrite flat_map_app, Hdisp. reflexivity.
    + apply buffered_buffer_of, Hdata.
    + apply Harmed.
  - rewrite arm_coalescing_run. unfold outcome, final, trace. cbn [fst snd].
    rewrite longOperation_armed, data_armed, buffered_armed.
    repeat split. apply Harmed.
Qed.

(** With no long operation in the way and no upload announced, [onData]
    cancels the pending coalescing timer and buffers the chunk. *)
Lemma onData_plain (chunk : string) (c : Connection) :
  longOperation c = None ->
  data c <> None \/ Js.startsWith chunk "#" = false ->
  onData chunk c =
    onData_buffer chunk
      (set_timers (cancel_opt (dataTimeoutId c) (timers c)) c).
Proof.
  intros Hop Hplain. open_connection c. cbn in Hop, Hplain. subst lo.
  unfold onData, clearTimeout, cancel_opt.
  assert (Hno : negb (is_some d) && Js.startsWith chunk "#" = false).
  { destruct Hplain as [Hd | ->]; [|apply andb_false_r].
    destruct d; [reflexivity | contradiction]. }
  unfold_M. unfold set_timers.
  destruct dt as [h|]; cbn -[onData_buffer]; rewrite Hno;
    cbn -[onData_buffer];
    match goal with
    | |- context [onData_buffer chunk ?c0] =>
        destruct (onData_buffer chunk c0) as [[r c2] t2]
    end; reflexivity.
Qed.

Lemma buffered_set_timers (ts : list Timer) (c : Connection) :
  buffered (set_timers ts c) = buffered c.
Proof. reflexivity. Qed.




(** Chunks that do not start with "#" never start an upload. *)
Lemma line_data_unmarked (chunks : list string) (c : Connection) :
  Forall (fun chunk => Js.startsWith chunk "#" = false) chunks ->
  line_data chunks c.
Proof.
  intros Hplain. revert c.
  induction Hplain as [|chunk chunks Hchunk _ IH]; intros c; [exact I|].
  split; [|apply IH].
  unfold starts_upload. rewrite Hchunk. apply andb_false_r.
Qed.

(** The coalescing timer's callback, with no long operation around: the
    buffered text goes to the activity log as one answer (when tracing is
    enabled) and bypasses [onDataLineReceived]. *)
Lemma flushData_spec (c : Connection) :
  longOperation c = None ->
  let r := flushData c in
  outcome r = Returned tt /\
  dispatched (trace r) = [] /\
  trace r =
    (if negb (String.eqb (buffered c) "")
     then answer_entries c (buffered c) else []) /\
  dataTimeoutId (final r) = None /\
  longOperation (final r) = None /\
  (buffered c <> "" -> data (final r) = None) /\
  buffered (final r) = "".
Proof.
  intros Hop r. subst r. open_connection c. cbn in Hop. subst lo.
  unfold flushData, logAnswer, clearTimeout, answer_entries, buffered.
  destruct dt as [h|], d as [[|ch s]|], te; vm_compute;
    repeat split; try reflexivity; intros H; exfalso; apply H; reflexivity.
Qed.


End Framing.



Section Surplus.

Context {imports : Imports}.

Lemma cancel_idempotent (h : nat) (ts : list Timer) :
  cancel h (cancel h ts) = cancel h ts.
Proof.
  unfold cancel. induction ts as [|t ts IH]; [reflexivity|]. cbn.
  destruct (negb (Nat.eqb (handle t) h)) eqn:E; cbn; rewrite ?E, IH;
    reflexivity.
Qed.

Lemma cancel_opt_idempotent (h : option nat) (ts : list Timer) :
  cancel_opt h (cancel_opt h ts) = cancel_opt h ts.
Proof. destruct h; [apply cancel_idempotent | reflexivity]. Qed.

(** Completion detected inside [onData], with surplus: the operation was
    active before the chunk, or is an upload the chunk itself started. *)
Lemma onData_completion_run (chunk surplus : string) (c : Connection)
    (op : LongOperation) :
  fed chunk c = Some op ->
  isDone op = true ->
  dataSurplus op = Some surplus ->
  let c0 :=
    set_longOperation None
      (set_timers (cancel_opt (dataTimeoutId c) (timers c)) c) in
  onData chunk c =
    (outcome (onData_buffer surplus c0), final (onData_buffer surplus c0),
     (sent_entries c (LongOperationResult (logEntry op))
      ++ trace (onData_buffer surplus c0))%list).
Proof.
  intros Hfed Hdone Hsurplus c0. subst c0.
  open_connection c. unfold fed, starts_upload in Hfed.
  cbn [longOperation data is_some negb andb] in Hfed.
  unfold onData, longOperationDone, sendValue, clearTimeout, cancel_opt,
    sent_entries.
  unfold_M. unfold set_timers, set_longOperation.
  destruct lo as [held|].
  - injection Hfed as <-.
    destruct dt as [h|], cw as [[|n]|]; cbn -[onData_buffer];
      rewrite Hdone; cbn -[onData_buffer]; rewrite Hsurplus;
      match goal with
      | |- context [onData_buffer surplus ?c0] =>
          destruct (onData_buffer surplus c0) as [[r c2] t2]
      end; reflexivity.
  - destruct d as [s|]; [discriminate Hfed|].
    cbn [is_some negb andb] in Hfed.
    destruct (Js.startsWith chunk "#") eqn:Hmark; [|discriminate Hfed].
    injection Hfed as <-.
    destruct dt as [h|], cw as [[|n]|]; cbn -[onData_buffer];
      rewrite Hdone; cbn -[onData_buffer]; rewrite Hsurplus;
      match goal with
      | |- context [onData_buffer surplus ?c0] =>
          destruct (onData_buffer surplus c0) as [[r c2] t2]
      end; reflexivity.
Qed.

(** Completion detected by the housekeeping tick, with or without surplus. *)
Lemma housekeeping_completion_run (c : Connection) (op : LongOperation) :
  longOperation c = Some op ->
  isDone op = true ->
  housekeeping c =
    (Returned tt, set_data (dataSurplus op) (set_longOperation None c),
     sent_entries c (LongOperationResult (logEntry op))).
Proof.
  intros Hop Hdone. open_connection c. cbn in Hop. subst lo.
  unfold housekeeping, longOperationDone, sendValue, sent_entries.
  run_M. rewrite Hdone. destruct cw as [[|n]|]; reflexivity.
Qed.

(** C2 (amended).  When the long operation [onData] holds after looking at
    a chunk (the active one fed with the chunk, or an upload the chunk has
    just started) reports done and has produced surplus bytes, the
    connection sends the operation's log entry to the window that acquired
    the connection, and to nobody when there is none; it clears the long
    operation; and in the same call it appends the surplus to the buffer,
    dispatches the first terminator-delimited line of the result, keeps the
    rest buffered and arms the coalescing timer unless the buffer is left
    undefined.  This is what [onData] itself would do next with the surplus
    as a chunk, unless the surplus starts with the upload marker "#" on an
    undefined buffer: the surplus is not examined for the marker. *)
Theorem surplus_after_completion (c : Connection) (op : LongOperation)
    (chunk surplus : string) :
  fed chunk c = Some op ->
  isDone op = true ->
  dataSurplus op = Some surplus ->
  let c0 :=
    set_longOperation None
      (set_timers (cancel_opt (dataTimeoutId c) (timers c)) c) in
  let r := onData chunk c in
  outcome r = Returned tt /\
  longOperation (final r) = None /\
  trace r =
    (match callbackWindowId c with
     | Some (S n) =>
         [webContents_send (S n) (LongOperationResult (logEntry op))]
     | _ => []
     end ++ trace (onData_buffer surplus c0))%list /\
  final r = final (onData_buffer surplus c0) /\
  match first_line (buffered c ++ surplus) with
  | Some (l, rest) =>
      dispatched (trace r) = [l] /\ data (final r) = buffer_of rest
  | None =>
      dispatched (trace r) = [] /\
      data (final r) = Some (buffered c ++ surplus)
  end /\
  (data (final r) <> None ->
   exists h,
     dataTimeoutId (final r) = Some h /\
     In {| handle := h; callback := flushData_callback;
           delay := CONF_COMBINE_IF_BELOW_MS; repeating := false |}
        (timers (final r))) /\
  (starts_upload surplus c0 = false ->
   onData surplus c0 = onData_buffer surplus c0).
Proof.
  intros Hfed Hdone Hsurplus c0 r.
  pose proof (onData_completion_run chunk surplus c op Hfed Hdone Hsurplus)
    as Hrun. fold c0 in Hrun. fold r in Hrun.
  destruct (onData_buffer_spec surplus c0) as (Hret & Hkeep & Hline & Htimer).
  assert (Hbuf : buffered c0 = buffered c) by reflexivity.
  rewrite Hbuf in Hline.
  assert (Hsent : dispatched
                    (sent_entries c (LongOperationResult (logEntry op)))
                  = []).
  { unfold sent_entries. destruct (callbackWindowId c) as [[|n]|];
      reflexivity. }
  rewrite Hrun, outcome_tuple, final_tuple, trace_tuple.
  split; [exact Hret|].
  split; [exact Hkeep|].
  split; [reflexivity|].
  split; [reflexivity|].
  split.
  { rewrite dispatched_app, Hsent. cbn [app].
    destruct (first_line (buffered c ++ surplus)) as [[l rest]|];
      split; apply Hline. }
  split.
  { intros Hdata. destruct (Htimer Hdata) as (h & ms & Hid & Hin & ->).
    exists h. split; assumption. }
  intros Hplain.
  assert (Hline_data : data c0 <> None \/ Js.startsWith surplus "#" = false).
  { unfold starts_upload in Hplain. cbn [longOperation c0] in Hplain.
    change (longOperation c0) with (@None LongOperation) in Hplain.
    cbn [is_some negb andb] in Hplain.
    destruct (data c0); [left; discriminate | right; exact Hplain]. }
  rewrite (onData_plain surplus c0 eq_refl Hline_data).
  f_equal. subst c0. open_connection c. cbn.
  unfold set_timers, set_longOperation. cbn.
  rewrite cancel_opt_idempotent. reflexivity.
Qed.

End Surplus.

Lemma surplus_after_completion_witness :
  dispatched (trace (onData ("#15HelloOK" ++ Js.nl) Sample.identified))
    = ["OK" ++ Js.nl] /\
  longOperation (final (onData ("#15HelloOK" ++ Js.nl) Sample.identified))
    = None.
Proof.
  pose proof (surplus_after_completion Sample.identified
                (Sample.Upload ("#15HelloOK" ++ Js.nl) false)
                ("#15HelloOK" ++ Js.nl) ("OK" ++ Js.nl)
                eq_refl eq_refl eq_refl)
    as (_ & Hnone & _ & _ & Hline & _).
  split; [exact (proj1 Hline) | exact Hnone].
Defined.

(** C2 as stated fails inside [onData] in two ways.  Completion is
    announced to the window that acquired the connection only: on a
    connection nobody has acquired, the upload completes, its surplus is
    dispatched, and nothing at all is sent to a window.  And the surplus is
    not a fresh chunk: a surplus that starts with the upload marker is
    buffered as line data, whereas the same text arriving as the next chunk,
    after a completion without surplus, starts an upload. *)
Lemma surplus_is_not_a_fresh_chunk :
  callbackWindowId Sample.uploading = None /\
  dispatched (trace (onData ("loOK" ++ Js.nl) Sample.uploading))
    = ["OK" ++ Js.nl] /\
  delivered (trace (onData ("loOK" ++ Js.nl) Sample.uploading)) = [] /\
  longOperation (final (onData "lo#3" Sample.uploading)) = None /\
  data (final (onData "lo#3" Sample.uploading)) = Some "#3" /\
  longOperation (final (onData "lo" Sample.uploading)) = None /\
  data (final (onData "lo" Sample.uploading)) = None /\
  longOperation (final (onData "#3" (final (onData "lo" Sample.uploading))))
    = Some (Sample.Upload "#3" false).
Proof. vm_compute. repeat split. Qed.

(** * Further properties of the class *)

(** One step of an invariant proof, using the facts at hand about the
    methods that branch on the invariant's fields. *)
Ltac invariant_step :=
  first
    [ match goal with
      | H : context [preserves] |- preserves _ _ _ => solve [apply H]
      end
    | preserves_step frame_side
    | apply preserves_add_timer; frame_side ].

Ltac invariant_auto := repeat invariant_step.

(** Unfolding of the methods down to [connect], [disconnect], [send] and the
    two logging helpers. *)
Ltac unfold_methods :=
  unfold destroy, download, startLongOperation, abortLongOperation, acquire,
    release, dismissError, fire, run_callback, idnTimeout, housekeeping,
    connected, sendIdn, disconnected, onData, onData_buffer,
    onDataLineReceived, flushData, longOperationDone, sendValue, setError,
    clearInterval, clearTimeout, setTimeout, setInterval.

Section Connecting.

Context {imports : Imports}.

(** X1.  From IDLE, with stored connection parameters, [connect()] clears
    the error state, moves to CONNECTING, instantiates the ethernet
    transport when the parameters say "ethernet" and the serial transport
    otherwise, and asks it to connect; it touches nothing else. *)
Theorem connect_from_IDLE (c : Connection) (parameters : ConnectionParameters) :
  state c = IDLE ->
  lastConnection (instrument c) = Some parameters ->
  connect c =
    (Returned tt,
     set_communicationInterface (Some (transport_for parameters))
       (set_connectionParameters (Some parameters)
          (set_error None (set_errorCode NONE (set_state CONNECTING c)))),
     [interface_new (transport_for parameters);
      interface_connect (transport_for parameters)]).
Proof.
  intros Hstate Hlast. unfold connect, transport_for. run_M.
  rewrite Hstate. cbn. rewrite Hlast. reflexivity.
Qed.

Lemma stuck_connect :
  preserves (fun c => state c = CONNECTING /\ communicationInterface c = None)
    not_a_transport_call connect.
Proof.
  intros c [Hs Hci]. unfold connect. run_M. rewrite Hs. cbn.
  split; [split; assumption | repeat constructor].
Qed.

Lemma stuck_disconnect :
  preserves (fun c => state c = CONNECTING /\ communicationInterface c = None)
    not_a_transport_call disconnect.
Proof.
  intros c [Hs Hci]. unfold disconnect. run_M. rewrite Hci. cbn.
  split; [split; assumption | repeat constructor].
Qed.

Lemma stuck_send (command : string) (options : option SendOptions) :
  preserves (fun c => state c = CONNECTING /\ communicationInterface c = None)
    not_a_transport_call (send command options).
Proof.
  intros c [Hs Hci].
  assert (Hr : send_refusal c options = Some "not connected").
  { unfold send_refusal, usable. rewrite Hs. reflexivity. }
  rewrite (send_refused_run c command options _ Hr).
  rewrite final_tuple, trace_tuple. split; [split; assumption|].
  unfold request_entries, answer_entries.
  destruct (requests_log options && traceEnabled c), (traceEnabled c);
    repeat constructor.
Qed.

Lemma stuck_step (s : Step) :
  is_confirmation s = false ->
  preserves (fun c => state c = CONNECTING /\ communicationInterface c = None)
    not_a_transport_call (step s).
Proof.
  pose proof stuck_connect. pose proof stuck_disconnect.
  pose proof stuck_send.
  destruct s; cbn; intros Hs; try discriminate Hs;
    unfold_methods; unfold logAnswer, logRequest; invariant_auto.
Qed.

Lemma Forall_not_a_transport_call (t : list Event) :
  Forall not_a_transport_call t -> transport_calls t = [].
Proof.
  induction 1 as [|e t He _ IH]; [reflexivity|].
  destruct e; cbn in *; try exact IH; contradiction.
Qed.

(** X2.  [connect()] on an idle connection whose instrument has no stored
    connection parameters moves to CONNECTING and then fails with a
    TypeError before any transport exists.  The connection is stuck there:
    whatever callers request afterwards, whatever data arrives and whichever
    timers fire, it stays CONNECTING without a transport, and no transport is
    ever constructed or called. *)
Theorem connect_without_parameters_is_stuck (c : Connection) (l : list Step) :
  state c = IDLE ->
  communicationInterface c = None ->
  lastConnection (instrument c) = None ->
  forallb (fun s => negb (is_confirmation s)) l = true ->
  let r := connect c in
  outcome r = Thrown "TypeError: Cannot read property 'type' of undefined" /\
  trace r = [] /\
  state (final r) = CONNECTING /\
  communicationInterface (final r) = None /\
  state (fst (steps l (final r))) = CONNECTING /\
  communicationInterface (fst (steps l (final r))) = None /\
  transport_calls (snd (steps l (final r))) = [].
Proof.
  intros Hstate Hci Hlast Hl r.
  assert (Hr : r = (Thrown "TypeError: Cannot read property 'type' of undefined",
                    set_connectionParameters None
                      (set_error None
                         (set_errorCode NONE (set_state CONNECTING c))), [])).
  { subst r. unfold connect. run_M. rewrite Hstate. cbn. rewrite Hlast.
    reflexivity. }
  rewrite Hr, outcome_tuple, trace_tuple, final_tuple. clear Hr r.
  set (c1 := set_connectionParameters None _).
  assert (H1 : state c1 = CONNECTING /\ communicationInterface c1 = None)
    by (split; [reflexivity | exact Hci]).
  split; [reflexivity|]. split; [reflexivity|].
  split; [reflexivity|]. split; [exact Hci|].
  clearbody c1. revert c1 H1.
  induction l as [|s l IH]; intros c1 H1.
  - cbn. destruct H1. repeat split; assumption.
  - cbn in Hl. apply andb_true_iff in Hl. destruct Hl as [Hs Hl].
    apply negb_true_iff in Hs.
    destruct (stuck_step s Hs c1 H1) as [H2 T2].
    destruct (IH Hl (final (step s c1)) H2) as (I1 & I2 & I3).
    cbn [steps fst snd]. repeat split; try assumption.
    rewrite transport_calls_app, I3, (Forall_not_a_transport_call _ T2).
    reflexivity.
Qed.

End Connecting.

Section WritesNeedCONNECTED.

Context {imports : Imports}.

Lemma unconnected_send (command : string) (options : option SendOptions) :
  preserves (fun c => state c <> CONNECTED) not_a_write
    (send command options).
Proof.
  intros c Hc.
  assert (Hr : send_refusal c options = Some "not connected").
  { unfold send_refusal, usable.
    destruct (ConnectionState_eqb_spec (state c) CONNECTED) as [E | _];
      [contradiction | reflexivity]. }
  rewrite (send_refused_run c command options _ Hr).
  rewrite final_tuple, trace_tuple. split; [exact Hc|].
  unfold request_entries, answer_entries.
  destruct (requests_log options && traceEnabled c), (traceEnabled c);
    repeat constructor.
Qed.

Lemma unconnected_step (s : Step) :
  is_connected_event s = false ->
  preserves (fun c => state c <> CONNECTED) not_a_write (step s).
Proof.
  pose proof unconnected_send.
  assert (HI : preserves (fun c => state c <> CONNECTED) not_a_write
                 (modify (set_state IDLE)))
    by (intros c _; split; [discriminate | constructor]).
  assert (HC : preserves (fun c => state c <> CONNECTED) not_a_write
                 (modify (set_state CONNECTING)))
    by (intros c _; split; [discriminate | constructor]).
  assert (HD : preserves (fun c => state c <> CONNECTED) not_a_write
                 (modify (set_state DISCONNECTING)))
    by (intros c _; split; [discriminate | constructor]).
  destruct s; cbn; intros Hs; try discriminate Hs;
    unfold_methods; unfold connect, disconnect, logAnswer, logRequest;
    invariant_auto.
Qed.

(** X18.  Nothing is written to a transport before it has confirmed the
    connection.  The state CONNECTED is entered only by the transport's
    connected event; started in any other state, whatever is requested,
    whatever data arrives, whichever timers fire and even if the transport
    reports disconnected, the state is not CONNECTED and nothing is written
    as long as no connected event occurs. *)
Theorem nothing_written_unless_CONNECTED (c : Connection) (l : list Step) :
  state c <> CONNECTED ->
  forallb (fun s => negb (is_connected_event s)) l = true ->
  state (fst (steps l c)) <> CONNECTED /\
  written (snd (steps l c)) = [].
Proof.
  intros Hc Hl.
  enough (H : state (fst (steps l c)) <> CONNECTED /\
              Forall not_a_write (snd (steps l c)))
    by (split; [apply H | apply Forall_not_write_written, H]).
  revert c Hc. induction l as [|s l IH]; intros c Hc; cbn [steps fst snd].
  - split; [exact Hc | constructor].
  - cbn in Hl. apply andb_true_iff in Hl. destruct Hl as [Hs Hl].
    apply negb_true_iff in Hs.
    destruct (unconnected_step s Hs c Hc) as [Hc1 Ht1].
    destruct (IH Hl (final (step s c)) Hc1) as [Hc2 Ht2].
    split; [exact Hc2 | apply Forall_app; split; assumption].
Qed.

End WritesNeedCONNECTED.

Lemma nothing_written_witness :
  written
    (snd (steps [call_connect; call_send "*RST" None;
                 call_send "OUTP ON"
                   (Some {| opt_log := Some false;
                            opt_longOperation := Some true |});
                 transport_onData ("1.25" ++ Js.nl);
                 transport_disconnected 3; call_send "*RST" None]
            Sample.fresh)) = [].
Proof.
  assert (Hc : state Sample.fresh <> CONNECTED) by discriminate.
  exact (proj2 (nothing_written_unless_CONNECTED Sample.fresh
                  [call_connect; call_send "*RST" None;
                   call_send "OUTP ON"
                     (Some {| opt_log := Some false;
                              opt_longOperation := Some true |});
                   transport_onData ("1.25" ++ Js.nl);
                   transport_disconnected 3; call_send "*RST" None]
                  Hc eq_refl)).
Defined.

Section Sessions.

Context {imports : Imports}.

Lemma find_cancel_other (h h' : nat) (ts : list Timer) :
  h <> h' ->
  find (fun t => Nat.eqb (handle t) h) (cancel h' ts) =
  find (fun t => Nat.eqb (handle t) h) ts.
Proof.
  intros Hne. unfold cancel. induction ts as [|t ts IH]; [reflexivity|].
  cbn. destruct (Nat.eqb_spec (handle t) h') as [E | E]; cbn.
  - destruct (Nat.eqb_spec (handle t) h); [congruence | exact IH].
  - destruct (Nat.eqb (handle t) h); [reflexivity | exact IH].
Qed.

Lemma find_cancel_opt_other (h : nat) (h' : option nat) (ts : list Timer) :
  h' <> Some h ->
  find (fun t => Nat.eqb (handle t) h) (cancel_opt h' ts) =
  find (fun t => Nat.eqb (handle t) h) ts.
Proof.
  destruct h' as [h'|]; [|reflexivity]. intros Hne.
  apply find_cancel_other. congruence.
Qed.


(** A complete description of [disconnected()]. *)
Lemma disconnected_run (c : Connection) (now : Z) :
  disconnected now c =
    (Returned tt,
     (if wasConnected c then
        set_housekeepingIntervalId None
          (set_timers
             (cancel_opt (housekeepingIntervalId c)
                (cancel_opt (dataTimeoutId c) (timers c)))
             (set_wasConnected false
                (set_data (if Js.truthy_string (data c) then None else data c)
                   (set_dataTimeoutId None
                      (set_longOperation None
                         (set_state IDLE
                            (set_communicationInterface None c)))))))
      else
        set_housekeepingIntervalId None
          (set_timers (cancel_opt (housekeepingIntervalId c) (timers c))
             (set_state IDLE (set_communicationInterface None c)))),
     (if wasConnected c then
        flushed_entries c ++
        [log "instrument/disconnected"
           (DisconnectedInfo (now - connectedStartTime c) (error c))]
      else
        [log "instrument/connect-failed"
           (ConnectFailedInfo (connectionParameters c) (error c))])%list).
Proof.
  open_connection c.
  unfold disconnected, flushData, logAnswer, clearInterval, clearTimeout,
    flushed_entries, answer_entries, buffered, cancel_opt.
  destruct wc, lo as [op|], dt as [h|], d as [[|ch s]|], te, hk as [k|];
    vm_compute; reflexivity.
Qed.


Lemma wasConnected_kept (b : bool) (s : Step) :
  is_confirmation s = false ->
  preserves (fun c => wasConnected c = b) (fun _ => True) (step s).
Proof.
  destruct s; cbn; intros Hs; try discriminate Hs;
    unfold_methods;
    unfold connect, disconnect, send, logAnswer, logRequest;
    invariant_auto.
Qed.

Lemma connected_sets_wasConnected (c : Connection) (now : Z) :
  wasConnected (final (connected now c)) = true.
Proof.
  open_connection c.
  unfold connected, sendIdn, send, flushData, logRequest, logAnswer,
    setTimeout, setInterval, add_timer, clearTimeout.
  destruct ci as [which|], lo as [op|], te, dt as [h|], d as [[|ch s]|];
    run_M; try destruct (isFileTransfer op); reflexivity.
Qed.

Lemma wasConnected_tracks_connected (l : list Step) :
  forall c : Connection,
  forallb (fun s => negb (is_disconnected_event s)) l = true ->
  wasConnected (fst (steps l c)) =
  wasConnected c || existsb is_connected_event l.
Proof.
  induction l as [|s l IH]; intros c Hl.
  - cbn. rewrite orb_false_r. reflexivity.
  - cbn in Hl. apply andb_true_iff in Hl. destruct Hl as [Hs Hl].
    apply negb_true_iff in Hs. cbn [steps fst existsb].
    rewrite (IH _ Hl).
    destruct (is_connected_event s) eqn:Hc.
    + destruct s; try discriminate Hc. cbn [step].
      rewrite connected_sets_wasConnected, orb_true_r. reflexivity.
    + assert (Hconf : is_confirmation s = false)
        by (destruct s; try reflexivity; discriminate).
      destruct (wasConnected_kept (wasConnected c) s Hconf c eq_refl)
        as [Hkeep _].
      rewrite Hkeep. reflexivity.
Qed.

(** X4.  Which entry closes a session in the activity log depends only on
    whether the transport reported connected since the last disconnected
    event: whatever else happened in between, the disconnected event records
    exactly one "instrument/disconnected" entry if it did and exactly one
    "instrument/connect-failed" entry if it did not. *)
Theorem session_outcome_logged (c : Connection) (l : list Step) (now : Z) :
  wasConnected c = false ->
  forallb (fun s => negb (is_disconnected_event s)) l = true ->
  session_entries (trace (disconnected now (fst (steps l c)))) =
    [if existsb is_connected_event l
     then "instrument/disconnected" else "instrument/connect-failed"].
Proof.
  intros Hwas Hl.
  pose proof (wasConnected_tracks_connected l c Hl) as Htrack.
  rewrite Hwas in Htrack. cbn in Htrack.
  rewrite disconnected_run, trace_tuple, Htrack.
  destruct (existsb is_connected_event l); [|reflexivity].
  unfold session_entries, log_kinds, flushed_entries, answer_entries.
  set (c1 := fst (steps l c)).
  destruct (negb (String.eqb (buffered c1) "")), (traceEnabled c1);
    reflexivity.
Qed.

Lemma fire_idnTimeout_dead (h : nat) (c : Connection) :
  find (fun t => Nat.eqb (handle t) h) (timers c) = Some (idn_timer h) ->
  state c = IDLE \/ communicationInterface c = None ->
  fire h c =
    (Returned tt,
     set_error (Some "Timeout (no response to IDN query).")
       (set_errorCode NONE (set_timers (cancel h (timers c)) c)),
     [console_error "invalid state (disconnect)"]).
Proof.
  intros Hfind Hdead. unfold fire, run_callback, idnTimeout, setError.
  unfold bind at 1, get at 1. rewrite Hfind. cbn [repeating callback negb idn_timer].
  open_connection c. cbn in Hdead. unfold disconnect.
  destruct Hdead as [-> | ->]; [destruct ci | destruct st]; reflexivity.
Qed.

(** X5.  The disconnected event does not cancel the identification timeout.
    A timeout still pending when the transport goes away stays pending, and
    when it expires on the idle connection it sets the error text "Timeout
    (no response to IDN query)." and reports a local fault, leaving the
    state IDLE and the transport uncalled. *)
Theorem stale_identification_timeout (c : Connection) (now : Z) (h : nat) :
  find (fun t => Nat.eqb (handle t) h) (timers c) = Some (idn_timer h) ->
  dataTimeoutId c <> Some h ->
  housekeepingIntervalId c <> Some h ->
  let c1 := final (disconnected now c) in
  find (fun t => Nat.eqb (handle t) h) (timers c1) = Some (idn_timer h) /\
  let r := fire h c1 in
  state (final r) = IDLE /\
  error (final r) = Some "Timeout (no response to IDN query)." /\
  errorCode (final r) = NONE /\
  trace r = [console_error "invalid state (disconnect)"].
Proof.
  intros Hfind Hdt Hhk c1.
  assert (Hstate : state c1 = IDLE).
  { subst c1. rewrite disconnected_run, final_tuple.
    destruct (wasConnected c); reflexivity. }
  assert (Hfind1 : find (fun t => Nat.eqb (handle t) h) (timers c1)
                   = Some (idn_timer h)).
  { subst c1. rewrite disconnected_run, final_tuple.
    destruct (wasConnected c); cbn;
      rewrite !find_cancel_opt_other by assumption; exact Hfind. }
  split; [exact Hfind1|].
  intros r. subst r.
  rewrite (fire_idnTimeout_dead h c1 Hfind1 (or_introl Hstate)).
  rewrite !final_tuple, trace_tuple. cbn. repeat split. exact Hstate.
Qed.

End Sessions.

Section Exclusivity.

Context {imports : Imports}.

Lemma delivered_app (t1 t2 : list Event) :
  delivered (t1 ++ t2) = (delivered t1 ++ delivered t2)%list.
Proof. apply flat_map_app. Qed.

Lemma disconnect_delivers_nothing (c : Connection) :
  delivered (trace (disconnect c)) = [].
Proof.
  unfold disconnect. run_M.
  destruct (communicationInterface c); [|reflexivity].
  destruct (ConnectionState_eqb (state c) IDLE); reflexivity.
Qed.

(** What [onDataLineReceived] delivers, and to whom. *)
Lemma onDataLineReceived_delivers (line : string) (c : Connection) :
  delivered (trace (onDataLineReceived line c)) =
    match callbackWindowId c with
    | Some (S n) => [(S n, ParsedValue (parseScpiValue line))]
    | _ => []
    end.
Proof.
  assert (Hbefore : forall v,
    delivered (answer_entries c line ++ [scpi_parse line]
               ++ sent_entries c v) =
    match callbackWindowId c with
    | Some (S n) => [(S n, v)]
    | _ => []
    end).
  { intros v. unfold answer_entries, sent_entries.
    destruct (traceEnabled c), (callbackWindowId c) as [[|n]|]; reflexivity. }
  destruct (idnExpected c) eqn:Hexp.
  - rewrite (onDataLineReceived_awaiting_run c line Hexp).
    destruct (parseScpiValue line) as [idn | n' | repr];
      rewrite trace_tuple, delivered_app, Hbefore;
      rewrite ?disconnect_delivers_nothing;
      destruct (callbackWindowId c) as [[|n]|]; reflexivity.
  - open_connection c. cbn in Hexp. subst ie.
    unfold onDataLineReceived, logAnswer, sendValue.
    destruct te, cw as [[|n]|]; reflexivity.
Qed.

(** X6.  [acquire] answers "not connected" and changes nothing unless the
    state is CONNECTED; otherwise it answers null and records the window and
    the tracing flag, silently replacing an earlier owner.  [release] always
    restores the defaults (no owner, tracing on), so that releasing after an
    acquire gives the same connection as releasing without it.  Neither makes
    an external call. *)
Theorem acquire_and_release (c : Connection) (w w' : nat) (t t' : bool) :
  (state c <> CONNECTED ->
   acquire w t c = (Returned (Some "not connected"), c, [])) /\
  (state c = CONNECTED ->
   acquire w t c =
     (Returned None, set_traceEnabled t (set_callbackWindowId (Some w) c), []) /\
   final (acquire w' t' (final (acquire w t c))) = final (acquire w' t' c)) /\
  release c =
    (Returned tt, set_traceEnabled true (set_callbackWindowId None c), []) /\
  final (release (final (acquire w t c))) = final (release c) /\
  final (release (final (release c))) = final (release c).
Proof.
  open_connection c. unfold acquire, release. cbn [state].
  split; [|split; [|split; [|split]]].
  - intros Hs. destruct st; try contradiction; reflexivity.
  - intros ->. split; reflexivity.
  - reflexivity.
  - destruct st; reflexivity.
  - reflexivity.
Qed.

(** X7.  The parsed value of a dispatched line is delivered to exactly one
    window, the one recorded by [acquire], and to none when there is no
    owner.  A window identifier 0 counts as no owner: an acquire with window
    0 succeeds but nothing is ever delivered.  After [release] nothing is
    delivered. *)
Theorem values_go_to_the_owner (c : Connection) (line : string) (w : nat)
    (t : bool) :
  state c = CONNECTED ->
  delivered (trace (onDataLineReceived line (final (acquire w t c)))) =
    (if Nat.eqb w 0 then []
     else [(w, ParsedValue (parseScpiValue line))]) /\
  outcome (acquire 0 t c) = Returned None /\
  delivered (trace (onDataLineReceived line (final (release c)))) = [].
Proof.
  intros Hs. rewrite !onDataLineReceived_delivers.
  open_connection c. cbn in Hs. subst st.
  split; [destruct w; reflexivity | split; reflexivity].
Qed.

End Exclusivity.

Lemma values_go_to_the_owner_witness :
  delivered
    (trace (onDataLineReceived ("1.25" ++ Js.nl)
              (final (acquire 7 false Sample.identified)))) =
  [(7, ParsedValue (Sample.parse ("1.25" ++ Js.nl)))].
Proof.
  assert (Hs : state Sample.identified = CONNECTED) by reflexivity.
  exact (proj1 (values_go_to_the_owner Sample.identified ("1.25" ++ Js.nl)
                  7 false Hs)).
Defined.

Section Sending.

Context {imports : Imports}.

(** X8.  On a CONNECTED connection with a transport, a command is written,
    followed by one line feed and in one write, whenever no long operation is
    active, and also while one is active if the command is marked
    long-operation-initiating.  The send clears the error state, records no
    answer, and records the request exactly when the options ask for it and
    tracing is enabled. *)
Theorem send_accepted (c : Connection) (command : string)
    (options : option SendOptions) (which : CommunicationInterface) :
  state c = CONNECTED ->
  communicationInterface c = Some which ->
  longOperation c = None \/ ordinary_command options = false ->
  let r := send command options c in
  outcome r = Returned tt /\
  final r = set_error None (set_errorCode NONE c) /\
  transport_calls (trace r) = [interface_write which (command ++ Js.nl)] /\
  written (trace r) = [command ++ Js.nl] /\
  answers (trace r) = [] /\
  requests (trace r) =
    (if requests_log options && traceEnabled c then [command] else []).
Proof.
  intros Hs Hci Hfree r.
  assert (Hr : send_refusal c options = None).
  { unfold send_refusal, usable. rewrite Hs, Hci. cbn.
    destruct Hfree as [-> | ->]; [destruct (ordinary_command options)|];
      reflexivity. }
  subst r. rewrite (send_accepted_run c command options which Hr Hci).
  rewrite outcome_tuple, final_tuple, !trace_tuple.
  unfold request_entries.
  destruct (requests_log options && traceEnabled c); repeat split.
Qed.

End Sending.

Lemma send_accepted_witness :
  written
    (trace (send "MEAS:VOLT?"
              (Some {| opt_log := None; opt_longOperation := Some true |})
              Sample.uploading))
  = ["MEAS:VOLT?" ++ Js.nl].
Proof.
  assert (Hs : state Sample.uploading = CONNECTED) by reflexivity.
  assert (Hci : communicationInterface Sample.uploading
                = Some EthernetInterface) by reflexivity.
  pose proof (send_accepted Sample.uploading "MEAS:VOLT?"
                (Some {| opt_log := None; opt_longOperation := Some true |})
                EthernetInterface Hs Hci (or_intror eq_refl))
    as (_ & _ & _ & Hwritten & _).
  exact Hwritten.
Defined.

Section Uploads.

Context {imports : Imports}.

(** The start of [onData] up to the first test on the long operation. *)
Lemma onData_upload_run (chunk : string) (c : Connection) :
  longOperation c = None ->
  data c = None ->
  Js.startsWith chunk "#" = true ->
  isDone (newFileUpload chunk) = false ->
  onData chunk c =
    (Returned tt,
     set_longOperation (Some (newFileUpload chunk))
       (set_timers (cancel_opt (dataTimeoutId c) (timers c)) c), []).
Proof.
  intros Hop Hdata Hmark Hdone. open_connection c.
  cbn in Hop, Hdata. subst lo d.
  unfold onData, clearTimeout, cancel_opt. unfold_M.
  destruct dt as [h|]; cbn -[onData_buffer]; rewrite Hmark; cbn;
    rewrite Hdone; reflexivity.
Qed.

Lemma flushData_keeps_empty_buffer (c : Connection) :
  data c = Some "" -> data (final (flushData c)) = Some "".
Proof.
  intros Hdata. open_connection c. cbn in Hdata. subst d.
  unfold flushData, clearTimeout.
  destruct lo as [op|], dt as [h|]; reflexivity.
Qed.

(** X9.  A chunk that starts with "#" while the buffer is undefined and no
    long operation is active is not line data: it starts an upload seeded
    with the whole chunk, and unless the upload is complete at once nothing
    is dispatched, buffered or logged, whatever line feeds the chunk holds,
    and no coalescing timer is armed.  The test is on the buffer being
    undefined, not empty: once an empty chunk has made the buffer the
    empty string, a force-flush leaves it so, and a later chunk starting with
    "#" is buffered as line data and starts no upload. *)
Theorem upload_detection (c : Connection) (chunk : string) :
  longOperation c = None ->
  data c = None ->
  Js.startsWith chunk "#" = true ->
  isDone (newFileUpload chunk) = false ->
  let r := onData chunk c in
  outcome r = Returned tt /\
  longOperation (final r) = Some (newFileUpload chunk) /\
  data (final r) = None /\
  trace r = [] /\
  pending flushData_callback (final r) =
    pending flushData_callback
      (set_timers (cancel_opt (dataTimeoutId c) (timers c)) c) /\
  let c1 := final (flushData (final (onData "" c))) in
  data c1 = Some "" /\
  longOperation c1 = None /\
  longOperation (final (onData chunk c1)) = None /\
  match first_line chunk with
  | Some (l, rest) =>
      dispatched (trace (onData chunk c1)) = [l] /\
      buffered (final (onData chunk c1)) = rest
  | None =>
      dispatched (trace (onData chunk c1)) = [] /\
      buffered (final (onData chunk c1)) = chunk
  end.
Proof.
  intros Hop Hdata Hmark Hdone r. subst r.
  rewrite (onData_upload_run chunk c Hop Hdata Hmark Hdone).
  rewrite outcome_tuple, !final_tuple, trace_tuple.
  split; [reflexivity|]. split; [reflexivity|]. split; [exact Hdata|].
  split; [reflexivity|]. split; [reflexivity|].
  assert (Hempty : data (final (onData "" c)) = Some "" /\
                   longOperation (final (onData "" c)) = None).
  { rewrite (onData_plain "" c Hop (or_intror eq_refl)).
    destruct (onData_buffer_spec ""
                (set_timers (cancel_opt (dataTimeoutId c) (timers c)) c))
      as (_ & Hkeep & Hline & _).
    rewrite buffered_set_timers in Hline. unfold buffered in Hline.
    rewrite Hdata in Hline. cbn in Hline.
    destruct Hline as (_ & Hd & _). split; [exact Hd | rewrite Hkeep; exact Hop]. }
  destruct Hempty as [Hd0 Hop0].
  intros c1.
  assert (Hd1 : data c1 = Some "")
    by (apply flushData_keeps_empty_buffer, Hd0).
  assert (Hop1 : longOperation c1 = None).
  { subst c1. destruct (flushData_spec _ Hop0) as (_ & _ & _ & _ & H & _).
    exact H. }
  split; [exact Hd1|]. split; [exact Hop1|].
  assert (Hsome : data c1 <> None) by (rewrite Hd1; discriminate).
  rewrite (onData_plain chunk c1 Hop1 (or_introl Hsome)).
  destruct (onData_buffer_spec chunk
              (set_timers (cancel_opt (dataTimeoutId c1) (timers c1)) c1))
    as (_ & Hkeep & Hline & _).
  rewrite buffered_set_timers in Hline.
  assert (Hb : buffered c1 = "") by (unfold buffered; rewrite Hd1; reflexivity).
  rewrite Hb in Hline. cbn [String.append] in Hline.
  split; [rewrite Hkeep; exact Hop1|].
  destruct (first_line chunk) as [[l rest]|]; tauto.
Qed.

(** X10.  When the housekeeping tick finds the long operation done, the
    frame buffer becomes that operation's surplus, whatever it held: with no
    surplus it becomes undefined, and text buffered before the operation
    started is dropped without an answer entry and without being
    dispatched.  The pending timers are left alone. *)
Theorem housekeeping_replaces_buffer (c : Connection) (op : LongOperation) :
  longOperation c = Some op ->
  isDone op = true ->
  let r := housekeeping c in
  data (final r) = dataSurplus op /\
  longOperation (final r) = None /\
  answers (trace r) = [] /\
  dispatched (trace r) = [] /\
  timers (final r) = timers c /\
  dataTimeoutId (final r) = dataTimeoutId c /\
  delivered (trace r) =
    match callbackWindowId c with
    | Some (S n) => [(S n, LongOperationResult (logEntry op))]
    | _ => []
    end.
Proof.
  intros Hop Hdone r. subst r.
  rewrite (housekeeping_completion_run c op Hop Hdone).
  rewrite !final_tuple, !trace_tuple. unfold sent_entries.
  destruct (callbackWindowId c) as [[|n]|]; repeat split.
Qed.

End Uploads.

Lemma upload_detection_witness :
  longOperation (final (onData ("#15Hel" ++ Js.nl) Sample.identified)) =
  Some (Sample.Upload ("#15Hel" ++ Js.nl) false).
Proof.
  pose proof (upload_detection Sample.identified ("#15Hel" ++ Js.nl)
                eq_refl eq_refl eq_refl eq_refl) as (_ & H & _).
  exact H.
Defined.

Lemma housekeeping_replaces_buffer_witness :
  data (final (housekeeping Sample.finished_with_surplus)) =
  Some ("OK" ++ Js.nl).
Proof.
  exact (proj1 (housekeeping_replaces_buffer Sample.finished_with_surplus
                  (Sample.Other true (Some ("OK" ++ Js.nl)))
                  eq_refl eq_refl)).
Defined.

Section Silence.

Context {imports : Imports}.

Lemma untraced_logRequest (message : string) :
  preserves (fun c => traceEnabled c = false) not_traffic (logRequest message).
Proof.
  intros c Hc. unfold logRequest. run_M. rewrite Hc. cbn.
  split; [exact Hc | constructor].
Qed.

Lemma untraced_logAnswer (message : string) :
  preserves (fun c => traceEnabled c = false) not_traffic (logAnswer message).
Proof.
  intros c Hc. unfold logAnswer. run_M. rewrite Hc. cbn.
  split; [exact Hc | constructor].
Qed.

Lemma untraced_step (s : Step) :
  enables_tracing s = false ->
  preserves (fun c => traceEnabled c = false) not_traffic (step s).
Proof.
  pose proof untraced_logRequest. pose proof untraced_logAnswer.
  destruct s as [ | | | | | | | w [|] | | | | | | | ]; cbn; intros Hs;
    try discriminate Hs;
    unfold_methods; unfold connect, disconnect, send; invariant_auto.
Qed.

Lemma Forall_not_traffic (t : list Event) :
  Forall not_traffic t -> requests t = [] /\ answers t = [].
Proof.
  induction 1 as [|e t He _ [IH1 IH2]]; [split; reflexivity|].
  destruct e; cbn in *; try (split; assumption).
  destruct He as [H1 H2]. destruct message; cbn; rewrite ?H1, ?H2;
    split; assumption.
Qed.

(** X11.  While tracing is switched off, nothing the connection does leaves
    a request or an answer in the activity log: not the commands sent, not
    the identification query, not the lines received, not the synthetic
    error lines, not the text flushed on a timeout or on disconnection.
    Tracing stays off until [release] or an [acquire] with tracing on. *)
Theorem no_traffic_logged_while_tracing_is_off (c : Connection)
    (l : list Step) :
  traceEnabled c = false ->
  forallb (fun s => negb (enables_tracing s)) l = true ->
  traceEnabled (fst (steps l c)) = false /\
  requests (snd (steps l c)) = [] /\
  answers (snd (steps l c)) = [].
Proof.
  revert c. induction l as [|s l IH]; intros c Hc Hl.
  - cbn. repeat split. exact Hc.
  - cbn in Hl. apply andb_true_iff in Hl. destruct Hl as [Hs Hl].
    apply negb_true_iff in Hs.
    destruct (untraced_step s Hs c Hc) as [Hc1 Ht1].
    destruct (IH _ Hc1 Hl) as (I1 & I2 & I3).
    destruct (Forall_not_traffic _ Ht1) as [R1 A1].
    cbn [steps fst snd]. split; [exact I1|].
    unfold requests, answers in *. rewrite !flat_map_app.
    rewrite R1, A1, I2, I3. split; reflexivity.
Qed.

Lemma errorCode_step (s : Step) :
  is_transport_error s = false ->
  preserves (fun c => errorCode c = NONE) (fun _ => True) (step s).
Proof.
  destruct s; cbn; intros Hs; try discriminate Hs;
    unfold_methods;
    unfold connect, disconnect, send, logAnswer, logRequest;
    invariant_auto.
Qed.

(** X12.  The class never sets an error code other than NONE on its own:
    as long as the transport reports no error, the error code of a
    connection that started at NONE is NONE after any sequence of requests,
    transport events and timers, the identification faults included. *)
Theorem errorCode_is_NONE_unless_transport_sets_it (c : Connection)
    (l : list Step) :
  errorCode c = NONE ->
  forallb (fun s => negb (is_transport_error s)) l = true ->
  errorCode (fst (steps l c)) = NONE.
Proof.
  revert c. induction l as [|s l IH]; intros c Hc Hl; [exact Hc|].
  cbn in Hl. apply andb_true_iff in Hl. destruct Hl as [Hs Hl].
  apply negb_true_iff in Hs.
  destruct (errorCode_step s Hs c Hc) as [Hc1 _].
  cbn [steps fst]. apply IH; assumption.
Qed.

End Silence.

Lemma no_traffic_logged_witness :
  answers
    (snd (steps [call_send "MEAS:VOLT?" None;
                 transport_onData ("1.25" ++ Js.nl);
                 transport_disconnected 5] Sample.muted)) = [].
Proof.
  assert (Hc : traceEnabled Sample.muted = false) by reflexivity.
  exact (proj2 (proj2
    (no_traffic_logged_while_tracing_is_off Sample.muted
       [call_send "MEAS:VOLT?" None; transport_onData ("1.25" ++ Js.nl);
        transport_disconnected 5] Hc eq_refl))).
Defined.

Lemma errorCode_is_NONE_witness :
  errorCode
    (fst (steps [call_connect; transport_connected 0; timer_fires 1;
                 transport_disconnected 2000] Sample.fresh)) = NONE.
Proof.
  exact (errorCode_is_NONE_unless_transport_sets_it Sample.fresh
           [call_connect; transport_connected 0; timer_fires 1;
            transport_disconnected 2000] eq_refl eq_refl).
Defined.

Section StateMachine.

Context {imports : Imports}.

Lemma onDataLineReceived_settled_run (c : Connection) (line : string) :
  idnExpected c = false ->
  onDataLineReceived line c =
    (Returned tt, c,
     (answer_entries c line ++ [scpi_parse line]
      ++ sent_entries c (ParsedValue (parseScpiValue line)))%list).
Proof.
  intros Hexp. open_connection c. cbn in Hexp. subst ie.
  unfold onDataLineReceived, logAnswer, sendValue, answer_entries,
    sent_entries.
  destruct te, cw as [[|n]|]; reflexivity.
Qed.

(** What [destroy()] does to the connection is what its [disconnect()]
    does. *)
Lemma destroy_final (c : Connection) :
  final (destroy c) = final (disconnect c).
Proof.
  open_connection c. unfold destroy, disconnect.
  destruct ci, st; reflexivity.
Qed.

Lemma disconnect_cases (c : Connection) :
  (state c <> IDLE /\ communicationInterface c <> None /\
   final (disconnect c) = set_state DISCONNECTING c) \/
  final (disconnect c) = c.
Proof.
  unfold disconnect. run_M.
  destruct (communicationInterface c) as [which|]; [|right; reflexivity].
  destruct (ConnectionState_eqb_spec (state c) IDLE) as [E | E];
    [right; reflexivity | left].
  repeat split; [exact E | discriminate].
Qed.

Lemma drift_disconnect s0 ci0 :
  preserves (drift s0 ci0) (fun _ => True) disconnect.
Proof.
  intros c [Hci Hst]. split; [|apply Forall_forall; trivial].
  destruct (disconnect_cases c) as [(Hs & Hlive & ->) | ->];
    [|split; assumption].
  split; [exact Hci|]. right. cbn.
  destruct Hst as [E | (H1 & H2 & _)]; [subst s0 ci0|];
    repeat split; assumption.
Qed.

Lemma drift_fire s0 ci0 (h : nat) :
  preserves (drift s0 ci0) (fun _ => True) (fire h).
Proof.
  pose proof (drift_disconnect s0 ci0).
  unfold_methods; unfold logAnswer, logRequest; invariant_auto.
Qed.

Lemma drift_onDataLineReceived s0 ci0 ie0 (line : string) :
  preserves (drift_idn s0 ci0 ie0) (fun _ => True) (onDataLineReceived line).
Proof.
  intros c [Hci Hst]. split; [|apply Forall_forall; trivial].
  unfold drift_idn.
  destruct (idnExpected c) eqn:Hexp.
  - assert (Hie : ie0 = true).
    { destruct Hst as [[_ H] | [H _]]; [|exact H].
      destruct ie0; [reflexivity | discriminate (H eq_refl)]. }
    rewrite (onDataLineReceived_awaiting_run c line Hexp).
    assert (Hsettled : drift_idn s0 ci0 ie0 (idn_settled c)).
    { split; [exact Hci|]. destruct Hst as [[Hs _] | H]; [left | right; exact H].
      split; [exact Hs | intros E; congruence]. }
    destruct (parseScpiValue line) as [idn | n | repr];
      rewrite final_tuple; [exact Hsettled | |];
      (set (c1 := set_error _ _);
       assert (H1 : drift s0 ci0 c1)
         by (split; [exact Hci |
               destruct Hst as [[Hs _] | (_ & H)]; [left; exact Hs | right; exact H]]);
       destruct (drift_disconnect s0 ci0 c1 H1) as [[Hci2 Hst2] _];
       split; [exact Hci2|];
       destruct Hst2 as [Hs2 | H2];
         [left; split; [exact Hs2 | intros E; congruence]
         | right; split; [exact Hie | exact H2]]).
  - rewrite (onDataLineReceived_settled_run c line Hexp), final_tuple.
    split; [exact Hci | rewrite Hexp; exact Hst].
Qed.

Lemma drift_onData s0 ci0 ie0 (chunk : string) :
  preserves (drift_idn s0 ci0 ie0) (fun _ => True) (onData chunk).
Proof.
  pose proof (drift_onDataLineReceived s0 ci0 ie0).
  unfold onData, onData_buffer, longOperationDone, sendValue, clearTimeout,
    setTimeout.
  invariant_auto.
Qed.

Lemma state_kept (s0 : ConnectionState) (s : Step) :
  match s with
  | call_connect | call_disconnect | call_destroy
  | transport_connected _ | transport_disconnected _
  | transport_onData _ | timer_fires _ => False
  | _ => True
  end ->
  preserves (fun c => state c = s0) (fun _ => True) (step s).
Proof.
  destruct s; cbn; intros Hs; try contradiction;
    unfold_methods; unfold send, logAnswer, logRequest; invariant_auto.
Qed.

Lemma fire_flush_or_housekeeping (s0 : ConnectionState) (cb : Callback)
    (once : bool) (h : nat) :
  cb <> idnTimeout_callback ->
  preserves (fun c => state c = s0) (fun _ => True)
    (when once (modify (fun c => set_timers (cancel h (timers c)) c)) ;;
     run_callback cb).
Proof.
  intros Hcb. destruct cb; try contradiction;
    unfold_methods; unfold logAnswer; invariant_auto.
Qed.

(** X13.  The state machine of the class.  [connect()] leaves IDLE for
    CONNECTING and is without effect on the state elsewhere; the transport's
    connected event leads to CONNECTED and its disconnected event to IDLE,
    from any state; [disconnect()] and [destroy()] lead to DISCONNECTING from
    any state but IDLE when there is a transport and change nothing
    otherwise.  Incoming data can change the state only while the
    identification is awaited, and a timer only if it is an identification
    timeout, in both cases to DISCONNECTING on a connection that is not IDLE
    and has its transport.  No other call changes the state. *)
Theorem state_machine (c : Connection) (s : Step) :
  let c' := final (step s c) in
  match s with
  | call_connect =>
      state c' =
        if ConnectionState_eqb (state c) IDLE then CONNECTING else state c
  | transport_connected _ => state c' = CONNECTED
  | transport_disconnected _ => state c' = IDLE
  | call_disconnect | call_destroy =>
      state c' =
        if negb (ConnectionState_eqb (state c) IDLE)
           && is_some (communicationInterface c)
        then DISCONNECTING else state c
  | transport_onData _ =>
      state c' = state c \/
      (idnExpected c = true /\ moved_to_DISCONNECTING c c')
  | timer_fires h =>
      state c' = state c \/
      (is_idn_timeout h c /\ moved_to_DISCONNECTING c c')
  | _ => state c' = state c
  end.
Proof.
  assert (Hdisc : state (final (disconnect c)) =
                  if negb (ConnectionState_eqb (state c) IDLE)
                     && is_some (communicationInterface c)
                  then DISCONNECTING else state c).
  { unfold disconnect. run_M.
    destruct (communicationInterface c); [|rewrite andb_false_r; reflexivity].
    destruct (ConnectionState_eqb (state c) IDLE); reflexivity. }
  intros c'. subst c'.
  destruct s; cbn beta iota;
    try (refine (proj1 (state_kept (state c) _ _ c eq_refl)); exact I);
    cbn [step].
  - unfold connect. run_M.
    destruct (ConnectionState_eqb (state c) IDLE); [|reflexivity]. cbn.
    destruct (lastConnection (instrument c)); reflexivity.
  - exact Hdisc.
  - rewrite destroy_final. exact Hdisc.
  - open_connection c.
    unfold connected, sendIdn, send, flushData, logRequest, logAnswer,
      setTimeout, setInterval, add_timer, clearTimeout.
    destruct ci as [which|], lo as [op|], te, dt as [h|], d as [[|ch s]|];
      run_M; try destruct (isFileTransfer op); reflexivity.
  - rewrite disconnected_run, final_tuple.
    destruct (wasConnected c); reflexivity.
  - assert (H0 : drift_idn (state c) (communicationInterface c)
                   (idnExpected c) c).
    { split; [reflexivity|]. left. split; [reflexivity | trivial]. }
    destruct (drift_onData _ _ _ chunk c H0) as [[_ Hst] _].
    destruct Hst as [[Hs _] | (Hie & H1 & H2 & H3)]; [left; exact Hs|].
    right. split; [exact Hie|]. repeat split; assumption.
  - destruct (find (fun t => Nat.eqb (handle t) h) (timers c)) as [t|] eqn:Hfind.
    + destruct (callback t) eqn:Hcb.
      * left. rewrite (fire_pending h c t Hfind), Hcb.
        refine (proj1 (fire_flush_or_housekeeping (state c) flushData_callback
                         _ h _ c eq_refl)). discriminate.
      * assert (H0 : drift (state c) (communicationInterface c) c)
          by (split; [reflexivity | left; reflexivity]).
        destruct (drift_fire _ _ h c H0) as [[_ Hst] _].
        destruct Hst as [Hs | (H1 & H2 & H3)]; [left; exact Hs|].
        right. split; [exists t; split; assumption|].
        repeat split; assumption.
      * left. rewrite (fire_pending h c t Hfind), Hcb.
        refine (proj1 (fire_flush_or_housekeeping (state c)
                         housekeeping_callback _ h _ c eq_refl)). discriminate.
    + left. rewrite (fire_not_pending h c Hfind). reflexivity.
Qed.

End StateMachine.

Section Timers.

Context {imports : Imports}.

Lemma cancel_keeps_handles_distinct (h : nat) (ts : list Timer) :
  NoDup (map handle ts) -> NoDup (map handle (cancel h ts)).
Proof.
  unfold cancel. induction ts as [|t ts IH]; cbn; intros Hnd; [exact Hnd|].
  inversion Hnd as [|? ? Hnotin Hrest]; subst.
  destruct (negb (Nat.eqb (handle t) h)); cbn; [constructor|]; auto.
  intros Hin. apply Hnotin. apply in_map_iff in Hin.
  destruct Hin as [t' [Ht' Hin]]. apply filter_In in Hin.
  apply in_map_iff. exists t'. tauto.
Qed.

Lemma Forall_filter {A} (P : A -> Prop) (p : A -> bool) (l : list A) :
  Forall P l -> Forall P (filter p l).
Proof.
  rewrite !Forall_forall. intros H a Ha. apply filter_In in Ha.
  apply H, Ha.
Qed.

Lemma Forall_anything {A} (l : list A) : Forall (fun _ => True) l.
Proof. apply Forall_forall. trivial. Qed.

(** *** Cancelling and adding timers *)

Lemma handles_fresh_cancel (h : nat) (c : Connection) :
  handles_fresh c -> handles_fresh (set_timers (cancel h (timers c)) c).
Proof.
  intros [Hlt Hnd]. split; cbn.
  - apply Forall_filter, Hlt.
  - apply cancel_keeps_handles_distinct, Hnd.
Qed.

Lemma handles_fresh_add (cb : Callback) (ms : Z) (rep : bool)
    (c : Connection) :
  handles_fresh c -> handles_fresh (final (add_timer cb ms rep c)).
Proof.
  intros [Hlt Hnd]. unfold add_timer, final. split; cbn.
  - apply Forall_app. split.
    + eapply Forall_impl; [|exact Hlt]. cbn. intros t Ht. lia.
    + repeat constructor.
  - rewrite map_app. apply NoDup_app; [exact Hnd | repeat constructor; auto|].
    intros h Hin [<- | []]. apply in_map_iff in Hin.
    destruct Hin as [t [Ht Hin]]. rewrite Forall_forall in Hlt.
    specialize (Hlt t Hin). cbn in Ht. lia.
Qed.

Lemma timers_quiet_tidy (c : Connection) : timers_quiet c -> timers_tidy c.
Proof.
  intros [Hf Hq]. split; [exact Hf|].
  eapply Forall_impl; [|exact Hq]. cbn. intros t Hne Heq. contradiction.
Qed.

Lemma timers_tidy_cancel (h : nat) (c : Connection) :
  timers_tidy c -> timers_tidy (set_timers (cancel h (timers c)) c).
Proof.
  intros [Hf Ht]. split; [apply handles_fresh_cancel, Hf|].
  cbn. apply Forall_filter, Ht.
Qed.

Lemma timers_quiet_cancel (h : nat) (c : Connection) :
  timers_quiet c -> timers_quiet (set_timers (cancel h (timers c)) c).
Proof.
  intros [Hf Ht]. split; [apply handles_fresh_cancel, Hf|].
  cbn. apply Forall_filter, Ht.
Qed.

Lemma timers_tidy_add (cb : Callback) (ms : Z) (rep : bool) :
  cb <> flushData_callback ->
  preserves timers_tidy (fun _ => True) (add_timer cb ms rep).
Proof.
  intros Hcb c [Hf Ht]. split; [|apply Forall_anything].
  split; [apply handles_fresh_add, Hf|].
  unfold add_timer, final; cbn. apply Forall_app. split; [exact Ht|].
  repeat constructor. cbn. intros E. contradiction.
Qed.

Lemma timers_quiet_add (cb : Callback) (ms : Z) (rep : bool) :
  cb <> flushData_callback ->
  preserves timers_quiet (fun _ => True) (add_timer cb ms rep).
Proof.
  intros Hcb c [Hf Ht]. split; [|apply Forall_anything].
  split; [apply handles_fresh_add, Hf|].
  unfold add_timer, final; cbn. apply Forall_app. split; [exact Ht|].
  repeat constructor. exact Hcb.
Qed.

Lemma timers_tidy_clearTimeout (h : option nat) :
  preserves timers_tidy (fun _ => True) (clearTimeout h).
Proof.
  intros c Hc. split; [|apply Forall_anything].
  destruct h as [h|]; [apply timers_tidy_cancel|]; exact Hc.
Qed.

Lemma timers_quiet_clearTimeout (h : option nat) :
  preserves timers_quiet (fun _ => True) (clearTimeout h).
Proof.
  intros c Hc. split; [|apply Forall_anything].
  destruct h as [h|]; [apply timers_quiet_cancel|]; exact Hc.
Qed.

(** Once the timer [dataTimeoutId] names is cancelled, no coalescing timer is
    pending. *)
Lemma timers_tidy_cleared (c : Connection) :
  timers_tidy c ->
  timers_quiet (set_timers (cancel_opt (dataTimeoutId c) (timers c)) c).
Proof.
  intros [Hf Ht]. split.
  - destruct (dataTimeoutId c) as [h|] eqn:E; cbn [cancel_opt].
    + apply handles_fresh_cancel, Hf.
    + destruct Hf as [H1 H2]. split; assumption.
  - cbn. rewrite Forall_forall in *. intros t Hin Hcb.
    destruct (dataTimeoutId c) as [h|] eqn:E; cbn [cancel_opt] in Hin.
    + pose proof (cancel_removes _ _ _ Hin) as Hne.
      apply filter_In in Hin. destruct Hin as [Hin _].
      specialize (Ht t Hin Hcb). congruence.
    + specialize (Ht t Hin Hcb). discriminate.
Qed.

Lemma timers_quiet_same (c c' : Connection) :
  timers c' = timers c -> nextTimerId c' = nextTimerId c ->
  timers_quiet c -> timers_quiet c'.
Proof.
  unfold timers_quiet, handles_fresh. intros -> ->. trivial.
Qed.

(** *** The methods that arm and clear the coalescing timer *)

Lemma flushData_timers (c : Connection) :
  timers (final (flushData c)) = cancel_opt (dataTimeoutId c) (timers c) /\
  nextTimerId (final (flushData c)) = nextTimerId c.
Proof.
  open_connection c. unfold flushData, logAnswer, clearTimeout.
  destruct lo as [op|], dt as [h|], d as [[|ch s]|], te; run_M;
    split; reflexivity.
Qed.

Lemma flushData_quiet : ends_in timers_tidy timers_quiet flushData.
Proof.
  intros c Hc. destruct (flushData_timers c) as [Ht Hn].
  apply (timers_quiet_same
           (set_timers (cancel_opt (dataTimeoutId c) (timers c)) c));
    [exact Ht | exact Hn | apply timers_tidy_cleared, Hc].
Qed.

Lemma flushData_tidy : preserves timers_tidy (fun _ => True) flushData.
Proof.
  intros c Hc. split; [|apply Forall_anything].
  apply timers_quiet_tidy, flushData_quiet, Hc.
Qed.

Lemma armed_tidy (c : Connection) : timers_quiet c -> timers_tidy (armed c).
Proof.
  intros [Hf Hq]. unfold armed. destruct (data c); cbn [is_some];
    [|apply timers_quiet_tidy; split; assumption].
  split.
  - exact (handles_fresh_add flushData_callback CONF_COMBINE_IF_BELOW_MS
             false c Hf).
  - cbn. apply Forall_app. split.
    + eapply Forall_impl; [|exact Hq]. cbn. intros t Hne Heq. contradiction.
    + repeat constructor.
Qed.

Lemma onDataLineReceived_quiet (line : string) :
  preserves timers_quiet (fun _ => True) (onDataLineReceived line).
Proof.
  pose proof timers_quiet_clearTimeout.
  unfold onDataLineReceived, logAnswer, sendValue, setError, disconnect.
  invariant_auto.
Qed.

Lemma onData_buffer_tidy (chunk : string) :
  ends_in timers_quiet timers_tidy (onData_buffer chunk).
Proof.
  intros c Hc. rewrite onData_buffer_run.
  destruct (first_line (buffered c ++ chunk)) as [[l rest]|].
  - rewrite final_bind.
    destruct (onDataLineReceived_quiet l (set_data (buffer_of rest) c) Hc)
      as [H1 _].
    destruct (outcome _); [|apply timers_quiet_tidy, H1].
    rewrite arm_coalescing_run, final_tuple. apply armed_tidy, H1.
  - rewrite arm_coalescing_run, final_tuple. apply armed_tidy. exact Hc.
Qed.

Section EndsIn.

Variables I J : Connection -> Prop.
Hypothesis I_J : forall c, I c -> J c.

Lemma ends_in_weaken {A} (m : M A) :
  preserves I (fun _ => True) m -> ends_in I J m.
Proof. intros Hm c Hc. apply I_J, Hm, Hc. Qed.

Lemma ends_in_bind {A B} (m : M A) (k : A -> M B) :
  preserves I (fun _ => True) m -> (forall a, ends_in I J (k a)) ->
  ends_in I J (bind m k).
Proof.
  intros Hm Hk c Hc. rewrite final_bind. destruct (Hm c Hc) as [H1 _].
  destruct (outcome (m c)); [apply Hk, H1 | apply I_J, H1].
Qed.

End EndsIn.

Lemma onData_tidy (chunk : string) :
  preserves timers_tidy (fun _ => True) (onData chunk).
Proof.
  intros c Hc. split; [|apply Forall_anything].
  pose proof (timers_tidy_cleared c Hc) as Hq.
  unfold onData. rewrite final_bind. unfold get at 1.
  cbn [outcome fst snd]. change (final (get dataTimeoutId c)) with c.
  rewrite final_bind.
  match goal with
  | |- timers_tidy match outcome (?pre c) with _ => _ end =>
      assert (Hpre : pre c =
                (Returned tt,
                 set_timers (cancel_opt (dataTimeoutId c) (timers c)) c, []))
  end.
  { open_connection c. destruct dt; reflexivity. }
  rewrite Hpre, outcome_tuple, final_tuple. cbn beta iota.
  revert Hq. generalize (set_timers (cancel_opt (dataTimeoutId c) (timers c)) c).
  clear Hpre Hc c.
  match goal with
  | |- forall c1, _ -> timers_tidy (final (?rest c1)) =>
      change (ends_in timers_quiet timers_tidy rest)
  end.
  pose proof onData_buffer_tidy.
  apply (ends_in_bind _ _ timers_quiet_tidy); [invariant_auto | intros op].
  apply (ends_in_bind _ _ timers_quiet_tidy); [invariant_auto | intros d].
  apply (ends_in_bind _ _ timers_quiet_tidy); [invariant_auto | intros _].
  apply (ends_in_bind _ _ timers_quiet_tidy); [invariant_auto | intros op'].
  destruct op' as [op'|]; [|apply onData_buffer_tidy].
  destruct (negb (isDone op'));
    [apply (ends_in_weaken _ _ timers_quiet_tidy); invariant_auto|].
  apply (ends_in_bind _ _ timers_quiet_tidy);
    [unfold longOperationDone, sendValue; invariant_auto | intros _].
  destruct (dataSurplus op');
    [apply onData_buffer_tidy
    | apply (ends_in_weaken _ _ timers_quiet_tidy); invariant_auto].
Qed.

Lemma timers_tidy_step (s : Step) :
  preserves timers_tidy (fun _ => True) (step s).
Proof.
  pose proof flushData_tidy. pose proof onData_tidy.
  pose proof timers_tidy_clearTimeout.
  assert (Hidn : forall ms rep,
            preserves timers_tidy (fun _ => True)
              (add_timer idnTimeout_callback ms rep))
    by (intros; apply timers_tidy_add; discriminate).
  assert (Hhk : forall ms rep,
            preserves timers_tidy (fun _ => True)
              (add_timer housekeeping_callback ms rep))
    by (intros; apply timers_tidy_add; discriminate).
  assert (Hcancel : forall h,
            preserves timers_tidy (fun _ => True)
              (modify (fun c => set_timers (cancel h (timers c)) c))).
  { intros h c Hc. split; [apply timers_tidy_cancel, Hc | constructor]. }
  destruct s; cbn [step];
    unfold destroy, download, startLongOperation, abortLongOperation, acquire,
      release, dismissError, fire, run_callback, idnTimeout, housekeeping,
      connected, sendIdn, disconnected, longOperationDone, sendValue,
      setError, clearInterval, setTimeout, setInterval, connect, disconnect,
      send, logAnswer, logRequest;
    invariant_auto.
Qed.

Lemma timers_tidy_steps (l : list Step) (c : Connection) :
  timers_tidy c -> timers_tidy (fst (steps l c)).
Proof.
  revert c. induction l as [|s l IH]; intros c Hc; [exact Hc|].
  cbn [steps fst]. apply IH, timers_tidy_step, Hc.
Qed.

Lemma new_Connection_tidy (i : InstrumentObject) :
  timers_tidy (new_Connection i).
Proof. repeat split; constructor. Qed.

Lemma one_handle_one_timer (p : Timer -> bool) (h : nat) (ts : list Timer) :
  NoDup (map handle ts) ->
  (forall t, In t (filter p ts) -> handle t = h) ->
  (length (filter p ts) <= 1)%nat.
Proof.
  induction ts as [|t ts IH]; cbn; intros Hnd Hh; [lia|].
  inversion Hnd as [|? ? Hnotin Hnd']; subst.
  destruct (p t) eqn:Ep.
  - assert (Hnone : filter p ts = []).
    { destruct (filter p ts) as [|t' more] eqn:E; [reflexivity|].
      exfalso. apply Hnotin. apply in_map_iff. exists t'.
      assert (Hin : In t' (filter p ts)) by (rewrite E; left; reflexivity).
      split; [|apply filter_In in Hin; apply Hin].
      rewrite (Hh t (or_introl eq_refl)).
      apply Hh. right. left. reflexivity. }
    rewrite Hnone. cbn. lia.
  - apply IH; assumption.
Qed.

(** X14.  The coalescing timer never piles up.  Started in a connection
    whose pending timers have distinct handles below the next handle of the
    event loop, and whose pending coalescing timers are the one
    [dataTimeoutId] names (a new connection has no timer at all), every
    sequence of requests, transport events and timer expiries ends in a
    connection with at most one coalescing timer pending; that timer is the
    one [dataTimeoutId] names, and no two pending timers share a handle. *)
Theorem one_coalescing_timer (c : Connection) (l : list Step) :
  timers_tidy c ->
  let c' := fst (steps l c) in
  (length (pending flushData_callback c') <= 1)%nat /\
  (forall t, In t (pending flushData_callback c') ->
             dataTimeoutId c' = Some (handle t)) /\
  NoDup (map handle (timers c')).
Proof.
  intros Hc c'. pose proof (timers_tidy_steps l c Hc) as Ht. fold c' in Ht.
  destruct Ht as [[_ Hnd] Hflush].
  assert (Hnamed : forall t, In t (pending flushData_callback c') ->
                             dataTimeoutId c' = Some (handle t)).
  { intros t Hin. apply filter_In in Hin. destruct Hin as [Hin Hcb].
    rewrite Forall_forall in Hflush. apply Hflush; [exact Hin|].
    destruct (callback t); [reflexivity | discriminate | discriminate]. }
  split; [|split; [exact Hnamed | exact Hnd]].
  destruct (dataTimeoutId c') as [h|] eqn:E.
  - apply (one_handle_one_timer _ h); [exact Hnd|].
    intros t Hin. specialize (Hnamed t Hin). congruence.
  - destruct (pending flushData_callback c') as [|t more] eqn:Ep; [cbn; lia|].
    specialize (Hnamed t (or_introl eq_refl)). discriminate.
Qed.

End Timers.

Section Construction.

Context {imports : Imports}.

(** X15.  The constructor first registers the connection's notification
    source, under the identifier "instrument/<id>/connection", and hands the
    status publication to [autorun]; it does so in every case.  It then
    connects on its own exactly when the instrument has stored connection
    parameters and asks for it: the new connection is then CONNECTING with
    the transport chosen by the parameters constructed and asked to connect.
    Otherwise the new connection is left as initialised, IDLE, with no
    further external call.  Because of its test on the stored parameters
    the constructor never fails. *)
Theorem constructor_autoconnects (i : InstrumentObject) :
  let r := constructor (new_Connection i) in
  let announced :=
    [registerSource ("instrument/" ++ id i ++ "/connection");
     autorun_sendConnectionStatusMessage] in
  outcome r = Returned tt /\
  match lastConnection i with
  | Some parameters =>
      if autoConnect i then
        state (final r) = CONNECTING /\
        communicationInterface (final r) = Some (transport_for parameters) /\
        connectionParameters (final r) = Some parameters /\
        trace r =
          (announced ++
           [interface_new (transport_for parameters);
            interface_connect (transport_for parameters)])%list
      else final r = new_Connection i /\ trace r = announced
  | None => final r = new_Connection i /\ trace r = announced
  end.
Proof.
  intros r announced. subst r announced.
  destruct i as [name [parameters|] auto].
  - destruct auto.
    + unfold constructor, connect, transport_for, notifySource_id. run_M.
      repeat split; reflexivity.
    + unfold constructor, notifySource_id. run_M. repeat split; reflexivity.
  - unfold constructor, notifySource_id. run_M. repeat split; reflexivity.
Qed.

(** X16.  The three status getters partition the states: exactly one of
    [isIdle], [isTransitionState] and [isConnected] holds.  [isConnected] is
    the guard of every request to the instrument.  While it is false,
    [send] writes nothing, changes nothing and answers "**ERROR: not
    connected" (recorded, after the request if there is one, while tracing
    is enabled); [startLongOperation] throws "not connected" and [download]
    answers the same error, both changing nothing; [acquire] returns "not
    connected" and changes nothing. *)
Theorem status_getters (c : Connection) :
  ((if isIdle c then 1 else 0) + (if isTransitionState c then 1 else 0)
   + (if isConnected c then 1 else 0) = 1)%nat /\
  (isConnected c = false ->
   (forall command options,
      send command options c =
        (Returned tt, c,
         ((if requests_log options && traceEnabled c
           then [log "instrument/request" (Text command)] else []) ++
          (if traceEnabled c
           then [log "instrument/answer"
                   (Text ("**ERROR: not connected" ++ Js.nl))]
           else []))%list)) /\
   (forall create,
      startLongOperation create c = (Thrown "not connected", c, [])) /\
   (forall instructions,
      download instructions c =
        (Returned tt, c,
         if traceEnabled c
         then [log "instrument/answer"
                 (Text ("**ERROR: not connected" ++ Js.nl))]
         else [])) /\
   (forall w t,
      acquire w t c = (Returned (Some "not connected"), c, []))).
Proof.
  unfold isIdle, isTransitionState, isConnected.
  split; [destruct (state c); reflexivity|].
  intros Hs. split; [|split; [|split]].
  - intros command options.
    assert (Hr : send_refusal c options = Some "not connected")
      by (unfold send_refusal, usable; rewrite Hs; reflexivity).
    rewrite (send_refused_run c command options _ Hr). reflexivity.
  - intros create. unfold startLongOperation. run_M. rewrite Hs.
    reflexivity.
  - intros instructions. unfold download, startLongOperation, logAnswer.
    run_M. rewrite Hs. cbn. destruct (traceEnabled c); reflexivity.
  - intros w t. unfold acquire. run_M. rewrite Hs. reflexivity.
Qed.

End Construction.

Lemma status_getters_witness :
  let c := final (disconnect Sample.identified) in
  isTransitionState c = true /\
  written (trace (send "MEAS:VOLT?" None c)) = [] /\
  outcome (acquire 7 true c) = Returned (Some "not connected").
Proof.
  pose proof (status_getters (final (disconnect Sample.identified)))
    as [_ Hguard].
  destruct (Hguard eq_refl) as (Hsend & _ & _ & Hacquire).
  split; [reflexivity|].
  split; [rewrite Hsend; reflexivity | rewrite Hacquire; reflexivity].
Defined.

(** *** The properties on the sample session *)

Lemma connect_from_IDLE_witness :
  state (final (connect Sample.fresh)) = CONNECTING /\
  communicationInterface (final (connect Sample.fresh))
    = Some EthernetInterface.
Proof.
  rewrite (connect_from_IDLE Sample.fresh {| type := "ethernet" |}
             eq_refl eq_refl).
  split; reflexivity.
Defined.

Lemma connect_without_parameters_witness :
  state
    (fst (steps [call_send "*IDN?" None; call_disconnect; timer_fires 1]
            (final (connect
                      (new_Connection (imports := Sample.imports)
                         {| id := "2"; lastConnection := None;
                            autoConnect := false |}))))) = CONNECTING.
Proof.
  pose proof (connect_without_parameters_is_stuck
                (new_Connection (imports := Sample.imports)
                   {| id := "2"; lastConnection := None;
                      autoConnect := false |})
                [call_send "*IDN?" None; call_disconnect; timer_fires 1]
                eq_refl eq_refl eq_refl eq_refl)
    as (_ & _ & _ & _ & Hstuck & _).
  exact Hstuck.
Defined.

Lemma session_outcome_logged_witness :
  session_entries
    (trace (disconnected 5 (fst (steps [call_connect] Sample.fresh))))
  = ["instrument/connect-failed"].
Proof.
  exact (session_outcome_logged Sample.fresh [call_connect] 5
           eq_refl eq_refl).
Defined.

Lemma stale_identification_timeout_witness :
  state (final (fire 1 (final (disconnected 7 Sample.online)))) = IDLE /\
  error (final (fire 1 (final (disconnected 7 Sample.online))))
    = Some "Timeout (no response to IDN query).".
Proof.
  assert (Hfind : find (fun t => Nat.eqb (handle t) 1) (timers Sample.online)
                  = Some (idn_timer 1)) by reflexivity.
  assert (Hdt : dataTimeoutId Sample.online <> Some 1)
    by (vm_compute; discriminate).
  assert (Hhk : housekeepingIntervalId Sample.online <> Some 1)
    by (vm_compute; discriminate).
  pose proof (stale_identification_timeout Sample.online 7 1 Hfind Hdt Hhk)
    as (_ & Hstate & Herror & _).
  split; [exact Hstate | exact Herror].
Defined.

Lemma one_coalescing_timer_witness :
  (length
     (pending flushData_callback
        (fst (steps [call_connect; transport_connected 0;
                     transport_onData "VOL"; transport_onData "T 1";
                     transport_onData ".5"] Sample.fresh))) <= 1)%nat.
Proof.
  assert (Hc : timers_tidy Sample.fresh) by (repeat split; constructor).
  exact (proj1 (one_coalescing_timer Sample.fresh
                  [call_connect; transport_connected 0;
                   transport_onData "VOL"; transport_onData "T 1";
                   transport_onData ".5"] Hc)).
Defined.

Section Exceptions.

Context {imports : Imports}.

Lemma disconnect_returns (c : Connection) :
  outcome (disconnect c) = Returned tt.
Proof.
  open_connection c. unfold disconnect. destruct ci, st; reflexivity.
Qed.

Lemma onDataLineReceived_returns (line : string) (c : Connection) :
  outcome (onDataLineReceived line c) = Returned tt.
Proof.
  open_connection c.
  unfold onDataLineReceived, logAnswer, sendValue, clearTimeout, setError,
    disconnect.
  destruct te, cw as [[|n]|], ie, iet as [h|], ci, st; run_M;
    destruct (parseScpiValue line); reflexivity.
Qed.

Lemma onData_buffer_returns (chunk : string) (c : Connection) :
  outcome (onData_buffer chunk c) = Returned tt.
Proof.
  rewrite onData_buffer_run.
  destruct (first_line (buffered c ++ chunk)) as [[l rest]|].
  - rewrite outcome_bind, onDataLineReceived_returns, arm_coalescing_run.
    reflexivity.
  - rewrite arm_coalescing_run. reflexivity.
Qed.

Lemma flushData_returns (c : Connection) :
  outcome (flushData c) = Returned tt.
Proof.
  open_connection c. unfold flushData, logAnswer, clearTimeout.
  destruct lo as [op|], dt as [h|], d as [[|ch s]|], te; reflexivity.
Qed.

Lemma housekeeping_returns (c : Connection) :
  outcome (housekeeping c) = Returned tt.
Proof.
  open_connection c. unfold housekeeping, longOperationDone, sendValue.
  destruct lo as [op|]; run_M; [|reflexivity].
  destruct (isDone op), cw as [[|n]|]; reflexivity.
Qed.

Lemma send_returns (command : string) (options : option SendOptions)
    (c : Connection) :
  outcome (send command options c) = Returned tt.
Proof.
  destruct (send_refusal c options) as [reason|] eqn:Hr.
  - rewrite (send_refused_run c command options reason Hr). reflexivity.
  - destruct (communicationInterface c) as [which|] eqn:Hci.
    + rewrite (send_accepted_run c command options which Hr Hci).
      reflexivity.
    + unfold send_refusal, usable in Hr. rewrite Hci in Hr.
      rewrite andb_false_r in Hr. discriminate Hr.
Qed.

Lemma onData_returns (chunk : string) (c : Connection) :
  outcome (onData chunk c) = Returned tt.
Proof.
  open_connection c.
  unfold onData, longOperationDone, sendValue, clearTimeout. unfold_M.
  destruct dt as [h|], lo as [op|], d as [s|]; cbn -[onData_buffer];
    repeat match goal with
           | |- context [if ?b then _ else _] => destruct b; cbn -[onData_buffer]
           | |- context [match dataSurplus ?o with _ => _ end] =>
               destruct (dataSurplus o); cbn -[onData_buffer]
           | |- context [match cw with _ => _ end] =>
               destruct cw as [[|n]|]; cbn -[onData_buffer]
           end.
  all: try reflexivity.
  all: match goal with
       | |- context [onData_buffer ?s ?c'] =>
           pose proof (onData_buffer_returns s c') as Hbuf;
           destruct (onData_buffer s c') as [[r c2] t2];
           cbn in Hbuf; subst r; reflexivity
       end.
Qed.

Lemma connected_returns (now : Z) (c : Connection) :
  outcome (connected now c) = Returned tt.
Proof.
  unfold connected, sendIdn.
  repeat first
    [ rewrite outcome_bind
    | rewrite send_returns
    | rewrite flushData_returns
    | progress cbn [modify get emit ret add_timer setTimeout setInterval
                    outcome final fst snd state set_state negb
                    ConnectionState_eqb]
    | match goal with
      | |- context [if ?b then _ else _] => destruct b
      end ].
  all: reflexivity.
Qed.

Lemma fire_returns (h : nat) (c : Connection) :
  outcome (fire h c) = Returned tt.
Proof.
  destruct (find (fun t => Nat.eqb (handle t) h) (timers c)) as [t|] eqn:Hfind.
  - rewrite (fire_pending h c t Hfind), outcome_bind.
    assert (Hwhen : outcome
              (when (negb (repeating t))
                 (modify (fun c => set_timers (cancel h (timers c)) c)) c)
              = Returned tt) by (destruct (repeating t); reflexivity).
    rewrite Hwhen. unfold run_callback, idnTimeout, setError.
    destruct (callback t).
    + apply flushData_returns.
    + rewrite outcome_bind. cbn [outcome bind modify fst snd].
      apply disconnect_returns.
    + apply housekeeping_returns.
  - rewrite (fire_not_pending h c Hfind). reflexivity.
Qed.

(** X17.  Only two requests can fail with an exception of the class's own
    making: [connect()] on an idle connection whose instrument has no stored
    connection parameters (a TypeError), and [startLongOperation] when it is
    refused (the refusal text).  As long as the external calls (activity
    log, window, transport, long operation, parser, notification) return,
    every other request, every transport event and every timer expiry
    returns normally in every state: [send], [download], [disconnect],
    [destroy], [abortLongOperation], [acquire], [release], the connected
    and disconnected events, incoming data, the coalescing and
    identification timeouts and the housekeeping tick. *)
Theorem exceptions (c : Connection) (s : Step) :
  outcome (step s c) =
    match raised s c with
    | Some e => Thrown e
    | None => Returned tt
    end.
Proof.
  destruct s; cbn [step raised].
  - unfold connect. run_M.
    destruct (ConnectionState_eqb (state c) IDLE); [|reflexivity]. cbn.
    destruct (lastConnection (instrument c)); reflexivity.
  - apply disconnect_returns.
  - open_connection c. unfold destroy, disconnect.
    destruct ci, st; reflexivity.
  - apply send_returns.
  - unfold download, startLongOperation, logAnswer. open_connection c.
    destruct st, ci, lo as [op|], te; run_M;
      try destruct (isFileTransfer op); reflexivity.
  - unfold startLongOperation, start_refusal, usable, busy_with.
    open_connection c.
    destruct st, ci, lo as [op|]; run_M;
      try destruct (isFileTransfer op); reflexivity.
  - unfold abortLongOperation. run_M.
    destruct (longOperation c); reflexivity.
  - unfold acquire. run_M.
    destruct (ConnectionState_eqb (state c) CONNECTED); reflexivity.
  - reflexivity.
  - reflexivity.
  - apply connected_returns.
  - rewrite disconnected_run. reflexivity.
  - apply onData_returns.
  - reflexivity.
  - apply fire_returns.
Qed.

End Exceptions.
